(** * Acunetix report notification: the scan-to-report reconciliation workflow

    A shallow embedding of [src/packages/api_client.py],
    [src/scan_processor.py], the notification part of [src/main.py] and
    [send_email] of [src/email_sender.py], followed by the properties of
    the workflow.

    Conventions of the embedding:
    - a Python [str] is a list of Unicode code points;
    - a value decoded from JSON is a [json] tree, and the Python operations
      on it ([dict.get], truthiness, [==], [in], [isinstance]) are written out
      with the exceptions they raise;
    - a method of the program is a computation in the state-and-exception
      monad [M]: it reads and changes the processor state and the outside
      world, and either returns a value or raises a Python exception;
    - the outside world (the HTTP session, the clock, the disk, the mail
      server) is the interface [Env]; every call into it is also recorded in
      a chronological trace, so that "is called", "is not called" and "is
      called n times" are statements about the trace;
    - a Python [float] is a binary64 number, [time.sleep] is the function
      [time_sleep] of its argument;
    - logging is not modelled, nor is the parsing of the command line and
      of the configuration file. *)

From Stdlib Require Import List String Ascii ZArith NArith Bool Lia.
From Stdlib Require Import PrimFloat.
Import ListNotations.

Set Implicit Arguments.
Set Warnings "-register-all".
Local Open Scope Z_scope.

(** ** Python strings *)

Module Py.

Definition char := N.
Definition str := list char.

(** The Python text of a literal of the source. *)
Definition lit (s : string) : str :=
  List.map N_of_ascii (list_ascii_of_string s).

Definition char_eqb (a b : char) : bool := N.eqb a b.

Fixpoint str_eqb (a b : str) : bool :=
  match a, b with
  | [], [] => true
  | x :: a', y :: b' => char_eqb x y && str_eqb a' b'
  | _, _ => false
  end.

(** [s.startswith(p)] *)
Fixpoint startswith (s p : str) : bool :=
  match p, s with
  | [], _ => true
  | y :: p', x :: s' => char_eqb x y && startswith s' p'
  | _ :: _, [] => false
  end.

(** [s.endswith(p)] *)
Definition endswith (s p : str) : bool := startswith (rev s) (rev p).

(** [s.lstrip(c)] for a one-character argument. *)
Fixpoint lstrip (c : char) (s : str) : str :=
  match s with
  | x :: s' => if char_eqb x c then lstrip c s' else s
  | [] => []
  end.

(** [s.rstrip(c)] for a one-character argument. *)
Definition rstrip (c : char) (s : str) : str := rev (lstrip c (rev s)).

(** [s[n:]] for [0 <= n]. *)
Definition slice_from (n : nat) (s : str) : str := skipn n s.

(** [s[:-n]] for [0 < n]. *)
Definition slice_to_minus (n : nat) (s : str) : str :=
  firstn (List.length s - n) s.

Definition slash : char := 47%N.
Definition backslash : char := 92%N.
Definition underscore : char := 95%N.
Definition hyphen : char := 45%N.
Definition dot : char := 46%N.

(** [c.isalnum()] on one character. On ASCII it is the letters and digits;
    outside ASCII it is decided by the Unicode character database, which is
    not part of the sources and is taken as the table [uni_alnum]. *)
Definition ascii_isalnum (c : char) : bool :=
  ((48 <=? c) && (c <=? 57) || (65 <=? c) && (c <=? 90) ||
   (97 <=? c) && (c <=? 122))%N.

Definition char_isalnum (uni_alnum : char -> bool) (c : char) : bool :=
  if (c <? 128)%N then ascii_isalnum c else uni_alnum c.

(** [s.isalnum()]: every character is alphanumeric and there is at least
    one character. *)
Definition str_isalnum (uni_alnum : char -> bool) (s : str) : bool :=
  match s with
  | [] => false
  | _ => forallb (char_isalnum uni_alnum) s
  end.

(** ** JSON values as Python objects *)

(** What [json.load] and [response.json()] produce. A JSON number is
    modelled by an integer. A [dict] is an association list in which the
    first binding of a key is the one in force. *)
Inductive json : Type :=
| JNull
| JBool (b : bool)
| JInt (z : Z)
| JStr (s : str)
| JList (l : list json)
| JDict (d : list (str * json)).

(** Python exceptions the workflow can meet. A [RequestException] carries
    what its handler inspects: whether [e.response] is present and, if so,
    what [e.response.json()] gives. *)
Inductive err_body : Type :=
| NoResponse
| BodyNotJson
| BodyJson (j : json).

Inductive exn : Type :=
| AcunetixAPIError
| ScanProcessorError
| ValueError
| AttributeError
| TypeError
| RequestException (b : err_body)
| OSError
| OverflowError
| OtherException.

Inductive res (A : Type) : Type :=
| Ret (a : A)
| Raise (e : exn).
Arguments Ret {A} a.
Arguments Raise {A} e.

(** [bool(v)] *)
Definition truthy (v : json) : bool :=
  match v with
  | JNull => false
  | JBool b => b
  | JInt z => negb (z =? 0)
  | JStr s => match s with [] => false | _ => true end
  | JList l => match l with [] => false | _ => true end
  | JDict d => match d with [] => false | _ => true end
  end.

(** [d[k]] when present. *)
Fixpoint dict_lookup (k : str) (d : list (str * json)) : option json :=
  match d with
  | [] => None
  | (k', v) :: d' => if str_eqb k k' then Some v else dict_lookup k d'
  end.

(** [v.get(k, default)]: only a [dict] has the method. *)
Definition get_default (v : json) (k : str) (default : json) : res json :=
  match v with
  | JDict d =>
      match dict_lookup k d with
      | Some x => Ret x
      | None => Ret default
      end
  | _ => Raise AttributeError
  end.

(** [v.get(k)] *)
Definition get (v : json) (k : str) : res json := get_default v k JNull.

(** [v == s] for a string [s]. *)
Definition eq_str (v : json) (s : str) : bool :=
  match v with
  | JStr t => str_eqb t s
  | _ => false
  end.

(** Whether [hash(v)] is defined. *)
Definition hashable (v : json) : bool :=
  match v with
  | JList _ | JDict _ => false
  | _ => true
  end.

(** [a == b] on hashable values: [True == 1] and [False == 0]. *)
Definition key_eq (a b : json) : bool :=
  match a, b with
  | JNull, JNull => true
  | JBool x, JBool y => Bool.eqb x y
  | JBool x, JInt z | JInt z, JBool x => (z =? (if x then 1 else 0))
  | JInt x, JInt y => (x =? y)
  | JStr s, JStr t => str_eqb s t
  | _, _ => false
  end.

(** A Python [set] of hashable values: its members, without repetition up
    to [==], in the order they were added. *)
Definition pyset := list json.

Definition member (x : json) (s : pyset) : bool := existsb (key_eq x) s.

(** [x in s] *)
Definition set_contains (x : json) (s : pyset) : res bool :=
  if hashable x then Ret (member x s) else Raise TypeError.

(** [s.add(x)] for a hashable [x]. *)
Definition set_add (x : json) (s : pyset) : pyset :=
  if member x s then s else s ++ [x].

(** The values [for x in v] goes through, when [v] is iterable. *)
Definition iterate (v : json) : res (list json) :=
  match v with
  | JList l => Ret l
  | JDict d => Ret (List.map (fun kv => JStr (fst kv)) d)
  | JStr s => Ret (List.map (fun c => JStr [c]) s)
  | _ => Raise TypeError
  end.

(** [set(v)] *)
Definition set_of (v : json) : res pyset :=
  match iterate v with
  | Ret l =>
      if forallb hashable l then Ret (fold_left (fun s x => set_add x s) l [])
      else Raise TypeError
  | Raise e => Raise e
  end.

End Py.

Import Py.

(** ** Configuration ([src/models.py]) *)

(** [AcunetixConfig]; the fields the client reads. *)
Record AcunetixConfig : Type := {
  url : str;
  report_template_id : str;
  timeout : Z;
  max_retries : Z;
  backoff_factor : float
}.

(** [PathConfig] *)
Record PathConfig : Type := {
  reports_dir : str;
  processed_file : str
}.

(** [Settings] *)
Record Settings : Type := {
  scan_check_delay : Z;
  report_max_retries : Z;
  report_retry_delay : Z
}.

(** [AppConfig] *)
Record AppConfig : Type := {
  acunetix : AcunetixConfig;
  paths : PathConfig;
  settings : Settings
}.

(** A [pathlib.Path] made as [directory / file_name]. The file names the
    workflow builds hold no separator, so the two parts stay apart. *)
Record Path : Type := {
  parent : str;
  name : str
}.

(** [ScanResult] of [src/models.py] *)
Record ScanResult : Type := {
  scan_id : json;
  target_id : json;
  description : json;
  start_date : json;
  report_path : Path;
  severity_counts : json;
  current_session : json
}.

(** ** The outside world and the trace *)

(** What the processed-scans file holds. *)
Inductive file_state : Type :=
| FileAbsent                 (* [processed_file.exists()] is false *)
| FileUnreadable             (* [exists()] or [open] raises *)
| FileCorrupt                (* [json.load] raises *)
| FileJson (v : json).       (* [json.load] gives [v] *)

(** What one attempt to write the processed-scans file does to it. *)
Inductive write_outcome : Type :=
| WriteDone                  (* the array is on disk *)
| WriteRefused               (* [mkdir] or [open] raised: file untouched *)
| WriteTruncated.            (* [open] truncated, [json.dump] raised *)

(** The argument of a call of [time.sleep]. *)
Inductive sleep_kind : Type :=
| Backoff (backoff_time : float)  (* the [float] of [_make_request] *)
| Delay (seconds : Z).            (* an [int] of the settings *)

(** The methods of [AcunetixAPI] the processor calls. *)
Inductive call : Type :=
| FetchAllScans
| GenerateReport (target : json)
| GetReportStatus (report : json)
| DownloadReport (url_suffix : json) (file_path : Path).

Inductive event : Type :=
| EvCall (c : call)
| EvRequest (method full_url : str) (body : option json)
| EvStream (full_url : str) (file_path : Path)
| EvSleep (k : sleep_kind)
| EvNow
| EvMkdir (dir : str)
| EvSave (ids : list json)
| EvSendEmail (attachments : list Path).

(** The collaborators of the workflow, over a world state [W].
    - [uni_alnum]: [str.isalnum] on a character outside ASCII.
    - [format_value]: the text of [v] in an f-string, for a value that is
      not a [str].
    - [session_request]: one call of [session.request(...)], with
      [raise_for_status()] and the decoding of the body; [Ret None] is a
      response without content. What the retry adapter [_create_session]
      mounts on the session sends again on the wire happens inside this one
      call.
    - [session_get]: the streamed [session.get] of [download_report] with the
      writing of the file.
    - [strftime_now]: [datetime.now().strftime(...)] of the file name.
    - [make_dirs]: [mkdir(parents=True, exist_ok=True)] on a directory.
    - [write_file]: the [mkdir], [open] and [json.dump] of
      [_save_processed_scans].
    - [path_exists]: [Path.exists()].
    - [send_email]: [send_email] of [src/email_sender.py], given the number
      of results (for the subject) and the attachments. *)
Class Env (W : Type) : Type := {
  uni_alnum : char -> bool;
  format_value : json -> str;
  session_request : str -> str -> option json -> W -> res (option json) * W;
  session_get : str -> Path -> W -> res unit * W;
  strftime_now : W -> str * W;
  make_dirs : str -> W -> res unit * W;
  write_file : str -> list json -> W -> write_outcome * W;
  path_exists : Path -> W -> bool;
  send_email : nat -> list Path -> W -> res bool * W
}.

(** The state of a run: the world, the trace of calls so far, the
    [processed_scans] attribute of the processor, and the processed-scans
    file. *)
Record pstate (W : Type) : Type := {
  world : W;
  trace : list event;
  processed_scans : pyset;
  store : file_state
}.

(** ** The monad of the methods *)

Definition M (W A : Type) : Type := pstate W -> res A * pstate W.

Definition ret {W A} (a : A) : M W A := fun s => (Ret a, s).

Definition raise {W A} (e : exn) : M W A := fun s => (Raise e, s).

Definition bind {W A B} (m : M W A) (k : A -> M W B) : M W B :=
  fun s =>
    match m s with
    | (Ret a, s') => k a s'
    | (Raise e, s') => (Raise e, s')
    end.

(** [try: m  except <all>: h e] where [h] re-raises what its clause does not
    name. *)
Definition try_except {W A} (m : M W A) (h : exn -> M W A) : M W A :=
  fun s =>
    match m s with
    | (Ret a, s') => (Ret a, s')
    | (Raise e, s') => h e s'
    end.

Declare Scope py_scope.
Delimit Scope py_scope with py.
Notation "x <- m ;; k" := (bind m (fun x => k))
  (at level 61, m at next level, right associativity) : py_scope.
Notation "m ;;; k" := (bind m (fun _ => k))
  (at level 61, right associativity) : py_scope.
Local Open Scope py_scope.

Definition lift {W A} (r : res A) : M W A := fun s => (r, s).

Definition emit {W} (e : event) : M W unit :=
  fun s => (Ret tt, {| world := world s; trace := trace s ++ [e];
                       processed_scans := processed_scans s;
                       store := store s |}).

(** A call into the world: the world moves on, the rest of the state stays. *)
Definition ask {W A} (f : W -> A * W) : M W A :=
  fun s => let (a, w) := f (world s) in
           (Ret a, {| world := w; trace := trace s;
                      processed_scans := processed_scans s;
                      store := store s |}).

Definition ask_res {W A} (f : W -> res A * W) : M W A :=
  bind (ask f) lift.

(** [2.0 ** n] *)
Fixpoint pow2 (n : nat) : float :=
  match n with
  | O => 1%float
  | S k => (2 * pow2 k)%float
  end.

(** The [float] that [x * (2 ** attempt)] makes of its [int] operand, for
    [0 <= attempt]: an [int] from [2 ** 1024] on is too large to convert. *)
Definition float_of_pow2 (attempt : Z) : res float :=
  if attempt <? 1024 then Ret (pow2 (Z.to_nat attempt))
  else Raise OverflowError.

(** What [time.sleep] of CPython does with its argument before it sleeps.
    The length is converted to nanoseconds in a signed 64-bit integer: a
    length out of that range raises [OverflowError], a negative one and a
    [float] that is not a number raise [ValueError]. *)
Definition time_sleep (k : sleep_kind) : res unit :=
  match k with
  | Delay seconds =>
      if (seconds <? -9223372036) || (9223372036 <? seconds)
      then Raise OverflowError
      else if seconds <? 0 then Raise ValueError
      else Ret tt
  | Backoff backoff_time =>
      if PrimFloat.is_nan backoff_time then Raise ValueError
      else
        let ns := (backoff_time * 1e9)%float in
        if (ns <? -0x1p63)%float || (0x1p63 <=? ns)%float
        then Raise OverflowError
        else if (ns <? 0)%float then Raise ValueError
        else Ret tt
  end.

Arguments time_sleep : simpl never.
Arguments float_of_pow2 : simpl never.

(** [time.sleep(k)]: the call is recorded, also when it raises. *)
Definition sleep {W} (k : sleep_kind) : M W unit :=
  emit (EvSleep k) ;;; lift (time_sleep k).

(** [f"{v}"] *)
Definition format {W} `{Env W} (v : json) : str :=
  match v with
  | JStr s => s
  | _ => format_value v
  end.

(** ** The API client ([src/packages/api_client.py]) *)

Section ApiClient.

Context {W : Type} `{Env W}.
Variable config : AcunetixConfig.

(** The [except RequestException] clause of [_make_request] up to the
    choice between retrying and giving up: it builds the log message, and
    [e.response.json().get('message', ...)] is guarded by
    [except ValueError] only. *)
Definition request_error_message (b : err_body) : res unit :=
  match b with
  | NoResponse => Ret tt
  | BodyNotJson => Ret tt
  | BodyJson j =>
      match get_default j (lit "message") JNull with
      | Ret _ => Ret tt
      | Raise e => Raise e
      end
  end.

(** The loop [for attempt in range(max_retries + 1)] of [_make_request],
    with [remaining] iterations to go. *)
Fixpoint request_loop (method full_url : str) (body : option json)
    (remaining : nat) (attempt : Z) : M W json :=
  match remaining with
  | O => raise AcunetixAPIError
  | S k =>
      try_except
        (emit (EvRequest method full_url body) ;;;
         content <- ask_res (session_request method full_url body) ;;
         ret (match content with Some j => j | None => JDict [] end))
        (fun e =>
           match e with
           | RequestException b =>
               lift (request_error_message b) ;;;
               (if attempt <? max_retries config
                then
                  power <- lift (float_of_pow2 attempt) ;;
                  sleep (Backoff (backoff_factor config * power))
                else ret tt) ;;;
               request_loop method full_url body k (attempt + 1)
           | _ => raise e
           end)
  end.

Definition _make_request (method endpoint : str) (body : option json)
    : M W json :=
  let full_url :=
    rstrip slash (url config) ++ [slash] ++ lstrip slash endpoint in
  request_loop method full_url body (Z.to_nat (max_retries config + 1)) 0.

(** [len(v)] as far as the client needs it: whether it is defined. *)
Definition has_len (v : json) : res unit :=
  match v with
  | JStr _ | JList _ | JDict _ => Ret tt
  | _ => Raise TypeError
  end.

Definition fetch_all_scans : M W json :=
  emit (EvCall FetchAllScans) ;;;
  result <- _make_request (lit "GET") (lit "/scans") None ;;
  scans <- lift (get_default result (lit "scans") (JList [])) ;;
  lift (has_len scans) ;;;
  ret result.

Definition generate_report (target_id : json) : M W json :=
  emit (EvCall (GenerateReport target_id)) ;;;
  if negb (truthy target_id) then raise ValueError
  else
    let payload :=
      JDict [ (lit "template_id", JStr (report_template_id config));
              (lit "source",
               JDict [ (lit "list_type", JStr (lit "targets"));
                       (lit "id_list", JList [target_id]) ]) ] in
    _make_request (lit "POST") (lit "/reports") (Some payload).

Definition get_report_status (report_id : json) : M W json :=
  emit (EvCall (GetReportStatus report_id)) ;;;
  if negb (truthy report_id) then raise ValueError
  else _make_request (lit "GET") (lit "/reports/" ++ format report_id) None.

(** The URL [download_report] fetches for a textual [url_suffix]. *)
Definition download_url_of (url_suffix : str) : str :=
  if startswith url_suffix (lit "http://")
     || startswith url_suffix (lit "https://")
  then url_suffix
  else
    let url_suffix :=
      if negb (startswith url_suffix (lit "/"))
      then lit "/" ++ url_suffix else url_suffix in
    let base_url := rstrip slash (url config) in
    let base_url :=
      if endswith base_url (lit "/api/v1")
      then slice_to_minus 7 base_url else base_url in
    let url_suffix :=
      if startswith url_suffix (lit "/api/v1")
      then slice_from 7 url_suffix else url_suffix in
    let url_suffix := lstrip slash url_suffix in
    base_url ++ lit "/api/v1/" ++ url_suffix.

(** [download_report]. The [file_path] is a [Path] by its type, so the
    [isinstance] guard never fires. Every exception of the [try] block is
    caught by one of its two clauses and gives [False]; this includes the
    [AttributeError] of [url_suffix.startswith] on a value that is not a
    [str]. *)
Definition download_report (url_suffix : json) (file_path : Path)
    : M W bool :=
  emit (EvCall (DownloadReport url_suffix file_path)) ;;;
  if negb (truthy url_suffix) then ret false
  else
    try_except
      (match url_suffix with
       | JStr u =>
           let full_url := download_url_of u in
           emit (EvStream full_url file_path) ;;;
           ask_res (session_get full_url file_path) ;;;
           ret true
       | _ => raise AttributeError
       end)
      (fun _ => ret false).

End ApiClient.

(** ** The scan processor ([src/scan_processor.py]) *)

(** How the body of one loop iteration ends: a [return], a [continue], or
    falling through to the statements after the [try]. *)
Inductive loop_exit (A : Type) : Type :=
| Return (a : A)
| Continue
| FallThrough.
Arguments Return {A} a.
Arguments Continue {A}.
Arguments FallThrough {A}.

Section ScanProcessor.

Context {W : Type} `{Env W}.
Variable config : AppConfig.

Definition get_processed : M W pyset :=
  fun s => (Ret (processed_scans s), s).

Definition set_processed (ids : pyset) : M W unit :=
  fun s => (Ret tt, {| world := world s; trace := trace s;
                       processed_scans := ids; store := store s |}).

Definition get_store : M W file_state :=
  fun s => (Ret (store s), s).

Definition set_store (f : file_state) : M W unit :=
  fun s => (Ret tt, {| world := world s; trace := trace s;
                       processed_scans := processed_scans s; store := f |}).

(** [_load_processed_scans]. When the file does not exist the attribute
    keeps the value it has. *)
Definition _load_processed_scans : M W unit :=
  try_except
    (f <- get_store ;;
     match f with
     | FileAbsent => ret tt
     | FileUnreadable => raise OSError
     | FileCorrupt => raise ValueError
     | FileJson v => ids <- lift (set_of v) ;; set_processed ids
     end)
    (fun _ => set_processed []).

(** [_save_processed_scans]: every exception of the write is caught and
    logged. [list(self.processed_scans)] has some order of the members;
    the model writes them in the order of [pyset]. *)
Definition _save_processed_scans : M W unit :=
  ids <- get_processed ;;
  emit (EvSave ids) ;;;
  o <- ask (write_file (processed_file (paths config)) ids) ;;
  match o with
  | WriteDone => set_store (FileJson (JList ids))
  | WriteRefused => ret tt
  | WriteTruncated => set_store FileCorrupt
  end.

(** [ScanProcessor.__init__] *)
Definition ScanProcessor_init : M W unit :=
  set_processed [] ;;;
  _load_processed_scans.

(** The loop of [_wait_for_report] with [remaining] attempts to go. Python's
    [None] is [JNull]. *)
Fixpoint wait_loop (report_id : json) (remaining : nat) : M W json :=
  match remaining with
  | O => ret JNull
  | S k =>
      step <- try_except
        (report <- get_report_status (acunetix config) report_id ;;
         if negb (truthy report) then ret Continue
         else
           status <- lift (get report (lit "status")) ;;
           if eq_str status (lit "completed") then ret (Return report)
           else if eq_str status (lit "failed")
                   || eq_str status (lit "cancelled")
           then ret (Return JNull)
           else ret FallThrough)
        (fun e =>
           match e with
           | AcunetixAPIError => ret (Return JNull)
           | _ => raise e
           end) ;;
      match step with
      | Return v => ret v
      | Continue => wait_loop report_id k
      | FallThrough =>
          sleep (Delay (report_retry_delay (settings config))) ;;;
          wait_loop report_id k
      end
  end.

(** [_wait_for_report(report_id, max_attempts)] *)
Definition _wait_for_report_n (report_id : json) (max_attempts : Z)
    : M W json :=
  wait_loop report_id (Z.to_nat max_attempts).

(** [_wait_for_report(report_id)] with the default [max_attempts = 10]. *)
Definition _wait_for_report (report_id : json) : M W json :=
  _wait_for_report_n report_id 10.

(** One item of the generator of [safe_name]:
    [c if c.isalnum() or c in ('-', '_', '.') else '_']. *)
Definition safe_item (c : json) : res str :=
  match c with
  | JStr t =>
      if str_isalnum uni_alnum t
         || str_eqb t (lit "-") || str_eqb t (lit "_") || str_eqb t (lit ".")
      then Ret t else Ret (lit "_")
  | _ => Raise AttributeError
  end.

(** ["".join(... for c in target_name)] over the items of the iteration. *)
Fixpoint join_items (items : list json) : res str :=
  match items with
  | [] => Ret []
  | c :: rest =>
      match safe_item c with
      | Ret t =>
          match join_items rest with
          | Ret u => Ret (t ++ u)
          | Raise e => Raise e
          end
      | Raise e => Raise e
      end
  end.

Definition safe_name_of (target_name : json) : res str :=
  match iterate target_name with
  | Ret items => join_items items
  | Raise e => Raise e
  end.

(** The value of [download_url] after the chain of tests on [report]. *)
Definition extract_download_url (report : json) : res json :=
  match report with
  | JDict d =>
      match dict_lookup (lit "download") d with
      | Some (JStr u) => Ret (JStr u)
      | Some (JList (item :: _)) =>
          match item with
          | JDict _ => get item (lit "url")
          | JStr _ => Ret item
          | _ => Ret JNull
          end
      | _ =>
          match dict_lookup (lit "download_url") d with
          | Some v => Ret v
          | None =>
              match dict_lookup (lit "report_id") d with
              | Some v => Ret v
              | None => Ret JNull
              end
          end
      end
  | JStr _ => Ret report
  | _ => Ret JNull
  end.

(** The [try] block of [_generate_scan_report]. *)
Definition generate_scan_report_body (scan_data scan_id target_id : json)
    : M W (option ScanResult) :=
  report_data <- generate_report (acunetix config) target_id ;;
  report_id <- lift (get report_data (lit "report_id")) ;;
  if negb (truthy report_id) then ret None
  else
    report <- _wait_for_report report_id ;;
    if negb (truthy report) then ret None
    else
      target <- lift (get_default scan_data (lit "target") (JDict [])) ;;
      target_name <-
        lift (get_default target (lit "description") (JStr (lit "report"))) ;;
      safe_name <- lift (safe_name_of target_name) ;;
      emit EvNow ;;;
      timestamp <- ask strftime_now ;;
      let report_filename := safe_name ++ lit "_" ++ timestamp ++ lit ".html" in
      let report_path :=
        {| parent := reports_dir (paths config); name := report_filename |} in
      download_url <- lift (extract_download_url report) ;;
      if negb (truthy download_url) then ret None
      else
        emit (EvMkdir (parent report_path)) ;;;
        ask_res (make_dirs (parent report_path)) ;;;
        ok <- download_report (acunetix config) download_url report_path ;;
        if negb ok then ret None
        else
          session <-
            lift (get_default scan_data (lit "current_session") (JDict [])) ;;
          start <- lift (get_default session (lit "start_date") (JStr [])) ;;
          counts <-
            lift (get_default session (lit "severity_counts") (JDict [])) ;;
          ret (Some {| scan_id := scan_id;
                       target_id := target_id;
                       description := target_name;
                       start_date := start;
                       report_path := report_path;
                       severity_counts := counts;
                       current_session := session |}).

Definition _generate_scan_report (scan_data : json)
    : M W (option ScanResult) :=
  scan_id <- lift (get scan_data (lit "scan_id")) ;;
  target_id <- lift (get scan_data (lit "target_id")) ;;
  session <-
    lift (get_default scan_data (lit "current_session") (JDict [])) ;;
  scan_status <- lift (get session (lit "status")) ;;
  if negb (truthy scan_id) || negb (truthy target_id) then ret None
  else
    processed <- get_processed ;;
    seen <- lift (set_contains scan_id processed) ;;
    if seen then ret None
    else if eq_str scan_status (lit "scheduled") then ret None
    else if negb (eq_str scan_status (lit "completed")) then ret None
    else
      try_except
        (generate_scan_report_body scan_data scan_id target_id)
        (fun _ => ret None).

Definition mark_as_processed (scan_id : json) : M W unit :=
  processed <- get_processed ;;
  seen <- lift (set_contains scan_id processed) ;;
  if negb seen then
    set_processed (set_add scan_id processed) ;;;
    _save_processed_scans
  else ret tt.

(** The loop [for scan in scans] of [process_scans]. The handler of the
    inner [try] formats its message with [scan.get('scan_id')]. A
    [ScanResult] is always true as a condition. *)
Fixpoint scan_loop (scans : list json) (results : list ScanResult)
    : M W (list ScanResult) :=
  match scans with
  | [] => ret results
  | scan :: rest =>
      results <- try_except
        (result <- _generate_scan_report scan ;;
         match result with
         | Some r => ret (results ++ [r])
         | None => ret results
         end)
        (fun _ => lift (get scan (lit "scan_id")) ;;; ret results) ;;
      scan_loop rest results
  end.

Definition process_scans : M W (list ScanResult) :=
  try_except
    (scan_data <- fetch_all_scans (acunetix config) ;;
     scans <- lift (get_default scan_data (lit "scans") (JList [])) ;;
     if negb (truthy scans) then ret []
     else
       items <- lift (iterate scans) ;;
       scan_loop items [])
    (fun _ => raise ScanProcessorError).

End ScanProcessor.

(** ** The entry point ([src/main.py]) *)

(** How [main] ends: it returns, or it calls [sys.exit(code)]. *)
Inductive exit_status : Type :=
| Completed
| SysExit (code : Z).

Section Main.

Context {W : Type} `{Env W}.
Variable config : AppConfig.

(** [build_email_html] of [src/email_sender.py]: the text is not modelled,
    only whether building it succeeds. Each row calls
    [result.severity_counts.items()]. *)
Fixpoint build_email_html (scan_results : list ScanResult) : res unit :=
  match scan_results with
  | [] => Ret tt
  | result :: rest =>
      match severity_counts result with
      | JDict _ => build_email_html rest
      | _ => Raise AttributeError
      end
  end.

Definition get_world : M W W := fun s => (Ret (world s), s).

(** [for result in scan_results: processor.mark_as_processed(result.scan_id)] *)
Fixpoint mark_all (scan_results : list ScanResult) : M W unit :=
  match scan_results with
  | [] => ret tt
  | result :: rest =>
      mark_as_processed config (scan_id result) ;;;
      mark_all rest
  end.

(** The statement [if scan_results: ... else: ...] of [main]: the batch is
    notified, and committed when the notification succeeded. *)
Definition notify_and_commit (scan_results : list ScanResult) : M W unit :=
  match scan_results with
  | [] => ret tt
  | _ :: _ =>
      lift (build_email_html scan_results) ;;;
      w <- get_world ;;
      let report_paths :=
        filter (fun p => path_exists p w)
               (List.map report_path scan_results) in
      emit (EvSendEmail report_paths) ;;;
      email_sent <-
        ask_res (send_email (List.length scan_results) report_paths) ;;
      if email_sent then mark_all scan_results else ret tt
  end.

(** [main] from the point where the configuration is loaded. Each
    [except] clause for an exception of the model ends in [sys.exit(1)]. *)
Definition main : M W exit_status :=
  try_except
    (ScanProcessor_init ;;;
     scan_results <- process_scans config ;;
     notify_and_commit scan_results ;;;
     ret Completed)
    (fun _ => ret (SysExit 1)).

(** Whether the notification of a batch, started in state [s], returns
    success. *)
Definition notification_succeeds (scan_results : list ScanResult)
    (s : pstate W) : bool :=
  match scan_results, build_email_html scan_results with
  | _ :: _, Ret _ =>
      let report_paths :=
        filter (fun p => path_exists p (world s))
               (List.map report_path scan_results) in
      match fst (send_email (List.length scan_results) report_paths (world s))
      with
      | Ret true => true
      | _ => false
      end
  | _, _ => false
  end.

End Main.

(** ** A scripted world

    A stand-in for the remote service and the machine, as a test double
    would give it: the HTTP session answers the requests with the
    [responses] in turn, the other collaborators behave as the fields say. *)

Record script : Type := {
  responses : list (res (option json));
  download : res unit;
  clock : str;
  disk : write_outcome;
  mail : res bool
}.

Definition script_request (_ _ : str) (_ : option json) (w : script)
    : res (option json) * script :=
  match responses w with
  | [] => (Raise (RequestException NoResponse), w)
  | r :: rest =>
      (r, {| responses := rest; download := download w; clock := clock w;
             disk := disk w; mail := mail w |})
  end.

#[export] Instance script_env : Env script := {
  uni_alnum := fun _ => false;
  format_value := fun _ => lit "?";
  session_request := script_request;
  session_get := fun _ _ w => (download w, w);
  strftime_now := fun w => (clock w, w);
  make_dirs := fun _ w => (Ret tt, w);
  write_file := fun _ _ w => (disk w, w);
  path_exists := fun _ _ => true;
  send_email := fun _ _ w => (mail w, w)
}.

Definition start (w : script) (ids : pyset) (f : file_state) : pstate script :=
  {| world := w; trace := []; processed_scans := ids; store := f |}.

Definition sample_acunetix : AcunetixConfig :=
  {| url := lit "https://host/api/v1/";
     report_template_id := lit "11111111-1111-1111-1111-111111111111";
     timeout := 30;
     max_retries := 3;
     backoff_factor := 0x1.3333333333333p-2 (* the float 0.3 *) |}.

Definition sample_config : AppConfig :=
  {| acunetix := sample_acunetix;
     paths := {| reports_dir := lit "reports";
                 processed_file := lit "data/processed_scans.json" |};
     settings := {| scan_check_delay := 3600;
                    report_max_retries := 10;
                    report_retry_delay := 10 |} |}.

Definition report_with (status : string) : json :=
  JDict [ (lit "report_id", JStr (lit "r1")); (lit "status", JStr (lit status)) ].

Definition scan_with (id status : string) : json :=
  JDict [ (lit "scan_id", JStr (lit id));
          (lit "target_id", JStr (lit "t1"));
          (lit "target", JDict [ (lit "description", JStr (lit "My App: v2 (staging)")) ]);
          (lit "current_session",
           JDict [ (lit "status", JStr (lit status));
                   (lit "start_date", JStr (lit "2024-01-01"));
                   (lit "severity_counts", JDict [ (lit "high", JInt 1) ]) ]) ].

(** ** Vocabulary of the properties *)

(** Counting in a trace: the calls of [get_report_status] and the calls of
    [session.request]. One call of [session.request] is one event, however
    often the retry adapter of the session sends the request on the wire
    inside it. *)
Definition is_poll (e : event) : bool :=
  match e with EvCall (GetReportStatus _) => true | _ => false end.

Definition is_request (e : event) : bool :=
  match e with EvRequest _ _ _ => true | _ => false end.

(** What the back-off of [_make_request] after the rejected [attempt]
    does: the computation of the length and the [time.sleep]. *)
Definition backoff_sleep (cfg : AcunetixConfig) (attempt : Z) : res unit :=
  match float_of_pow2 attempt with
  | Ret power => time_sleep (Backoff (backoff_factor cfg * power))
  | Raise e => Raise e
  end.

(** Every back-off [_make_request] can come to, one after each attempt but
    the last, goes through. *)
Definition backoff_ok (cfg : AcunetixConfig) : Prop :=
  forall attempt,
    0 <= attempt < max_retries cfg -> backoff_sleep cfg attempt = Ret tt.

(** The configuration [cfg] with another back-off factor. *)
Definition with_factor (cfg : AcunetixConfig) (factor : float)
    : AcunetixConfig :=
  {| url := url cfg;
     report_template_id := report_template_id cfg;
     timeout := timeout cfg;
     max_retries := max_retries cfg;
     backoff_factor := factor |}.

(** The configuration [cfg] with other delays. *)
Definition with_delays (cfg : AppConfig) (check retry : Z) : AppConfig :=
  {| acunetix := acunetix cfg;
     paths := paths cfg;
     settings := {| scan_check_delay := check;
                    report_max_retries := report_max_retries (settings cfg);
                    report_retry_delay := retry |} |}.

(** The configuration [cfg] with another client configuration. *)
Definition with_acunetix (cfg : AppConfig) (a : AcunetixConfig) : AppConfig :=
  {| acunetix := a; paths := paths cfg; settings := settings cfg |}.

(** A delay of the settings that [time.sleep] accepts. *)
Definition sleepable (seconds : Z) : bool :=
  (0 <=? seconds) && (seconds <=? 9223372036).

Definition count (p : event -> bool) (t : list event) : nat :=
  List.length (filter p t).

(** The key a hashable value stands for in a [set]: [True] and [1] are the
    same key, and so are [False] and [0]. *)
Inductive key : Type :=
| KNone
| KNum (z : Z)
| KStr (s : str).

Definition key_of (v : json) : option key :=
  match v with
  | JNull => Some KNone
  | JBool b => Some (KNum (if b then 1 else 0))
  | JInt z => Some (KNum z)
  | JStr s => Some (KStr s)
  | JList _ | JDict _ => None
  end.

(** The character [safe_name] keeps in place of [c]. *)
Definition sanitize_char (alnum : char -> bool) (c : char) : char :=
  if char_isalnum alnum c
     || char_eqb c hyphen || char_eqb c underscore || char_eqb c dot
  then c else underscore.

(** No character of [s] is a path separator. *)
Definition no_separator (s : str) : bool :=
  forallb (fun c => negb (char_eqb c slash || char_eqb c backslash)) s.


(** The status [_generate_scan_report] reads from a scan. *)
Definition scan_status_of (scan_data : json) : res json :=
  match get_default scan_data (lit "current_session") (JDict []) with
  | Ret session => get session (lit "status")
  | Raise e => Raise e
  end.

(** The [scan_id] of the scan is in the processed set. *)
Definition already_processed (scan_data : json) (ids : pyset) : bool :=
  match get scan_data (lit "scan_id") with
  | Ret id => member id ids
  | Raise _ => false
  end.

(** The status of the scan is exactly 'completed'. *)
Definition status_completed (scan_data : json) : bool :=
  match scan_status_of scan_data with
  | Ret status => eq_str status (lit "completed")
  | Raise _ => false
  end.

(** The outcome of processing a scan is a [ScanResult]. *)
Definition produced {A} (r : res (option A)) : bool :=
  match r with
  | Ret (Some _) => true
  | _ => false
  end.


(** In the worlds of [P] the service rejects every request: the attempt
    raises a [RequestException] whose message can be built, and the world
    stays in [P]. *)
Definition rejecting {W} `{Env W} (P : W -> Prop) : Prop :=
  forall method full_url body w,
    P w ->
    exists b w',
      session_request method full_url body w = (Raise (RequestException b), w')
      /\ request_error_message b = Ret tt
      /\ P w'.

(** A script with nothing left to answer. *)
Definition silent : script :=
  {| responses := []; download := Ret tt; clock := lit "20240101_000000";
     disk := WriteDone; mail := Ret true |}.


(** The report a poll returned is not empty and has the status [st]. *)
Definition has_status (report : json) (st : string) : bool :=
  truthy report &&
  match get report (lit "status") with
  | Ret v => eq_str v (lit st)
  | Raise _ => false
  end.

(** The report a poll returned is empty, or its status is none of
    'completed', 'failed' and 'cancelled'. *)
Definition keeps_polling (report : json) : bool :=
  negb (truthy report) ||
  match get report (lit "status") with
  | Ret v =>
      negb (eq_str v (lit "completed") || eq_str v (lit "failed")
            || eq_str v (lit "cancelled"))
  | Raise _ => false
  end.

(** The state in which the next poll starts after the poll that returned
    [report] left the state [s]: the wait sleeps, unless the report was
    empty. *)
Definition before_next_poll {W} (cfg : AppConfig) (report : json)
    (s : pstate W) : pstate W :=
  if truthy report
  then snd (sleep (Delay (report_retry_delay (settings cfg))) s)
  else s.

(** The answers of the service to a sequence of polls, for the script. *)
Definition answers (reports : list json) : list (res (option json)) :=
  List.map (fun r => Ret (Some r)) reports.


(** The 'download' field of a report payload is neither a string nor a
    non-empty list. *)
Definition no_download_field (d : list (str * json)) : bool :=
  match dict_lookup (lit "download") d with
  | Some (JStr _) => false
  | Some (JList (_ :: _)) => false
  | _ => true
  end.


(** The scan passes the tests before the [try] block of
    [_generate_scan_report], with the ids [id] and [tid]. *)
Definition eligible (scan_data : json) (ids : pyset) (id tid : json) : Prop :=
  get scan_data (lit "scan_id") = Ret id /\
  get scan_data (lit "target_id") = Ret tid /\
  truthy id = true /\ truthy tid = true /\
  hashable id = true /\ member id ids = false /\
  status_completed scan_data = true.

(** The scans a listing response gives to the loop of [process_scans]. *)
Definition listed (data : json) : list json :=
  match get_default data (lit "scans") (JList []) with
  | Ret scans =>
      if truthy scans
      then match iterate scans with
           | Ret items => items
           | Raise _ => []
           end
      else []
  | Raise _ => []
  end.

(** The computation [m] leaves the processed set and its file as they
    are. *)
Definition frames {W A} (m : M W A) : Prop :=
  forall s : pstate W,
    processed_scans (snd (m s)) = processed_scans s /\
    store (snd (m s)) = store s.

(** The value is a JSON object. *)
Definition is_dict (v : json) : bool :=
  match v with
  | JDict _ => true
  | _ => false
  end.


(** In the worlds of [P] the disk takes every write of the processed-scans
    file, and sending the email leaves the world in [P]. *)
Definition durable {W} `{Env W} (P : W -> Prop) : Prop :=
  (forall path ids w,
     P w ->
     fst (write_file path ids w) = WriteDone /\
     P (snd (write_file path ids w))) /\
  (forall n attachments w, P w -> P (snd (send_email n attachments w))).

(** Every member of the processed set was in [base] or is in a set that
    [_save_processed_scans] has written, or tried to write, since. *)
Definition saved_since {W} (base : pyset) (s : pstate W) : Prop :=
  forall x,
    member x (processed_scans s) = true ->
    member x base = true \/
    exists ids, In (EvSave ids) (trace s) /\ member x ids = true.

(** A result whose id can be a member of a set and is not in [ids]. *)
Definition fresh_result (ids : pyset) (r : ScanResult) : Prop :=
  hashable (scan_id r) = true /\ member (scan_id r) ids = false.


(** ** Sample runs against the script *)

(** The service lists a completed scan "s1" and a scheduled scan "s2",
    accepts the report request, and answers the polls running, running,
    completed. *)
Definition happy : script :=
  {| responses :=
       answers
         [ JDict [ (lit "scans",
                    JList [ scan_with "s1" "completed";
                            scan_with "s2" "scheduled" ]) ];
           JDict [ (lit "report_id", JStr (lit "r1")) ];
           report_with "running";
           report_with "running";
           report_with "completed" ];
     download := Ret tt;
     clock := lit "20240101_000000";
     disk := WriteDone;
     mail := Ret true |}.

(** The script that answers a sequence of polls. *)
Definition polls (reports : list json) : script :=
  {| responses := answers reports;
     download := Ret tt;
     clock := lit "20240101_000000";
     disk := WriteDone;
     mail := Ret true |}.

(** The script for one scan: the report request and one poll. *)
Definition one_report : script :=
  polls [ JDict [ (lit "report_id", JStr (lit "r1")) ];
          report_with "completed" ].

Definition happy_discovery : res (list ScanResult) * pstate script :=
  Eval vm_compute in process_scans sample_config (start happy [] FileAbsent).

Definition happy_batch : list ScanResult :=
  match fst happy_discovery with
  | Ret batch => batch
  | Raise _ => []
  end.

Definition one_report_run : res (option ScanResult) * pstate script :=
  Eval vm_compute in
    _generate_scan_report sample_config (scan_with "s1" "completed")
      (start one_report [] FileAbsent).

Definition one_report_result : option ScanResult :=
  match fst one_report_run with
  | Ret r => r
  | Raise _ => None
  end.

(** A completed report whose 'download' list gives no locator, beside a
    'download_url' and a 'report_id' that would give one. *)
Definition stray_report : json :=
  JDict [ (lit "report_id", JStr (lit "r1"));
          (lit "status", JStr (lit "completed"));
          (lit "download",
           JList [ JDict [ (lit "href",
                            JStr (lit "/reports/download/r1.html")) ] ]);
          (lit "download_url", JStr (lit "/reports/download/r1.html")) ].

(** The script for one scan whose poll answers [stray_report]. *)
Definition stray : script :=
  polls [ JDict [ (lit "report_id", JStr (lit "r1")) ]; stray_report ].

Definition stray_run : res (option ScanResult) * pstate script :=
  Eval vm_compute in
    _generate_scan_report sample_config (scan_with "s1" "completed")
      (start stray [] FileAbsent).

(** The service lists two completed scans, rejects every attempt of the
    report request for the first one, and serves the second one. *)
Definition mixed_listing : json :=
  JDict [ (lit "scans",
           JList [ scan_with "s1" "completed"; scan_with "s2" "completed" ]) ].

Definition mixed : script :=
  {| responses :=
       [ Ret (Some mixed_listing);
         Raise (RequestException NoResponse);
         Raise (RequestException NoResponse);
         Raise (RequestException NoResponse);
         Raise (RequestException NoResponse);
         Ret (Some (JDict [ (lit "report_id", JStr (lit "r2")) ]));
         Ret (Some (report_with "completed")) ];
     download := Ret tt;
     clock := lit "20240101_000000";
     disk := WriteDone;
     mail := Ret true |}.

Definition mixed_listed : res json * pstate script :=
  Eval vm_compute in
    fetch_all_scans sample_acunetix (start mixed [] FileAbsent).

Definition first_poll : res json * pstate script :=
  Eval vm_compute in
    get_report_status sample_acunetix (JStr (lit "r1"))
      (start (polls [report_with "failed"]) [] FileAbsent).

Definition first_poll_running : res json * pstate script :=
  Eval vm_compute in
    get_report_status sample_acunetix (JStr (lit "r1"))
      (start (polls [report_with "running"]) [] FileAbsent).

Definition listing_failure : res json * pstate script :=
  Eval vm_compute in
    fetch_all_scans sample_acunetix (start silent [] FileAbsent).


(** ** The rest of the client and of the processor

    The methods no path of [main] calls. Their entry is not recorded in the
    trace; their requests and sleeps are. *)

Section RestOfTheClient.

Context {W : Type} `{Env W}.
Variable config : AcunetixConfig.

Definition fetch_scan (scan_id : json) : M W json :=
  if negb (truthy scan_id) then raise ValueError
  else _make_request config (lit "GET") (lit "/scans/" ++ format scan_id) None.

(** [delete_reports]: only [AcunetixAPIError] is caught. *)
Definition delete_reports (report_ids : list json) : M W bool :=
  match report_ids with
  | [] => ret false
  | _ :: _ =>
      let payload := JDict [ (lit "report_id_list", JList report_ids) ] in
      try_except
        (_make_request config (lit "POST") (lit "/reports/delete")
           (Some payload) ;;;
         ret true)
        (fun e =>
           match e with
           | AcunetixAPIError => ret false
           | _ => raise e
           end)
  end.

End RestOfTheClient.

Section RestOfTheProcessor.

Context {W : Type} `{Env W}.
Variable config : AppConfig.

(** The loop of [_wait_for_scan_completion] with [remaining] checks to go.
    The sleep stands after the [try] statement, so it also follows the last
    check. *)
Fixpoint scan_wait_loop (scan_id : json) (remaining : nat) : M W bool :=
  match remaining with
  | O => ret false
  | S k =>
      step <- try_except
        (scan_data <- fetch_scan (acunetix config) scan_id ;;
         session <-
           lift (get_default scan_data (lit "current_session") (JDict [])) ;;
         status <- lift (get session (lit "status")) ;;
         if eq_str status (lit "completed") then ret (Return true)
         else if eq_str status (lit "failed") then ret (Return false)
         else ret FallThrough)
        (fun e =>
           match e with
           | AcunetixAPIError => ret (Return false)
           | _ => raise e
           end) ;;
      match step with
      | Return v => ret v
      | Continue => scan_wait_loop scan_id k
      | FallThrough =>
          sleep (Delay (scan_check_delay (settings config))) ;;;
          scan_wait_loop scan_id k
      end
  end.

(** [_wait_for_scan_completion(scan_id, max_checks)] *)
Definition _wait_for_scan_completion (scan_id : json) (max_checks : Z)
    : M W bool :=
  scan_wait_loop scan_id (Z.to_nat max_checks).

End RestOfTheProcessor.

(** The properties [is_completed] and [is_scheduled] of [ScanResult]
    ([src/models.py]). The [current_session] of a result made by the
    processor is an object; on any other value the [get] raises. *)
Definition is_completed (r : ScanResult) : res bool :=
  match get (current_session r) (lit "status") with
  | Ret status => Ret (eq_str status (lit "completed"))
  | Raise e => Raise e
  end.

Definition is_scheduled (r : ScanResult) : res bool :=
  match get (current_session r) (lit "status") with
  | Ret status => Ret (eq_str status (lit "scheduled"))
  | Raise e => Raise e
  end.


(** ** Vocabulary of the further properties *)

Definition is_backoff (e : event) : bool :=
  match e with EvSleep (Backoff _) => true | _ => false end.

Definition is_delay (e : event) : bool :=
  match e with EvSleep (Delay _) => true | _ => false end.

Definition is_stream (e : event) : bool :=
  match e with EvStream _ _ => true | _ => false end.

(** The value [_make_request] returns for the content of a response. *)
Definition body_of (content : option json) : json :=
  match content with
  | Some j => j
  | None => JDict []
  end.

(** From the world [w] the service rejects the request [k] times, each
    time with an error whose message can be built, and then answers with
    [content], leaving the world [w']. *)
Fixpoint answers_after {W} `{Env W} (method full_url : str)
    (body : option json) (k : nat) (w : W) (content : option json) (w' : W)
    : Prop :=
  match k with
  | O => session_request method full_url body w = (Ret content, w')
  | S k' =>
      exists b w1,
        session_request method full_url body w
        = (Raise (RequestException b), w1) /\
        request_error_message b = Ret tt /\
        answers_after method full_url body k' w1 content w'
  end.

(** The script that fails once at the connection and then answers. *)
Definition flaky (content : json) : script :=
  {| responses := [ Raise (RequestException NoResponse); Ret (Some content) ];
     download := Ret tt;
     clock := lit "20240101_000000";
     disk := WriteDone;
     mail := Ret true |}.

(** The script whose single response is [r]. *)
Definition single (r : res (option json)) : script :=
  {| responses := [r];
     download := Ret tt;
     clock := lit "20240101_000000";
     disk := WriteDone;
     mail := Ret true |}.


(** The URL [_make_request] sends a request for [endpoint] to. *)
Definition request_url (cfg : AcunetixConfig) (endpoint : str) : str :=
  rstrip slash (url cfg) ++ [slash] ++ lstrip slash endpoint.

(** The exception is a [RequestException], the only kind [_make_request]
    retries after. *)
Definition is_request_exception (e : exn) : bool :=
  match e with
  | RequestException _ => true
  | _ => false
  end.


(** The locator is an absolute URL. *)
Definition absolute (u : str) : bool :=
  startswith u (lit "http://") || startswith u (lit "https://").

(** The base [download_report] puts before "/api/v1/": the configured URL
    without its trailing slashes and without a final "/api/v1". *)
Definition download_base (cfg : AcunetixConfig) : str :=
  let base_url := rstrip slash (url cfg) in
  if endswith base_url (lit "/api/v1")
  then slice_to_minus 7 base_url else base_url.

(** The configuration [cfg] with another URL. *)
Definition with_url (cfg : AcunetixConfig) (u : str) : AcunetixConfig :=
  {| url := u;
     report_template_id := report_template_id cfg;
     timeout := timeout cfg;
     max_retries := max_retries cfg;
     backoff_factor := backoff_factor cfg |}.

Definition is_str (v : json) : bool :=
  match v with
  | JStr _ => true
  | _ => false
  end.


(** The script that answers one request with a scan in the given status. *)
Definition scan_reply (status : string) : script :=
  single (Ret (Some (scan_with "s1" status))).

Definition running_check : res json * pstate script :=
  Eval vm_compute in
    fetch_scan sample_acunetix (JStr (lit "s1"))
      (start (scan_reply "running") [] FileAbsent).


(** The description [_generate_scan_report] reads from a scan. *)
Definition description_of (scan_data : json) : res json :=
  match get_default scan_data (lit "target") (JDict []) with
  | Ret target => get_default target (lit "description") (JStr (lit "report"))
  | Raise e => Raise e
  end.


(** The script whose listing has no scans. *)
Definition empty_listing : script :=
  single (Ret (Some (JDict [ (lit "scans", JList []) ]))).

(** The script whose listing has [null] for its scans. *)
Definition null_listing : script :=
  single (Ret (Some (JDict [ (lit "scans", JNull) ]))).

(** The request of [fetch_all_scans], before its response is looked at. *)
Definition listing_response {W} `{Env W} (cfg : AppConfig) (s : pstate W)
    : res json * pstate W :=
  _make_request (acunetix cfg) (lit "GET") (lit "/scans") None
    (snd (emit (EvCall FetchAllScans) s)).

Definition empty_listing_run : res json * pstate script :=
  Eval vm_compute in
    fetch_all_scans sample_acunetix (start empty_listing [] FileAbsent).

(** No member of the set is there twice, up to [==]. *)
Fixpoint no_repeat (ids : pyset) : bool :=
  match ids with
  | [] => true
  | x :: rest => negb (member x rest) && no_repeat rest
  end.

(** The list is a Python set: hashable members, none of them twice. *)
Definition well_formed (ids : pyset) : bool :=
  forallb hashable ids && no_repeat ids.


(** The silent script with a disk that behaves as [o]. *)
Definition with_disk (o : write_outcome) : script :=
  {| responses := []; download := Ret tt; clock := lit "20240101_000000";
     disk := o; mail := Ret true |}.

(** A result for the scan "s1" with the given severity counts. *)
Definition result_with (counts : json) : ScanResult :=
  {| scan_id := JStr (lit "s1");
     target_id := JStr (lit "t1");
     description := JStr (lit "My App");
     start_date := JStr (lit "2024-01-01");
     report_path := {| parent := lit "reports"; name := lit "a.html" |};
     severity_counts := counts;
     current_session := JDict [ (lit "status", JStr (lit "completed")) ] |}.

(** Some result of the batch has severity counts that are not an object. *)
Definition unsendable (batch : list ScanResult) : bool :=
  existsb (fun r => negb (is_dict (severity_counts r))) batch.

Definition is_send (e : event) : bool :=
  match e with EvSendEmail _ => true | _ => false end.

(** The happy script with a mail server that behaves as [m]. *)
Definition happy_with_mail (m : res bool) : script :=
  {| responses := responses happy; download := Ret tt;
     clock := lit "20240101_000000"; disk := WriteDone; mail := m |}.


(** A completed scan whose severity counts are [null], and the script that
    lists it and serves its report. *)
Definition poison_scan : json :=
  JDict [ (lit "scan_id", JStr (lit "s1"));
          (lit "target_id", JStr (lit "t1"));
          (lit "current_session",
           JDict [ (lit "status", JStr (lit "completed"));
                   (lit "severity_counts", JNull) ]) ].

Definition poisoned : script :=
  polls [ JDict [ (lit "scans", JList [ poison_scan ]) ];
          JDict [ (lit "report_id", JStr (lit "r1")) ];
          report_with "completed" ].

Definition poisoned_discovery : res (list ScanResult) * pstate script :=
  Eval vm_compute in
    process_scans sample_config (start poisoned [] FileAbsent).

Definition poisoned_batch : list ScanResult :=
  match fst poisoned_discovery with
  | Ret batch => batch
  | Raise _ => []
  end.

Definition quiet_discovery : res (list ScanResult) * pstate script :=
  Eval vm_compute in
    process_scans sample_config
      (start (happy_with_mail (Ret false)) [] FileAbsent).

Definition quiet_batch : list ScanResult :=
  match fst quiet_discovery with
  | Ret batch => batch
  | Raise _ => []
  end.


(** ** Sending the email ([src/email_sender.py])

    [send_email] itself, which the workflow above takes as the collaborator
    [send_email] of [Env]. The mail server and the files are the interface
    [Mailer]; the dialogue with the server is recorded as a log, each step
    with whether it went through. The bytes of a message are not
    modelled: a message is its headers, its HTML text and the files
    attached to it. *)

(** [EmailConfig] of [src/models.py] *)
Record EmailConfig : Type := {
  username : str;
  password : str;
  recipient : str;
  smtp_server : str;
  smtp_port : Z;
  use_tls : bool
}.

Record message : Type := {
  msg_from : str;
  msg_to : str;
  msg_subject : str;
  msg_html : str;
  msg_parts : list Path
}.

Inductive mail_event : Type :=
| MConnect (server : str) (port : Z) (ok : bool)
| MStartTls (ok : bool)
| MLogin (user secret : str) (ok : bool)
| MSend (msg : message) (ok : bool)
| MQuit (ok : bool).

(** - [is_file]: [file_path.exists() and file_path.is_file()].
    - [read_file]: the [open], the [read] and the making of the part.
    - [smtp_connect]: [smtplib.SMTP(server, port)].
    - [smtp_quit]: what leaving the [with] block does to the session. *)
Class Mailer (W : Type) : Type := {
  is_file : Path -> W -> bool;
  read_file : Path -> W -> res unit * W;
  smtp_connect : str -> Z -> W -> res unit * W;
  smtp_starttls : W -> res unit * W;
  smtp_login : str -> str -> W -> res unit * W;
  smtp_send_message : message -> W -> res unit * W;
  smtp_quit : W -> res unit * W
}.

Record mail_state (W : Type) : Type := {
  mail_world : W;
  mail_log : list mail_event
}.

(** [", ".join(l)] *)
Fixpoint join_comma (l : list str) : str :=
  match l with
  | [] => []
  | [a] => a
  | a :: rest => a ++ lit ", " ++ join_comma rest
  end.

Section EmailSender.

Context {W : Type} `{Mailer W}.

(** One step of the dialogue, logged with its outcome. *)
Definition dialogue (e : bool -> mail_event) (f : W -> res unit * W)
    (s : mail_state W) : res unit * mail_state W :=
  let (r, w) := f (mail_world s) in
  (r, {| mail_world := w;
         mail_log :=
           mail_log s
           ++ [e match r with Ret _ => true | Raise _ => false end] |}).

(** The loop over the attachments: a file that is missing, or whose
    reading raises, is left out. *)
Fixpoint attach_files (attachments : list Path) (w : W) : list Path * W :=
  match attachments with
  | [] => ([], w)
  | file_path :: rest =>
      if is_file file_path w then
        match read_file file_path w with
        | (Ret _, w1) =>
            let (parts, w2) := attach_files rest w1 in
            (file_path :: parts, w2)
        | (Raise _, w1) => attach_files rest w1
        end
      else attach_files rest w
  end.

(** The body of the [with] block, up to [return True]. *)
Definition smtp_body (config : EmailConfig) (msg : message)
    (s : mail_state W) : res unit * mail_state W :=
  let (r1, s1) :=
    if use_tls config then dialogue MStartTls smtp_starttls s
    else (Ret tt, s) in
  match r1 with
  | Raise e => (Raise e, s1)
  | Ret _ =>
      let (r2, s2) :=
        match username config, password config with
        | _ :: _, _ :: _ =>
            dialogue (MLogin (username config) (password config))
              (smtp_login (username config) (password config)) s1
        | _, _ => (Ret tt, s1)
        end in
      match r2 with
      | Raise e => (Raise e, s2)
      | Ret _ => dialogue (MSend msg) (smtp_send_message msg) s2
      end
  end.

(** [send_email]. Leaving the [with] block quits the session, also when
    the body raised; every exception of the [try] statement gives [False]. *)
Definition send_email_impl (config : EmailConfig) (subject html_content : str)
    (attachments : list Path) (to_recipients : option (list str))
    (s : mail_state W) : bool * mail_state W :=
  let to_recipients :=
    match to_recipients with
    | Some (a :: rest) => a :: rest
    | _ => [recipient config]
    end in
  let (parts, w) := attach_files attachments (mail_world s) in
  let msg := {| msg_from := username config;
                msg_to := join_comma to_recipients;
                msg_subject := subject;
                msg_html := html_content;
                msg_parts := parts |} in
  let s0 := {| mail_world := w; mail_log := mail_log s |} in
  let (r, s1) :=
    dialogue (MConnect (smtp_server config) (smtp_port config))
      (smtp_connect (smtp_server config) (smtp_port config)) s0 in
  match r with
  | Raise _ => (false, s1)
  | Ret _ =>
      let (rb, s2) := smtp_body config msg s1 in
      let (rq, s3) := dialogue MQuit smtp_quit s2 in
      match rb, rq with
      | Ret _, Ret _ => (true, s3)
      | _, _ => (false, s3)
      end
  end.

(** The message [send_email] builds. *)
Definition message_of (config : EmailConfig) (subject html_content : str)
    (attachments : list Path) (to_recipients : option (list str)) (w : W)
    : message :=
  {| msg_from := username config;
     msg_to :=
       join_comma
         match to_recipients with
         | Some (a :: rest) => a :: rest
         | _ => [recipient config]
         end;
     msg_subject := subject;
     msg_html := html_content;
     msg_parts := fst (attach_files attachments w) |}.

(** The whole dialogue for a message, every step going through. *)
Definition smtp_plan (config : EmailConfig) (msg : message)
    : list mail_event :=
  [MConnect (smtp_server config) (smtp_port config) true]
  ++ (if use_tls config then [MStartTls true] else [])
  ++ match username config, password config with
     | _ :: _, _ :: _ => [MLogin (username config) (password config) true]
     | _, _ => []
     end
  ++ [MSend msg true; MQuit true].

End EmailSender.

(** A mail server that goes along with every step but the refused ones,
    and files that are all there. *)
Inductive step : Type :=
| Connect
| StartTls
| Login
| Send
| Quit.

Definition server_refusing (refused : step -> bool) : Mailer unit := {|
  is_file := fun _ _ => true;
  read_file := fun _ w => (Ret tt, w);
  smtp_connect := fun _ _ w =>
    (if refused Connect then Raise OSError else Ret tt, w);
  smtp_starttls := fun w =>
    (if refused StartTls then Raise OSError else Ret tt, w);
  smtp_login := fun _ _ w =>
    (if refused Login then Raise OSError else Ret tt, w);
  smtp_send_message := fun _ w =>
    (if refused Send then Raise OSError else Ret tt, w);
  smtp_quit := fun w =>
    (if refused Quit then Raise OSError else Ret tt, w)
|}.

(** A machine on which the file named [gone] is missing, with a mail
    server that goes along with every step. *)
Definition machine_without (gone : str) : Mailer unit := {|
  is_file := fun p _ => negb (str_eqb (name p) gone);
  read_file := fun _ w => (Ret tt, w);
  smtp_connect := fun _ _ w => (Ret tt, w);
  smtp_starttls := fun w => (Ret tt, w);
  smtp_login := fun _ _ w => (Ret tt, w);
  smtp_send_message := fun _ w => (Ret tt, w);
  smtp_quit := fun w => (Ret tt, w)
|}.

Definition sample_email : EmailConfig :=
  {| username := lit "user@example.com";
     password := lit "secret";
     recipient := lit "team@example.com";
     smtp_server := lit "smtp.example.com";
     smtp_port := 587;
     use_tls := true |}.

Definition fresh_mail : mail_state unit :=
  {| mail_world := tt; mail_log := [] |}.


(** ** Counting the calls of a run *)

(** The kinds of events a run is measured by. *)
Inductive kind : Type :=
| KFetch
| KGenerate
| KPoll
| KDownload
| KRequest
| KStream.

Definition kind_of (e : event) : option kind :=
  match e with
  | EvCall FetchAllScans => Some KFetch
  | EvCall (GenerateReport _) => Some KGenerate
  | EvCall (GetReportStatus _) => Some KPoll
  | EvCall (DownloadReport _ _) => Some KDownload
  | EvRequest _ _ _ => Some KRequest
  | EvStream _ _ => Some KStream
  | _ => None
  end.

Definition kind_eqb (a b : kind) : bool :=
  match a, b with
  | KFetch, KFetch | KGenerate, KGenerate | KPoll, KPoll
  | KDownload, KDownload | KRequest, KRequest | KStream, KStream => true
  | _, _ => false
  end.

Definition of_kind (k : kind) (e : event) : bool :=
  match kind_of e with
  | Some k' => kind_eqb k' k
  | None => false
  end.

(** What an event of kind [k'] adds to the count of the kind [k]. *)
Definition hit (k k' : kind) : nat := if kind_eqb k' k then 1 else 0.

(** The computation [m] adds at most [n] events of kind [k] to the trace. *)
Definition at_most {W A} (k : kind) (n : nat) (m : M W A) : Prop :=
  forall s : pstate W,
    (count (of_kind k) (trace (snd (m s)))
     <= count (of_kind k) (trace s) + n)%nat.

(** The attempts of one call of [_make_request]. *)
Definition attempts (cfg : AppConfig) : nat :=
  Z.to_nat (max_retries (acunetix cfg) + 1).

(** What processing one scan adds at most to the count of the kind [k]:
    one report request, ten polls, one download with its one streamed
    [session.get], and the attempts of the eleven calls of
    [_make_request]. *)
Definition per_scan (cfg : AppConfig) (k : kind) : nat :=
  (hit k KGenerate + attempts cfg * hit k KRequest)
  + 10 * (hit k KPoll + attempts cfg * hit k KRequest)
  + (hit k KDownload + hit k KStream).

Definition is_generate (e : event) : bool :=
  match e with EvCall (GenerateReport _) => true | _ => false end.

Definition is_download (e : event) : bool :=
  match e with EvCall (DownloadReport _ _) => true | _ => false end.


(** * Properties *)

(** ** Python values *)

Lemma str_eqb_eq (a b : str) : str_eqb a b = true <-> a = b.
Proof.
  revert b; induction a as [|x a IH]; intros [|y b]; simpl;
    try (split; [discriminate | congruence]); try tauto.
  unfold char_eqb. rewrite andb_true_iff, N.eqb_eq, IH.
  split; [intros [-> ->]; reflexivity | intros E; injection E; auto].
Qed.

Lemma str_eqb_refl (a : str) : str_eqb a a = true.
Proof. apply str_eqb_eq; reflexivity. Qed.

Lemma key_eq_spec (a b : json) :
  key_eq a b = true <-> (exists k, key_of a = Some k /\ key_of b = Some k).
Proof.
  destruct a as [|x|x|s|l|d], b as [|y|y|t|l'|d']; simpl;
    try (split; [discriminate | intros [k [E1 E2]]; congruence]).
  - split; [eauto | reflexivity].
  - destruct x, y; simpl;
      (split; [intros E; try discriminate; eauto
              | intros [k [E1 E2]]; congruence]).
  - rewrite Z.eqb_eq. split.
    + intros ->. eauto.
    + intros [k [E1 E2]]. congruence.
  - rewrite Z.eqb_eq. split.
    + intros ->. eauto.
    + intros [k [E1 E2]]. congruence.
  - rewrite Z.eqb_eq. split.
    + intros ->. eauto.
    + intros [k [E1 E2]]. congruence.
  - rewrite str_eqb_eq. split.
    + intros ->. eauto.
    + intros [k [E1 E2]]. congruence.
Qed.

Lemma key_eq_refl (a : json) : hashable a = true -> key_eq a a = true.
Proof.
  intros Hh. apply key_eq_spec.
  destruct a; simpl in *; try discriminate; eauto.
Qed.

Lemma key_eq_sym (a b : json) : key_eq a b = key_eq b a.
Proof.
  apply eq_true_iff_eq. rewrite !key_eq_spec.
  split; intros [k [E1 E2]]; eauto.
Qed.

Lemma key_eq_trans (a b c : json) :
  key_eq a b = true -> key_eq b c = true -> key_eq a c = true.
Proof.
  rewrite !key_eq_spec. intros [k [E1 E2]] [k' [E3 E4]].
  exists k. split; congruence.
Qed.

Lemma member_app (x : json) (s t : pyset) :
  member x (s ++ t) = member x s || member x t.
Proof. unfold member. apply existsb_app. Qed.

Lemma member_key_eq (x y : json) (s : pyset) :
  key_eq x y = true -> member y s = true -> member x s = true.
Proof.
  unfold member. rewrite !existsb_exists.
  intros Hxy [z [Hin Hyz]]. exists z. split; [assumption|].
  eapply key_eq_trans; eassumption.
Qed.

(** Membership after [s.add(y)]. *)
Lemma member_set_add (x y : json) (s : pyset) :
  member x (set_add y s) = member x s || key_eq x y.
Proof.
  unfold set_add. destruct (member y s) eqn:Hy.
  - destruct (key_eq x y) eqn:Hxy.
    + rewrite (member_key_eq _ _ _ Hxy Hy). reflexivity.
    + rewrite orb_false_r. reflexivity.
  - rewrite member_app. simpl. rewrite orb_false_r. reflexivity.
Qed.

Lemma member_fold_add (x : json) (l : list json) (s : pyset) :
  member x (fold_left (fun s y => set_add y s) l s)
  = member x s || existsb (key_eq x) l.
Proof.
  revert s; induction l as [|y l IH]; intros s; simpl.
  - rewrite orb_false_r. reflexivity.
  - rewrite IH, member_set_add, orb_assoc. reflexivity.
Qed.

(** ** The monad *)

Lemma bind_ret_inv {W A B} (m : M W A) (k : A -> M W B) s b s' :
  bind m k s = (Ret b, s') ->
  exists a s1, m s = (Ret a, s1) /\ k a s1 = (Ret b, s').
Proof.
  unfold bind. destruct (m s) as [[a|e] s1]; intros E.
  - eauto.
  - discriminate.
Qed.

Lemma bind_assoc {W A B C} (m : M W A) (k : A -> M W B) (k' : B -> M W C)
    (s : pstate W) :
  bind (bind m k) k' s = bind m (fun a => bind (k a) k') s.
Proof. unfold bind. destruct (m s) as [[a|e] s1]; reflexivity. Qed.

Lemma bind_ext {W A B} (m : M W A) (k k' : A -> M W B) (s : pstate W) :
  (forall a s1, k a s1 = k' a s1) -> bind m k s = bind m k' s.
Proof.
  intros Hk. unfold bind. destruct (m s) as [[a|e] s1]; [apply Hk|reflexivity].
Qed.

(** Unfolds the operations of the monad. *)
Ltac unfold_m :=
  cbv beta iota delta
    [bind ret raise lift emit ask ask_res try_except sleep
     get_processed set_processed get_store set_store get_world].

Lemma lift_ret_inv {W A} (r : res A) (s : pstate W) a s' :
  lift r s = (Ret a, s') -> r = Ret a /\ s' = s.
Proof. unfold lift. intros E. injection E. auto. Qed.

(** ** Download locators *)

Lemma startswith_app (p s : str) : startswith (p ++ s) p = true.
Proof.
  induction p as [|c p IH]; simpl; [destruct s; reflexivity|].
  unfold char_eqb. rewrite N.eqb_refl. exact IH.
Qed.

(** What [download_report] does with a textual, non-empty locator: it
    streams from the normalized URL. *)
Lemma download_report_streams {W} `{Env W} cfg (c : char) (u : str)
    (p : Path) (s : pstate W) :
  exists evs,
    trace (snd (download_report cfg (JStr (c :: u)) p s))
    = trace s ++ EvCall (DownloadReport (JStr (c :: u)) p)
                 :: EvStream (download_url_of cfg (c :: u)) p :: evs.
Proof.
  unfold download_report. unfold_m. simpl.
  destruct (session_get (download_url_of cfg (c :: u)) p (world s))
    as [[[]|e] w]; simpl; exists []; rewrite <- app_assoc; reflexivity.
Qed.

(** C4: an absolute locator is used as it is; with the base URL
    "https://host/api/v1/" the relative locator "reports/abc/download" and
    the versioned locator "/api/v1/reports/abc/download" both resolve to
    "https://host/api/v1/reports/abc/download"; the download is streamed
    from the URL so built. *)
Theorem download_locator_normalization :
  (forall cfg u,
     download_url_of cfg (lit "http://" ++ u) = lit "http://" ++ u) /\
  (forall cfg u,
     download_url_of cfg (lit "https://" ++ u) = lit "https://" ++ u) /\
  (forall template tmo retries factor,
     let cfg := {| url := lit "https://host/api/v1/";
                   report_template_id := template;
                   timeout := tmo; max_retries := retries;
                   backoff_factor := factor |} in
     download_url_of cfg (lit "reports/abc/download")
     = lit "https://host/api/v1/reports/abc/download" /\
     download_url_of cfg (lit "/api/v1/reports/abc/download")
     = lit "https://host/api/v1/reports/abc/download") /\
  (forall W (E : Env W) cfg c u p (s : pstate W),
     exists evs,
       trace (snd (download_report cfg (JStr (c :: u)) p s))
       = trace s ++ EvCall (DownloadReport (JStr (c :: u)) p)
                    :: EvStream (download_url_of cfg (c :: u)) p :: evs).
Proof.
  split; [|split; [|split]].
  - intros cfg u. unfold download_url_of.
    rewrite (startswith_app (lit "http://") u). reflexivity.
  - intros cfg u. unfold download_url_of.
    rewrite (startswith_app (lit "https://") u), orb_true_r. reflexivity.
  - intros template tmo retries factor cfg. split; reflexivity.
  - intros W E cfg c u p s. apply download_report_streams.
Qed.

(** ** File names *)

Lemma isalnum_no_separator alnum (c : char) :
  char_isalnum alnum c = true ->
  negb (char_eqb c slash || char_eqb c backslash) = true.
Proof.
  unfold char_isalnum, char_eqb, slash, backslash. intros Hc.
  destruct (N.eqb_spec c 47) as [->|_]; [discriminate Hc|].
  destruct (N.eqb_spec c 92) as [->|_]; [discriminate Hc|].
  reflexivity.
Qed.

Lemma str_isalnum_no_separator alnum (t : str) :
  str_isalnum alnum t = true -> no_separator t = true.
Proof.
  unfold str_isalnum, no_separator. destruct t as [|c t]; [reflexivity|].
  rewrite !forallb_forall. intros Hall x Hx.
  eapply isalnum_no_separator. apply Hall, Hx.
Qed.

Lemma no_separator_app (a b : str) :
  no_separator (a ++ b) = no_separator a && no_separator b.
Proof. unfold no_separator. apply forallb_app. Qed.

Lemma safe_item_no_separator {W} `{Env W} (c : json) :
  match safe_item c with
  | Ret t => no_separator t = true
  | Raise _ => True
  end.
Proof.
  destruct c as [| | |t| |]; simpl; trivial.
  destruct (str_isalnum uni_alnum t) eqn:Ha; simpl.
  - eapply str_isalnum_no_separator, Ha.
  - destruct (str_eqb t (lit "-")) eqn:E1; simpl.
    + apply str_eqb_eq in E1. subst t. reflexivity.
    + destruct (str_eqb t (lit "_")) eqn:E2; simpl.
      * apply str_eqb_eq in E2. subst t. reflexivity.
      * destruct (str_eqb t (lit ".")) eqn:E3; simpl; [|reflexivity].
        apply str_eqb_eq in E3. subst t. reflexivity.
Qed.

Lemma join_items_no_separator {W} `{Env W} (items : list json) :
  match join_items items with
  | Ret t => no_separator t = true
  | Raise _ => True
  end.
Proof.
  induction items as [|c items IH]; simpl; [reflexivity|].
  pose proof (safe_item_no_separator c) as Hc.
  destruct (safe_item c) as [t|e]; [|trivial].
  destruct (join_items items) as [u|e]; [|trivial].
  rewrite no_separator_app, Hc, IH. reflexivity.
Qed.

Lemma join_items_chars {W} `{Env W} (s : str) :
  join_items (List.map (fun c => JStr [c]) s)
  = Ret (List.map (sanitize_char uni_alnum) s).
Proof.
  induction s as [|c s IH]; simpl; [reflexivity|].
  rewrite IH. unfold sanitize_char, char_eqb, hyphen, underscore, dot.
  simpl. rewrite !andb_true_r.
  destruct (char_isalnum uni_alnum c || (c =? 45)%N
            || (c =? 95)%N || (c =? 46)%N); reflexivity.
Qed.


(** ** The processed-scans store *)

Lemma set_of_list_member (l : list json) (ids : pyset) (x : json) :
  set_of (JList l) = Ret ids -> member x ids = existsb (key_eq x) l.
Proof.
  unfold set_of. simpl. destruct (forallb hashable l); [|discriminate].
  intros E. injection E as <-. apply member_fold_add.
Qed.

(** [_load_processed_scans] and [_save_processed_scans] return normally in
    every state. *)
Lemma load_returns {W} `{Env W} (s : pstate W) :
  fst (_load_processed_scans s) = Ret tt.
Proof.
  unfold _load_processed_scans. unfold_m.
  destruct (store s) as [| | |v]; try reflexivity.
  destruct (set_of v); reflexivity.
Qed.

Lemma save_returns {W} `{Env W} cfg (s : pstate W) :
  fst (_save_processed_scans cfg s) = Ret tt.
Proof.
  unfold _save_processed_scans. unfold_m. simpl.
  destruct (write_file _ _ _) as [[| |] w]; reflexivity.
Qed.

Lemma save_keeps_processed {W} `{Env W} cfg (s : pstate W) :
  processed_scans (snd (_save_processed_scans cfg s)) = processed_scans s.
Proof.
  unfold _save_processed_scans. unfold_m. simpl.
  destruct (write_file _ _ _) as [[| |] w]; reflexivity.
Qed.

(** C7: loading the processed set returns normally whatever the file
    holds; a file that is absent, unreadable or not JSON gives the empty
    set, and a stored array of ids gives the set of these ids. Loading
    changes nothing else. *)
Theorem load_never_fails W (E : Env W) (s : pstate W) :
  fst (_load_processed_scans s) = Ret tt /\
  fst (ScanProcessor_init s) = Ret tt /\
  (store s = FileAbsent \/ store s = FileUnreadable \/ store s = FileCorrupt ->
   processed_scans (snd (ScanProcessor_init s)) = []) /\
  (forall l : list json,
     store s = FileJson (JList l) -> forallb hashable l = true ->
     forall x : json,
       member x (processed_scans (snd (ScanProcessor_init s)))
       = existsb (key_eq x) l) /\
  world (snd (ScanProcessor_init s)) = world s /\
  trace (snd (ScanProcessor_init s)) = trace s /\
  store (snd (ScanProcessor_init s)) = store s.
Proof.
  split; [apply load_returns|].
  unfold ScanProcessor_init, _load_processed_scans. unfold_m. simpl.
  destruct (store s) as [| | |v] eqn:Hs; simpl.
  - repeat split; try reflexivity. intros l Hl. discriminate Hl.
  - repeat split; try reflexivity. intros l Hl. discriminate Hl.
  - repeat split; try reflexivity. intros l Hl. discriminate Hl.
  - destruct (set_of v) as [ids|e] eqn:Hv; simpl.
    + repeat split; try reflexivity.
      * intros [Ha|[Ha|Ha]]; discriminate Ha.
      * intros l Hl Hh x. injection Hl as ->.
        eapply set_of_list_member, Hv.
    + repeat split; try reflexivity.
      intros l Hl Hh x. injection Hl as ->.
      unfold set_of in Hv. simpl in Hv. rewrite Hh in Hv. discriminate Hv.
Qed.

(** C10: marking an id that is already in the processed set changes
    nothing and writes nothing; marking twice leaves what marking once
    leaves. *)
Theorem mark_as_processed_idempotent W (E : Env W) cfg (id : json)
    (s : pstate W) :
  (hashable id = true -> member id (processed_scans s) = true ->
   mark_as_processed cfg id s = (Ret tt, s)) /\
  mark_as_processed cfg id (snd (mark_as_processed cfg id s))
  = (fst (mark_as_processed cfg id s), snd (mark_as_processed cfg id s)).
Proof.
  assert (Hin : forall t : pstate W,
             hashable id = true -> member id (processed_scans t) = true ->
             mark_as_processed cfg id t = (Ret tt, t)).
  { intros t Hh Hm. unfold mark_as_processed, set_contains. unfold_m.
    rewrite Hh, Hm. reflexivity. }
  split; [apply Hin|].
  destruct (hashable id) eqn:Hh.
  - destruct (member id (processed_scans s)) eqn:Hm.
    + rewrite (Hin s eq_refl Hm). simpl. apply Hin; [reflexivity|exact Hm].
    + assert (E1 : mark_as_processed cfg id s
                   = _save_processed_scans cfg
                       {| world := world s; trace := trace s;
                          processed_scans := set_add id (processed_scans s);
                          store := store s |}).
      { unfold mark_as_processed at 1. unfold set_contains. unfold_m.
        rewrite Hh, Hm. reflexivity. }
      rewrite E1. rewrite Hin.
      * rewrite (surjective_pairing (_save_processed_scans _ _)) at 1.
        rewrite save_returns. reflexivity.
      * reflexivity.
      * rewrite save_keeps_processed. simpl.
        rewrite member_set_add, (key_eq_refl _ Hh), orb_true_r. reflexivity.
  - unfold mark_as_processed, set_contains. unfold_m. rewrite Hh.
    reflexivity.
Qed.

(** ** Eligibility *)

Lemma skip_unchanged {W} `{Env W} cfg (scan : json) (s : pstate W) :
  already_processed scan (processed_scans s) = true
  \/ status_completed scan = false ->
  produced (fst (_generate_scan_report cfg scan s)) = false /\
  snd (_generate_scan_report cfg scan s) = s.
Proof.
  unfold already_processed, status_completed, scan_status_of.
  unfold _generate_scan_report, set_contains. unfold_m.
  intros Hskip.
  destruct (get scan (lit "scan_id")) as [id|e]; [|split; reflexivity].
  destruct (get scan (lit "target_id")) as [tid|e]; [|split; reflexivity].
  destruct (get_default scan (lit "current_session") (JDict []))
    as [session|e]; [|split; reflexivity].
  destruct (get session (lit "status")) as [status|e]; [|split; reflexivity].
  destruct (negb (truthy id) || negb (truthy tid)); [split; reflexivity|].
  destruct (hashable id); [|split; reflexivity].
  destruct (member id (processed_scans s)); [split; reflexivity|].
  destruct (eq_str status (lit "scheduled")); [split; reflexivity|].
  destruct (eq_str status (lit "completed")); [|split; reflexivity].
  destruct Hskip; discriminate.
Qed.

(** C2: a scan whose id is in the processed set, or whose status is not
    exactly 'completed', gives no ScanResult; processing it changes
    nothing in the state, so no call is made and the processed set is as
    before, and the batch of the run is as before. *)
Theorem ineligible_scan_skipped W (E : Env W) cfg (scan : json)
    (s : pstate W) :
  already_processed scan (processed_scans s) = true
  \/ status_completed scan = false ->
  produced (fst (_generate_scan_report cfg scan s)) = false /\
  snd (_generate_scan_report cfg scan s) = s /\
  (forall d rest results,
     scan = JDict d ->
     scan_loop cfg (scan :: rest) results s = scan_loop cfg rest results s).
Proof.
  intros Hskip. destruct (skip_unchanged cfg scan s Hskip) as [Hp Hs].
  split; [exact Hp|]. split; [exact Hs|].
  intros d rest results ->. simpl. unfold_m.
  destruct (_generate_scan_report cfg (JDict d) s) as [[[r|]|e] s'];
    simpl in *; subst s'; try discriminate; try reflexivity.
  unfold get, get_default. destruct (dict_lookup _ d); reflexivity.
Qed.

(** A scan that is only scheduled is one of the scans C2 speaks of. *)
Remark scheduled_not_completed (scan : json) :
  scan_status_of scan = Ret (JStr (lit "scheduled")) ->
  status_completed scan = false.
Proof. unfold status_completed. intros ->. reflexivity. Qed.

(** ** Requests and retries *)

Lemma sleepable_sleeps (seconds : Z) :
  sleepable seconds = true -> time_sleep (Delay seconds) = Ret tt.
Proof.
  unfold sleepable, time_sleep. intros Hs.
  apply andb_true_iff in Hs. destruct Hs as [H0 H1].
  apply Z.leb_le in H0, H1.
  destruct (seconds <? -9223372036) eqn:Ha; [apply Z.ltb_lt in Ha; lia|].
  destruct (9223372036 <? seconds) eqn:Hb; [apply Z.ltb_lt in Hb; lia|].
  destruct (seconds <? 0) eqn:Hc; [apply Z.ltb_lt in Hc; lia|].
  reflexivity.
Qed.

Lemma count_snoc (p : event -> bool) (t : list event) (e : event) :
  count p (t ++ [e]) = (count p t + (if p e then 1 else 0))%nat.
Proof.
  unfold count. rewrite filter_app, length_app. simpl.
  destruct (p e); reflexivity.
Qed.

Section Requests.

Context {W : Type} `{Env W}.
Variable cfg : AcunetixConfig.

(** One iteration of the loop whose attempt is rejected, when the back-off
    after it, if there is one, goes through. *)
Lemma request_loop_rejected_step (method full_url : str)
    (body : option json) (n : nat) (attempt : Z) (s : pstate W)
    (b : err_body) (w1 : W) :
  session_request method full_url body (world s)
  = (Raise (RequestException b), w1) ->
  request_error_message b = Ret tt ->
  ((attempt <? max_retries cfg) = true ->
   backoff_sleep cfg attempt = Ret tt) ->
  exists s1,
    request_loop cfg method full_url body (S n) attempt s
    = request_loop cfg method full_url body n (attempt + 1) s1 /\
    world s1 = w1 /\
    count is_request (trace s1) = (count is_request (trace s) + 1)%nat /\
    count is_backoff (trace s1)
    = (count is_backoff (trace s)
       + (if (attempt <? max_retries cfg)%Z then 1 else 0))%nat.
Proof.
  intros Hreq Hmsg Hback. simpl. unfold_m. simpl. rewrite Hreq, Hmsg.
  destruct (attempt <? max_retries cfg) eqn:Hlt; simpl.
  - specialize (Hback eq_refl). unfold backoff_sleep in Hback.
    destruct (float_of_pow2 attempt) as [power|e]; [|discriminate Hback].
    simpl. rewrite Hback. simpl.
    eexists. split; [reflexivity|]. simpl. rewrite !count_snoc. simpl.
    repeat split; lia.
  - eexists. split; [reflexivity|]. simpl. rewrite !count_snoc. simpl.
    repeat split; lia.
Qed.

(** One iteration of the loop whose attempt is rejected and whose back-off
    does not go through: the exception of the back-off comes out of the
    loop. *)
Lemma request_loop_backoff_raises (method full_url : str)
    (body : option json) (n : nat) (attempt : Z) (s : pstate W)
    (b : err_body) (w1 : W) (e : exn) :
  session_request method full_url body (world s)
  = (Raise (RequestException b), w1) ->
  request_error_message b = Ret tt ->
  (attempt <? max_retries cfg) = true ->
  backoff_sleep cfg attempt = Raise e ->
  let r := request_loop cfg method full_url body (S n) attempt s in
  fst r = Raise e /\
  world (snd r) = w1 /\
  count is_request (trace (snd r)) = (count is_request (trace s) + 1)%nat.
Proof.
  intros Hreq Hmsg Hlt Hback. simpl. unfold_m. simpl.
  rewrite Hreq, Hmsg, Hlt. simpl. unfold backoff_sleep in Hback.
  destruct (float_of_pow2 attempt) as [power|e0]; simpl.
  - rewrite Hback. simpl. rewrite !count_snoc. simpl.
    repeat split; lia.
  - injection Hback as ->. rewrite !count_snoc. simpl. repeat split; lia.
Qed.

(** When the service rejects every attempt and the back-offs go through,
    the loop of [_make_request] uses all its attempts and raises
    [AcunetixAPIError]. *)
Lemma request_loop_rejected (P : W -> Prop)
    (method full_url : str) (body : option json) :
  rejecting P -> backoff_ok cfg ->
  forall (n : nat) (attempt : Z) (s : pstate W),
    0 <= attempt ->
    P (world s) ->
    fst (request_loop cfg method full_url body n attempt s)
    = Raise AcunetixAPIError /\
    count is_request
      (trace (snd (request_loop cfg method full_url body n attempt s)))
    = (count is_request (trace s) + n)%nat /\
    P (world (snd (request_loop cfg method full_url body n attempt s))).
Proof.
  intros Hrej Hok. induction n as [|n IH]; intros attempt s Ha HP.
  - simpl. unfold_m. simpl. rewrite Nat.add_0_r. auto.
  - destruct (Hrej method full_url body (world s) HP)
      as [b [w' [Hreq [Hmsg HP']]]].
    destruct (request_loop_rejected_step method full_url body n attempt s
                Hreq Hmsg) as (s1 & Hstep & Hw & Hq & _).
    { intros Hlt. apply Z.ltb_lt in Hlt. apply Hok. lia. }
    rewrite Hstep.
    destruct (IH (attempt + 1) s1) as [Hr [Hc Hw1]];
      [lia|rewrite Hw; exact HP'|].
    split; [exact Hr|]. split; [|exact Hw1]. rewrite Hc, Hq. lia.
Qed.

End Requests.

(** C8, as the code has it: with an empty target identifier
    [generate_report] raises [ValueError] before [session.request] is
    called; when the service rejects every attempt and every back-off
    between the attempts goes through, it raises [AcunetixAPIError] after
    [max_retries + 1] calls of [session.request]; when the service rejects
    the first attempt and the back-off after it does not go through, the
    exception of the back-off comes out instead, after one call. *)
Theorem generate_report_failures W (E : Env W) cfg (target : json)
    (s : pstate W) :
  (truthy target = false ->
   fst (generate_report cfg target s) = Raise ValueError /\
   count is_request (trace (snd (generate_report cfg target s)))
   = count is_request (trace s)) /\
  (forall P : W -> Prop,
     truthy target = true -> rejecting P -> P (world s) ->
     backoff_ok cfg ->
     fst (generate_report cfg target s) = Raise AcunetixAPIError /\
     count is_request (trace (snd (generate_report cfg target s)))
     = (count is_request (trace s) + Z.to_nat (max_retries cfg + 1))%nat) /\
  (forall (P : W -> Prop) (e : exn),
     truthy target = true -> rejecting P -> P (world s) ->
     0 < max_retries cfg -> backoff_sleep cfg 0 = Raise e ->
     fst (generate_report cfg target s) = Raise e /\
     count is_request (trace (snd (generate_report cfg target s)))
     = (count is_request (trace s) + 1)%nat).
Proof.
  split; [|split].
  - intros Ht. unfold generate_report. unfold_m. rewrite Ht. simpl.
    rewrite count_snoc. simpl. split; [reflexivity|lia].
  - intros P Ht Hrej HP Hok. unfold generate_report, _make_request.
    unfold_m. rewrite Ht. change (negb true) with false. cbv iota.
    match goal with
    | |- context [request_loop cfg ?m ?u ?b ?n ?a ?t] =>
        destruct (@request_loop_rejected W E cfg P m u b Hrej Hok n a t)
          as [Hr [Hc _]]; [lia|exact HP|]
    end.
    split; [exact Hr|]. rewrite Hc. simpl.
    rewrite count_snoc. simpl. lia.
  - intros P e Ht Hrej HP Hm Hback. unfold generate_report, _make_request.
    unfold_m. rewrite Ht. change (negb true) with false. cbv iota.
    destruct (Z.to_nat (max_retries cfg + 1)) as [|n] eqn:Hn; [lia|].
    match goal with
    | |- context [request_loop cfg ?m ?u ?b (S n) ?a ?t] =>
        destruct (Hrej m u b (world t) HP) as (eb & w' & Hreq & Hmsg & _);
        destruct (@request_loop_backoff_raises W E cfg m u b n a t eb w' e
                    Hreq Hmsg) as (Hr & _ & Hc);
          [apply Z.ltb_lt; lia|exact Hback|]
    end.
    split; [exact Hr|]. rewrite Hc. simpl. rewrite count_snoc. simpl. lia.
Qed.

(** With an empty target identifier the exception is not
    [AcunetixAPIError]. *)
Lemma generate_report_empty_target_not_api_error :
  fst (generate_report sample_acunetix (JStr []) (start silent [] FileAbsent))
  = Raise ValueError /\
  fst (generate_report sample_acunetix (JStr []) (start silent [] FileAbsent))
  <> Raise AcunetixAPIError.
Proof. split; [reflexivity|]. vm_compute. discriminate. Qed.

Lemma silent_rejecting : rejecting (fun w : script => responses w = []).
Proof.
  intros method full_url body w Hw. exists NoResponse, w.
  simpl. unfold script_request. rewrite Hw. auto.
Defined.

(** The back-offs of the sample configuration, 0.3, 0.6 and 1.2 seconds,
    go through. *)
Lemma sample_backoff_ok : backoff_ok sample_acunetix.
Proof.
  intros attempt Ha. simpl in Ha.
  assert (Hcases : attempt = 0 \/ attempt = 1 \/ attempt = 2) by lia.
  destruct Hcases as [-> | [-> | ->]]; vm_compute; reflexivity.
Defined.

Lemma generate_report_failures_witness :
  fst (generate_report sample_acunetix (JStr [])
         (start silent [] FileAbsent)) = Raise ValueError /\
  fst (generate_report sample_acunetix (JStr (lit "t1"))
         (start silent [] FileAbsent)) = Raise AcunetixAPIError /\
  fst (generate_report (with_factor sample_acunetix (-0.5)) (JStr (lit "t1"))
         (start silent [] FileAbsent)) = Raise ValueError.
Proof.
  split; [|split].
  - apply (generate_report_failures script_env sample_acunetix (JStr [])
             (start silent [] FileAbsent)).
    reflexivity.
  - apply (proj1 (proj2 (generate_report_failures script_env sample_acunetix
                           (JStr (lit "t1")) (start silent [] FileAbsent)))
             (fun w : script => responses w = [])).
    + reflexivity.
    + exact silent_rejecting.
    + reflexivity.
    + exact sample_backoff_ok.
  - apply (proj2 (proj2 (generate_report_failures script_env
                           (with_factor sample_acunetix (-0.5))
                           (JStr (lit "t1")) (start silent [] FileAbsent)))
             (fun w : script => responses w = [])).
    + reflexivity.
    + exact silent_rejecting.
    + reflexivity.
    + simpl. lia.
    + vm_compute. reflexivity.
Defined.

(** ** Waiting for a report *)

Section WaitSteps.

Context {W : Type} `{Env W}.
Variable cfg : AppConfig.

Lemma wait_step_completed (rid : json) (k : nat) (s s1 : pstate W)
    (report : json) :
  get_report_status (acunetix cfg) rid s = (Ret report, s1) ->
  has_status report "completed" = true ->
  wait_loop cfg rid (S k) s = (Ret report, s1).
Proof.
  unfold has_status. intros Hpoll Hst. simpl. unfold_m. rewrite Hpoll.
  apply andb_true_iff in Hst. destruct Hst as [Ht Hst]. rewrite Ht. simpl.
  destruct (get report (lit "status")) as [v|e]; [|discriminate].
  rewrite Hst. reflexivity.
Qed.

Lemma wait_step_failed (rid : json) (k : nat) (s s1 : pstate W)
    (report : json) :
  get_report_status (acunetix cfg) rid s = (Ret report, s1) ->
  has_status report "failed" = true \/ has_status report "cancelled" = true ->
  wait_loop cfg rid (S k) s = (Ret JNull, s1).
Proof.
  unfold has_status. intros Hpoll Hst. simpl. unfold_m. rewrite Hpoll.
  assert (Ht : truthy report = true).
  { destruct Hst as [Hst|Hst]; apply andb_true_iff in Hst; tauto. }
  rewrite Ht in *. simpl in *.
  destruct (get report (lit "status")) as [v|e];
    [|destruct Hst; discriminate].
  destruct (eq_str v (lit "completed")) eqn:Hc.
  - destruct v as [| | |t| |]; simpl in *; try discriminate.
    apply str_eqb_eq in Hc. subst t. destruct Hst; discriminate.
  - destruct Hst as [-> | ->]; rewrite ?orb_true_r; reflexivity.
Qed.

Lemma wait_step_continue (rid : json) (k : nat) (s s1 : pstate W)
    (report : json) :
  sleepable (report_retry_delay (settings cfg)) = true ->
  get_report_status (acunetix cfg) rid s = (Ret report, s1) ->
  keeps_polling report = true ->
  wait_loop cfg rid (S k) s
  = wait_loop cfg rid k (before_next_poll cfg report s1).
Proof.
  unfold keeps_polling, before_next_poll. intros Hs Hpoll Hk.
  simpl. unfold_m. rewrite Hpoll.
  destruct (truthy report); simpl in *; [|reflexivity].
  destruct (get report (lit "status")) as [v|e]; [|discriminate].
  apply negb_true_iff in Hk. apply orb_false_iff in Hk.
  destruct Hk as [Hk Hc]. apply orb_false_iff in Hk. destruct Hk as [Ha Hb].
  rewrite Ha, Hb, Hc. simpl. rewrite (sleepable_sleeps _ Hs). reflexivity.
Qed.

(** A delay [time.sleep] refuses ends the wait with the exception of the
    sleep, after the first poll that is followed by a sleep. *)
Lemma wait_step_sleep_raises (rid : json) (k : nat) (s s1 : pstate W)
    (report : json) (e : exn) :
  time_sleep (Delay (report_retry_delay (settings cfg))) = Raise e ->
  get_report_status (acunetix cfg) rid s = (Ret report, s1) ->
  truthy report = true ->
  keeps_polling report = true ->
  wait_loop cfg rid (S k) s
  = (Raise e, before_next_poll cfg report s1).
Proof.
  unfold keeps_polling, before_next_poll. intros Hs Hpoll Ht Hk.
  simpl. unfold_m. rewrite Hpoll. rewrite Ht in *. simpl in *.
  destruct (get report (lit "status")) as [v|e0]; [|discriminate].
  apply negb_true_iff in Hk. apply orb_false_iff in Hk.
  destruct Hk as [Hk Hc]. apply orb_false_iff in Hk. destruct Hk as [Ha Hb].
  rewrite Ha, Hb, Hc. simpl. rewrite Hs. reflexivity.
Qed.

End WaitSteps.

(** One poll against the script: the head of the responses is the report. *)
Lemma script_poll cfg (rid report : json) (rest : list (res (option json)))
    (s : pstate script) :
  0 <= max_retries cfg -> truthy rid = true ->
  responses (world s) = Ret (Some report) :: rest ->
  exists s1,
    get_report_status cfg rid s = (Ret report, s1) /\
    responses (world s1) = rest /\
    count is_poll (trace s1) = (count is_poll (trace s) + 1)%nat.
Proof.
  intros Hm Hrid Hw. unfold get_report_status, _make_request.
  destruct (Z.to_nat (max_retries cfg + 1)) as [|n] eqn:Hn; [lia|].
  unfold_m. rewrite Hrid. simpl. unfold_m. simpl.
  unfold script_request. rewrite Hw. simpl.
  eexists. split; [reflexivity|]. simpl. split; [reflexivity|].
  unfold count. rewrite !filter_app, !length_app. simpl. lia.
Qed.

Lemma has_status_keeps_polling (report : json) :
  has_status report "running" = true -> keeps_polling report = true.
Proof.
  unfold has_status, keeps_polling. intros Hs.
  apply andb_true_iff in Hs. destruct Hs as [Ht Hs]. rewrite Ht. simpl.
  destruct (get report (lit "status")) as [v|e]; [|discriminate].
  destruct v as [| | |t| |]; simpl in *; try discriminate.
  apply str_eqb_eq in Hs. subst t. reflexivity.
Qed.

(** A run of polls that all answer 'running' uses one attempt each. *)
Lemma script_wait_running cfg (rid : json) :
  0 <= max_retries (acunetix cfg) -> truthy rid = true ->
  sleepable (report_retry_delay (settings cfg)) = true ->
  forall (reports : list json) (k : nat) (rest : list (res (option json)))
         (s : pstate script),
    forallb (fun r => has_status r "running") reports = true ->
    responses (world s) = answers reports ++ rest ->
    exists s1,
      wait_loop cfg rid (List.length reports + k) s = wait_loop cfg rid k s1 /\
      responses (world s1) = rest /\
      count is_poll (trace s1)
      = (count is_poll (trace s) + List.length reports)%nat.
Proof.
  intros Hm Hrid Hs. induction reports as [|r reports IH];
    intros k rest s Hall Hw.
  - exists s. simpl. rewrite Nat.add_0_r. auto.
  - simpl in Hall. apply andb_true_iff in Hall. destruct Hall as [Hr Hall].
    destruct (script_poll (acunetix cfg) rid s Hm Hrid Hw)
      as [s1 [Hpoll [Hw1 Hc1]]].
    assert (Ht : truthy r = true).
    { unfold has_status in Hr. apply andb_true_iff in Hr. tauto. }
    destruct (IH k rest (before_next_poll cfg r s1) Hall) as [s2 [E [Hw2 Hc2]]].
    { unfold before_next_poll. rewrite Ht. simpl. exact Hw1. }
    exists s2. split; [|split].
    + change (List.length (r :: reports) + k)%nat
        with (S (List.length reports + k)).
      rewrite (wait_step_continue cfg rid _ s Hs Hpoll
                 (has_status_keeps_polling r Hr)).
      exact E.
    + exact Hw2.
    + rewrite Hc2. unfold before_next_poll. rewrite Ht. simpl.
      unfold count in *. rewrite filter_app, length_app. simpl.
      rewrite Hc1. lia.
Qed.

Section PollCount.

Context {W : Type} `{Env W}.
Variable cfg : AppConfig.

(** The requests and the back-off sleeps of [_make_request] are not
    polls. *)
Lemma request_loop_polls (method full_url : str) (body : option json)
    (n : nat) :
  forall (attempt : Z) (s : pstate W),
    count is_poll
      (trace (snd (request_loop (acunetix cfg) method full_url body n
                     attempt s)))
    = count is_poll (trace s).
Proof.
  induction n as [|n IH]; intros attempt s; [reflexivity|].
  simpl. unfold_m. simpl.
  destruct (session_request method full_url body (world s)) as [[c|e] w].
  - simpl. rewrite count_snoc. simpl. lia.
  - destruct e; simpl; try (rewrite count_snoc; simpl; lia).
    destruct (request_error_message b) as [[]|e]; simpl;
      [|rewrite count_snoc; simpl; lia].
    destruct (attempt <? max_retries (acunetix cfg)); simpl;
      [destruct (float_of_pow2 attempt) as [power|e]; simpl;
       [destruct (time_sleep _) as [[]|e]; simpl|]|];
      rewrite ?IH; simpl; rewrite ?count_snoc; simpl; lia.
Qed.

(** A call of [get_report_status] is one poll. *)
Lemma get_report_status_polls (rid : json) (s : pstate W) :
  count is_poll (trace (snd (get_report_status (acunetix cfg) rid s)))
  = (count is_poll (trace s) + 1)%nat.
Proof.
  unfold get_report_status, _make_request. unfold_m.
  destruct (negb (truthy rid)).
  - simpl. rewrite count_snoc. reflexivity.
  - rewrite request_loop_polls. simpl. rewrite count_snoc. reflexivity.
Qed.

(** The wait makes at most as many polls as it has attempts. *)
Lemma wait_loop_polls (rid : json) (n : nat) :
  forall s : pstate W,
    (count is_poll (trace (snd (wait_loop cfg rid n s)))
     <= count is_poll (trace s) + n)%nat.
Proof.
  induction n as [|n IH]; intros s; [simpl; lia|].
  simpl. unfold_m.
  pose proof (get_report_status_polls rid s) as Hp.
  destruct (get_report_status (acunetix cfg) rid s) as [[report|e] s1].
  - simpl in Hp. destruct (negb (truthy report)); simpl.
    + specialize (IH s1). lia.
    + destruct (get report (lit "status")) as [v|e]; simpl;
        [|destruct e; simpl; lia].
      destruct (eq_str v (lit "completed")); simpl; [lia|].
      destruct (eq_str v (lit "failed") || eq_str v (lit "cancelled"));
        simpl; [lia|].
      destruct (time_sleep _) as [[]|e]; simpl;
        [|rewrite count_snoc; simpl; lia].
      match goal with
      | |- (count is_poll (trace (snd (wait_loop cfg rid n ?t))) <= _)%nat =>
          specialize (IH t); simpl in IH; rewrite count_snoc in IH;
          simpl in IH
      end.
      lia.
  - simpl in Hp. destruct e; simpl; lia.
Qed.

End PollCount.

(** C3: the wait for a report makes at most 10 polls. With a delay
    between the polls that [time.sleep] accepts: against the answers
    running, running, completed it returns the third report after 3 polls;
    against 10 answers running it returns no report after 10 polls, and
    does not raise. A poll that answers 'completed' ends the wait at once
    with its report, one that answers 'failed' or 'cancelled' ends it at
    once with no report; a poll that answers any other status, or an empty
    response, is followed by the next attempt, after the sleep when the
    response was not empty. When [time.sleep] refuses the delay, the first
    poll that is followed by a sleep ends the wait with the exception of
    the sleep. *)
Theorem report_wait_polls :
  (forall W (E : Env W) cfg rid (s : pstate W),
     (count is_poll (trace (snd (_wait_for_report cfg rid s)))
      <= count is_poll (trace s) + 10)%nat) /\
  (forall cfg rid r1 r2 r3 rest (s : pstate script),
     0 <= max_retries (acunetix cfg) -> truthy rid = true ->
     sleepable (report_retry_delay (settings cfg)) = true ->
     has_status r1 "running" = true ->
     has_status r2 "running" = true ->
     has_status r3 "completed" = true ->
     responses (world s) = answers [r1; r2; r3] ++ rest ->
     fst (_wait_for_report cfg rid s) = Ret r3 /\
     count is_poll (trace (snd (_wait_for_report cfg rid s)))
     = (count is_poll (trace s) + 3)%nat) /\
  (forall cfg rid reports rest (s : pstate script),
     0 <= max_retries (acunetix cfg) -> truthy rid = true ->
     sleepable (report_retry_delay (settings cfg)) = true ->
     List.length reports = 10%nat ->
     forallb (fun r => has_status r "running") reports = true ->
     responses (world s) = answers reports ++ rest ->
     fst (_wait_for_report cfg rid s) = Ret JNull /\
     count is_poll (trace (snd (_wait_for_report cfg rid s)))
     = (count is_poll (trace s) + 10)%nat) /\
  (forall W (E : Env W) cfg rid k (s s1 : pstate W) report,
     get_report_status (acunetix cfg) rid s = (Ret report, s1) ->
     has_status report "completed" = true ->
     wait_loop cfg rid (S k) s = (Ret report, s1)) /\
  (forall W (E : Env W) cfg rid k (s s1 : pstate W) report,
     get_report_status (acunetix cfg) rid s = (Ret report, s1) ->
     has_status report "failed" = true
     \/ has_status report "cancelled" = true ->
     wait_loop cfg rid (S k) s = (Ret JNull, s1)) /\
  (forall W (E : Env W) cfg rid k (s s1 : pstate W) report,
     sleepable (report_retry_delay (settings cfg)) = true ->
     get_report_status (acunetix cfg) rid s = (Ret report, s1) ->
     keeps_polling report = true ->
     wait_loop cfg rid (S k) s
     = wait_loop cfg rid k (before_next_poll cfg report s1)) /\
  (forall W (E : Env W) cfg rid k (s s1 : pstate W) report e,
     time_sleep (Delay (report_retry_delay (settings cfg))) = Raise e ->
     get_report_status (acunetix cfg) rid s = (Ret report, s1) ->
     truthy report = true ->
     keeps_polling report = true ->
     wait_loop cfg rid (S k) s
     = (Raise e, before_next_poll cfg report s1)).
Proof.
  split; [|split; [|split; [|split; [|split; [|split]]]]].
  - intros W E cfg rid s. apply wait_loop_polls.
  - intros cfg rid r1 r2 r3 rest s Hm Hrid Hs H1 H2 H3 Hw.
    destruct (script_wait_running cfg rid Hm Hrid Hs [r1; r2] 8
                (Ret (Some r3) :: rest) s) as [s1 [E [Hw1 Hc1]]].
    { simpl. rewrite H1, H2. reflexivity. }
    { exact Hw. }
    destruct (script_poll (acunetix cfg) rid s1 Hm Hrid Hw1)
      as [s2 [Hpoll [_ Hc2]]].
    assert (E10 : _wait_for_report cfg rid s = wait_loop cfg rid 8 s1)
      by exact E.
    rewrite E10, (wait_step_completed cfg rid 7 s1 Hpoll H3). simpl.
    split; [reflexivity|]. rewrite Hc2, Hc1. simpl. lia.
  - intros cfg rid reports rest s Hm Hrid Hs Hlen Hall Hw.
    destruct (script_wait_running cfg rid Hm Hrid Hs reports 0 rest s Hall Hw)
      as [s1 [E [_ Hc1]]].
    rewrite Hlen in *.
    assert (E10 : _wait_for_report cfg rid s = wait_loop cfg rid 0 s1)
      by exact E.
    rewrite E10. simpl. split; [reflexivity|]. exact Hc1.
  - intros W E cfg rid k s s1 report. apply wait_step_completed.
  - intros W E cfg rid k s s1 report. apply wait_step_failed.
  - intros W E cfg rid k s s1 report. apply wait_step_continue.
  - intros W E cfg rid k s s1 report e. apply wait_step_sleep_raises.
Qed.

(** ** Processing one scan *)

Ltac inv_bind H :=
  apply bind_ret_inv in H;
  let a := fresh "a" in
  let s1 := fresh "s" in
  let Hm := fresh "Hm" in
  destruct H as (a & s1 & Hm & H).

Tactic Notation "inv_lift" hyp(H) "as" ident(E) :=
  apply lift_ret_inv in H; destruct H as [E ?]; subst.

Lemma download_report_trace {W} `{Env W} cfg (u : json) (p : Path)
    (s : pstate W) :
  exists evs,
    trace (snd (download_report cfg u p s))
    = trace s ++ EvCall (DownloadReport u p) :: evs.
Proof.
  unfold download_report. unfold_m. simpl.
  destruct (negb (truthy u)); simpl; [exists []; reflexivity|].
  destruct u; simpl; try (exists []; reflexivity).
  destruct (session_get _ _ _) as [[[]|e] w]; simpl;
    eexists; rewrite <- app_assoc; reflexivity.
Qed.

(** What stands behind a [ScanResult]: the wait returned a report, a
    locator that is true as a condition was extracted from it, and the
    download was called with this locator and the path of the result. *)
Lemma body_produces {W} `{Env W} cfg (scan id tid : json)
    (s s' : pstate W) (r : ScanResult) :
  generate_scan_report_body cfg scan id tid s = (Ret (Some r), s') ->
  scan_id r = id /\
  (exists safe stamp,
     safe_name_of (description r) = Ret safe /\
     name (report_path r) = safe ++ lit "_" ++ stamp ++ lit ".html") /\
  exists rid s1 s2 report u,
    _wait_for_report cfg rid s1 = (Ret report, s2) /\
    extract_download_url report = Ret u /\
    truthy u = true /\
    In (EvCall (DownloadReport u (report_path r))) (trace s').
Proof.
  unfold generate_scan_report_body. intros Hb.
  inv_bind Hb. inv_bind Hb.
  match type of Hb with
  | context [negb (truthy ?v)] => destruct (negb (truthy v))
  end; [discriminate Hb|].
  inv_bind Hb.
  match type of Hb with
  | context [negb (truthy ?v)] => destruct (negb (truthy v))
  end; [discriminate Hb|].
  inv_bind Hb. inv_bind Hb. inv_bind Hb.
  inv_bind Hb. inv_bind Hb. inv_bind Hb.
  match type of Hb with
  | context [negb (truthy ?v)] => destruct (negb (truthy v)) eqn:Hu
  end; [discriminate Hb|].
  inv_bind Hb. inv_bind Hb. inv_bind Hb.
  match type of Hb with
  | context [negb ?b] => destruct (negb b)
  end; [discriminate Hb|].
  inv_bind Hb. inv_bind Hb. inv_bind Hb.
  unfold ret in Hb. injection Hb as Hr Hs. subst r s'.
  inv_lift Hm11 as E11. inv_lift Hm12 as E12. inv_lift Hm13 as E13.
  inv_lift Hm4 as E4. inv_lift Hm7 as E7.
  simpl. split; [reflexivity|]. split; [eauto|].
  do 5 eexists. split; [exact Hm1|]. split; [eassumption|].
  split; [apply negb_false_iff, Hu|].
  match type of Hm10 with
  | download_report ?c ?u ?p ?t = _ =>
      destruct (download_report_trace c u p t) as [evs Hevs]
  end.
  rewrite Hm10 in Hevs. simpl in Hevs. rewrite Hevs.
  apply in_or_app. right. left. reflexivity.
Qed.

(** A scan that gives a [ScanResult] was eligible, and its result went
    through the whole protocol. *)
Lemma report_produces {W} `{Env W} cfg (scan : json) (s s' : pstate W)
    (r : ScanResult) :
  _generate_scan_report cfg scan s = (Ret (Some r), s') ->
  get scan (lit "scan_id") = Ret (scan_id r) /\
  hashable (scan_id r) = true /\
  member (scan_id r) (processed_scans s) = false /\
  status_completed scan = true /\
  exists id tid s0,
    generate_scan_report_body cfg scan id tid s0 = (Ret (Some r), s').
Proof.
  unfold _generate_scan_report, status_completed, scan_status_of.
  intros Hg.
  inv_bind Hg. inv_bind Hg. inv_bind Hg. inv_bind Hg.
  inv_lift Hm as Eid. inv_lift Hm0 as Etid. inv_lift Hm1 as Esess.
  inv_lift Hm2 as Est. rewrite Esess, Est.
  destruct (negb (truthy a) || negb (truthy a0)); [discriminate Hg|].
  inv_bind Hg. inv_bind Hg. unfold get_processed in Hm.
  injection Hm as <- <-. inv_lift Hm0 as Eseen.
  unfold set_contains in Eseen.
  destruct (hashable a) eqn:Hh; [|discriminate Eseen].
  injection Eseen as <-.
  destruct (member a (processed_scans s)) eqn:Hmem; [discriminate Hg|].
  destruct (eq_str a2 (lit "scheduled")); [discriminate Hg|].
  destruct (eq_str a2 (lit "completed")); simpl in Hg; [|discriminate Hg].
  unfold try_except in Hg.
  destruct (generate_scan_report_body cfg scan a a0 s)
    as [[[r'|]|e] s1] eqn:Hb; try discriminate Hg.
  injection Hg as <- <-.
  destruct (body_produces _ _ _ _ _ Hb) as [Hid _].
  rewrite Hid. repeat split; try assumption; try reflexivity.
  exists a, a0, s. exact Hb.
Qed.

(** C6: the sanitized name of a description keeps a character that is
    alphanumeric or one of '-', '_', '.', and puts '_' for every other
    one; "My App: v2 (staging)" becomes "My_App__v2__staging_"; whatever
    the description is, a name that is built holds no path separator. The
    file of a ScanResult is named by the sanitized description of the
    result, '_', the time stamp and ".html". *)
Theorem filename_sanitization W (E : Env W) :
  (forall s : str,
     safe_name_of (JStr s) = Ret (List.map (sanitize_char uni_alnum) s)) /\
  safe_name_of (JStr (lit "My App: v2 (staging)"))
  = Ret (lit "My_App__v2__staging_") /\
  (forall target_name : json,
     match safe_name_of target_name with
     | Ret t => no_separator t = true
     | Raise _ => True
     end) /\
  (forall cfg scan (s s' : pstate W) r,
     _generate_scan_report cfg scan s = (Ret (Some r), s') ->
     exists safe stamp,
       safe_name_of (description r) = Ret safe /\
       no_separator safe = true /\
       name (report_path r) = safe ++ lit "_" ++ stamp ++ lit ".html").
Proof.
  split; [|split; [|split]].
  - intros s. unfold safe_name_of. simpl. apply join_items_chars.
  - reflexivity.
  - intros d. unfold safe_name_of.
    destruct (iterate d) as [items|e]; [|trivial].
    apply join_items_no_separator.
  - intros cfg scan s s' r Hg.
    destruct (report_produces _ _ _ Hg) as (_ & _ & _ & _ & id & tid & s0 & Hb).
    destruct (body_produces _ _ _ _ _ Hb)
      as (_ & (safe & stamp & Hsafe & Hname) & _).
    exists safe, stamp. split; [exact Hsafe|]. split; [|exact Hname].
    unfold safe_name_of in Hsafe.
    destruct (iterate (description r)) as [items|e]; [|discriminate Hsafe].
    pose proof (join_items_no_separator items) as Hno.
    rewrite Hsafe in Hno. exact Hno.
Qed.

(** C5, as the code has it: the locator is taken from the report payload
    by the first test of the chain that applies, and by that one alone. A
    'download' field that is a string is the locator. A 'download' field
    that is a non-empty list decides by its first element: the element
    when it is a string, its 'url' field when it is an object, and nothing
    otherwise; the fields 'download_url' and 'report_id' are then not
    looked at, whatever they hold. Without such a 'download' field, a
    'download_url' field that is present is the locator, whatever its
    value, and 'report_id' is looked at only when there is no
    'download_url' field. Without any of them there is no locator. On
    [stray_report] no locator is found although 'download_url' and
    'report_id' hold one, no download is tried and the scan gives no
    ScanResult. A ScanResult is produced only when a locator that is true
    as a condition was extracted from the report the wait returned, and
    downloaded. *)
Theorem download_locator_extraction :
  (forall d u,
     dict_lookup (lit "download") d = Some (JStr u) ->
     extract_download_url (JDict d) = Ret (JStr u)) /\
  (forall d u rest,
     dict_lookup (lit "download") d = Some (JList (JStr u :: rest)) ->
     extract_download_url (JDict d) = Ret (JStr u)) /\
  (forall d item rest,
     dict_lookup (lit "download") d = Some (JList (JDict item :: rest)) ->
     extract_download_url (JDict d) = get (JDict item) (lit "url")) /\
  (forall d item rest,
     dict_lookup (lit "download") d = Some (JList (item :: rest)) ->
     is_str item = false -> is_dict item = false ->
     extract_download_url (JDict d) = Ret JNull) /\
  (forall d item rest,
     dict_lookup (lit "download") d = Some (JList (JDict item :: rest)) ->
     dict_lookup (lit "url") item = None ->
     extract_download_url (JDict d) = Ret JNull) /\
  (forall d v,
     no_download_field d = true ->
     dict_lookup (lit "download_url") d = Some v ->
     extract_download_url (JDict d) = Ret v) /\
  (forall d v,
     no_download_field d = true ->
     dict_lookup (lit "download_url") d = None ->
     dict_lookup (lit "report_id") d = Some v ->
     extract_download_url (JDict d) = Ret v) /\
  (forall d,
     no_download_field d = true ->
     dict_lookup (lit "download_url") d = None ->
     dict_lookup (lit "report_id") d = None ->
     extract_download_url (JDict d) = Ret JNull) /\
  (extract_download_url stray_report = Ret JNull /\
   fst stray_run = Ret None /\
   count is_download (trace (snd stray_run)) = 0%nat) /\
  (forall W (E : Env W) cfg scan (s s' : pstate W) r,
     _generate_scan_report cfg scan s = (Ret (Some r), s') ->
     exists rid s1 s2 report u,
       _wait_for_report cfg rid s1 = (Ret report, s2) /\
       extract_download_url report = Ret u /\
       truthy u = true /\
       In (EvCall (DownloadReport u (report_path r))) (trace s')).
Proof.
  unfold no_download_field, extract_download_url.
  repeat match goal with |- _ /\ _ => split end.
  - intros d u ->. reflexivity.
  - intros d u rest ->. reflexivity.
  - intros d item rest ->. reflexivity.
  - intros d item rest -> Hs Hd.
    destruct item; try discriminate Hs; try discriminate Hd; reflexivity.
  - intros d item rest -> Hu. unfold get, get_default. rewrite Hu.
    reflexivity.
  - intros d v Hno ->.
    destruct (dict_lookup (lit "download") d) as [[| | | |[|]|]|];
      try discriminate Hno; reflexivity.
  - intros d v Hno -> ->.
    destruct (dict_lookup (lit "download") d) as [[| | | |[|]|]|];
      try discriminate Hno; reflexivity.
  - intros d Hno -> ->.
    destruct (dict_lookup (lit "download") d) as [[| | | |[|]|]|];
      try discriminate Hno; reflexivity.
  - reflexivity.
  - reflexivity.
  - reflexivity.
  - intros W E cfg scan s s' r Hg.
    destruct (report_produces _ _ _ Hg) as (_ & _ & _ & _ & id & tid & s0 & Hb).
    destruct (body_produces _ _ _ _ _ Hb) as (_ & _ & Hex). exact Hex.
Qed.

(** ** What discovery leaves alone *)

Section Frames.

Context {W : Type} `{Env W}.

Lemma frames_ret {A} (a : A) : frames (W := W) (ret a).
Proof. intros s. split; reflexivity. Qed.

Lemma frames_raise {A} (e : exn) : frames (W := W) (A := A) (raise e).
Proof. intros s. split; reflexivity. Qed.

Lemma frames_lift {A} (r : res A) : frames (W := W) (lift r).
Proof. intros s. split; reflexivity. Qed.

Lemma frames_emit (e : event) : frames (W := W) (emit e).
Proof. intros s. split; reflexivity. Qed.

Lemma frames_ask {A} (f : W -> A * W) : frames (ask f).
Proof. intros s. unfold ask. destruct (f (world s)). split; reflexivity. Qed.

Lemma frames_bind {A B} (m : M W A) (k : A -> M W B) :
  frames m -> (forall a, frames (k a)) -> frames (bind m k).
Proof.
  intros Hm Hk s. unfold bind. specialize (Hm s).
  destruct (m s) as [[a|e] s1]; simpl in *.
  - destruct (Hk a s1) as [H1 H2]. destruct Hm as [H3 H4].
    split; congruence.
  - exact Hm.
Qed.

Lemma frames_try {A} (m : M W A) (h : exn -> M W A) :
  frames m -> (forall e, frames (h e)) -> frames (try_except m h).
Proof.
  intros Hm Hh s. unfold try_except. specialize (Hm s).
  destruct (m s) as [[a|e] s1]; simpl in *.
  - exact Hm.
  - destruct (Hh e s1) as [H1 H2]. destruct Hm as [H3 H4].
    split; congruence.
Qed.

Lemma frames_ask_res {A} (f : W -> res A * W) : frames (ask_res f).
Proof.
  unfold ask_res. apply frames_bind; [apply frames_ask|].
  intros a. apply frames_lift.
Qed.

Lemma frames_sleep (k : sleep_kind) : frames (W := W) (sleep k).
Proof. apply frames_emit. Qed.

Lemma frames_get_processed : frames (W := W) get_processed.
Proof. intros s. split; reflexivity. Qed.

End Frames.

Create HintDb frames.
#[export] Hint Resolve frames_ret frames_raise frames_lift frames_emit
  frames_ask frames_ask_res frames_sleep frames_get_processed : frames.

(** Splits a computation along its binds, handlers and tests. *)
Ltac frame_step :=
  match goal with
  | |- frames (bind _ _) => apply frames_bind; [|intros ?]
  | |- frames (try_except _ _) => apply frames_try; [|intros ?]
  | |- frames (if ?c then _ else _) => destruct c
  | |- frames (match ?x with _ => _ end) => destruct x
  | |- frames _ => solve [auto with frames]
  end.

Section FramesOfTheWorkflow.

Context {W : Type} `{Env W}.
Variable cfg : AppConfig.

Lemma frames_request_loop (method full_url : str) (body : option json)
    (n : nat) :
  forall attempt : Z,
    frames (request_loop (acunetix cfg) method full_url body n attempt).
Proof.
  induction n as [|n IH]; intros attempt; simpl; [auto with frames|].
  repeat frame_step; try apply IH.
Qed.

Lemma frames_make_request (method endpoint : str) (body : option json) :
  frames (_make_request (acunetix cfg) method endpoint body).
Proof. unfold _make_request. apply frames_request_loop. Qed.

Lemma frames_fetch_all_scans : frames (fetch_all_scans (acunetix cfg)).
Proof.
  unfold fetch_all_scans. repeat frame_step. apply frames_make_request.
Qed.

Lemma frames_generate_report (target : json) :
  frames (generate_report (acunetix cfg) target).
Proof.
  unfold generate_report. repeat frame_step. apply frames_make_request.
Qed.

Lemma frames_get_report_status (rid : json) :
  frames (get_report_status (acunetix cfg) rid).
Proof.
  unfold get_report_status. repeat frame_step. apply frames_make_request.
Qed.

Lemma frames_download_report (u : json) (p : Path) :
  frames (download_report (acunetix cfg) u p).
Proof. unfold download_report. repeat frame_step. Qed.

Lemma frames_wait_loop (rid : json) (n : nat) : frames (wait_loop cfg rid n).
Proof.
  induction n as [|n IH]; simpl; [auto with frames|].
  repeat frame_step; try apply frames_get_report_status; try exact IH.
Qed.

Lemma frames_body (scan id tid : json) :
  frames (generate_scan_report_body cfg scan id tid).
Proof.
  unfold generate_scan_report_body.
  repeat frame_step;
    first [ apply frames_generate_report
          | apply frames_wait_loop
          | apply frames_download_report ].
Qed.

Lemma frames_generate_scan_report (scan : json) :
  frames (_generate_scan_report cfg scan).
Proof.
  unfold _generate_scan_report. repeat frame_step. apply frames_body.
Qed.

Lemma frames_scan_loop (scans : list json) :
  forall results, frames (scan_loop cfg scans results).
Proof.
  induction scans as [|scan scans IH]; intros results; simpl;
    [auto with frames|].
  repeat frame_step; try apply frames_generate_scan_report; try apply IH.
Qed.

Lemma frames_process_scans : frames (process_scans cfg).
Proof.
  unfold process_scans.
  repeat frame_step; try apply frames_fetch_all_scans;
    try apply frames_scan_loop.
Qed.

End FramesOfTheWorkflow.

(** ** The loop over the scans *)

Section ScanLoop.

Context {W : Type} `{Env W}.
Variable cfg : AppConfig.

(** One iteration on a JSON object: whatever happens to the scan, the
    loop goes on with the next scan, from the state the scan left. *)
Lemma scan_loop_step (d : list (str * json)) (rest : list json)
    (results : list ScanResult) (s : pstate W) :
  scan_loop cfg (JDict d :: rest) results s
  = scan_loop cfg rest
      (match fst (_generate_scan_report cfg (JDict d) s) with
       | Ret (Some r) => results ++ [r]
       | _ => results
       end)
      (snd (_generate_scan_report cfg (JDict d) s)).
Proof.
  simpl. unfold_m.
  destruct (_generate_scan_report cfg (JDict d) s) as [[[r|]|e] s1];
    simpl; try reflexivity.
  unfold get, get_default. destruct (dict_lookup _ d); reflexivity.
Qed.

Lemma scan_loop_returns (scans : list json) :
  forallb is_dict scans = true ->
  forall (results : list ScanResult) (s : pstate W),
    exists more, fst (scan_loop cfg scans results s) = Ret (results ++ more).
Proof.
  induction scans as [|scan scans IH]; intros Hall results s.
  - exists []. simpl. rewrite app_nil_r. reflexivity.
  - simpl in Hall. apply andb_true_iff in Hall. destruct Hall as [Hd Hall].
    destruct scan as [| | | | |d]; try discriminate Hd.
    rewrite scan_loop_step.
    destruct (fst (_generate_scan_report cfg (JDict d) s)) as [[r|]|e].
    + destruct (IH Hall (results ++ [r])
                  (snd (_generate_scan_report cfg (JDict d) s)))
        as [more Hmore].
      exists (r :: more). rewrite Hmore, <- app_assoc. reflexivity.
    + apply IH, Hall.
    + apply IH, Hall.
Qed.

Lemma scan_loop_app (pre post : list json) :
  forall (results : list ScanResult) (s : pstate W),
    scan_loop cfg (pre ++ post) results s
    = bind (scan_loop cfg pre results)
           (fun results => scan_loop cfg post results) s.
Proof.
  induction pre as [|scan pre IH]; intros results s; [reflexivity|].
  simpl. rewrite bind_assoc. apply bind_ext. intros results1 s1. apply IH.
Qed.

Lemma init_returns (s : pstate W) : fst (ScanProcessor_init s) = Ret tt.
Proof.
  unfold ScanProcessor_init, bind, set_processed. apply load_returns.
Qed.

(** With the scans of the listing, all of them objects, [process_scans] is
    the loop over them. *)
Lemma process_scans_loop (s s1 : pstate W) (data : json) :
  fetch_all_scans (acunetix cfg) s = (Ret data, s1) ->
  forallb is_dict (listed data) = true ->
  process_scans cfg s = scan_loop cfg (listed data) [] s1.
Proof.
  intros Hf Hall. unfold process_scans. unfold_m. rewrite Hf.
  unfold fetch_all_scans in Hf.
  inv_bind Hf. inv_bind Hf. inv_bind Hf. inv_bind Hf.
  unfold ret in Hf. injection Hf as <- <-.
  inv_lift Hm1 as Escans. inv_lift Hm2 as Elen.
  unfold listed in *. rewrite Escans in *.
  destruct (truthy a1) eqn:Ht; simpl; [|reflexivity].
  destruct (iterate a1) as [items|e] eqn:Hit; simpl.
  - match goal with
    | |- context [scan_loop cfg items [] ?t] =>
        destruct (scan_loop_returns items Hall [] t) as [more Hmore];
        destruct (scan_loop cfg items [] t) as [[out|e] sl]; simpl in *;
          [reflexivity|discriminate Hmore]
    end.
  - destruct a1; simpl in *; discriminate.
Qed.

(** A scan that passes the tests goes into the [try] block, whose
    exceptions all give no result. *)
Lemma eligible_report (scan id tid : json) (s : pstate W) :
  eligible scan (processed_scans s) id tid ->
  _generate_scan_report cfg scan s
  = try_except (generate_scan_report_body cfg scan id tid)
      (fun _ => ret None) s.
Proof.
  intros (Hid & Htid & Hti & Htt & Hh & Hm & Hst).
  unfold status_completed, scan_status_of in Hst.
  unfold _generate_scan_report, set_contains. unfold_m.
  rewrite Hid, Htid.
  destruct (get_default scan (lit "current_session") (JDict []))
    as [session|e]; [|discriminate Hst].
  destruct (get session (lit "status")) as [status|e]; [|discriminate Hst].
  assert (Hsch : eq_str status (lit "scheduled") = false).
  { destruct status as [| | |t| |]; simpl in *; try discriminate Hst.
    apply str_eqb_eq in Hst. subst t. reflexivity. }
  rewrite Hti, Htt. simpl. rewrite Hh, Hm, Hsch, Hst. reflexivity.
Qed.

Lemma generation_failure (scan id tid : json) (s s1 : pstate W) (e : exn) :
  generate_report (acunetix cfg) tid s = (Raise e, s1) ->
  generate_scan_report_body cfg scan id tid s = (Raise e, s1).
Proof.
  intros Hg. unfold generate_scan_report_body, bind. rewrite Hg.
  reflexivity.
Qed.

Lemma polling_failure (scan id tid : json) (s s1 s2 : pstate W)
    (report_data rid : json) (r : res json) :
  generate_report (acunetix cfg) tid s = (Ret report_data, s1) ->
  get report_data (lit "report_id") = Ret rid ->
  truthy rid = true ->
  _wait_for_report cfg rid s1 = (r, s2) ->
  match r with
  | Ret report => truthy report = false
  | Raise _ => True
  end ->
  try_except (generate_scan_report_body cfg scan id tid)
    (fun _ => ret None) s = (Ret None, s2).
Proof.
  intros Hg Hrid Ht Hw Hr.
  unfold try_except, generate_scan_report_body, bind, lift.
  rewrite Hg, Hrid, Ht. simpl. rewrite Hw.
  destruct r as [report|e]; [rewrite Hr|]; reflexivity.
Qed.

Lemma locator_failure (scan id tid : json) (s s1 s2 : pstate W)
    (report_data rid report u : json) :
  generate_report (acunetix cfg) tid s = (Ret report_data, s1) ->
  get report_data (lit "report_id") = Ret rid ->
  truthy rid = true ->
  _wait_for_report cfg rid s1 = (Ret report, s2) ->
  extract_download_url report = Ret u ->
  truthy u = false ->
  fst (try_except (generate_scan_report_body cfg scan id tid)
         (fun _ => ret None) s) = Ret None /\
  count is_download
    (trace (snd (try_except (generate_scan_report_body cfg scan id tid)
                   (fun _ => ret None) s)))
  = count is_download (trace s2).
Proof.
  intros Hg Hrid Ht Hw Hu Hf.
  unfold try_except, generate_scan_report_body, bind, lift.
  rewrite Hg, Hrid, Ht. simpl. rewrite Hw.
  destruct (negb (truthy report)); [split; reflexivity|].
  destruct (get_default scan (lit "target") (JDict [])) as [target|e];
    [|split; reflexivity].
  destruct (get_default target (lit "description") (JStr (lit "report")))
    as [target_name|e]; [|split; reflexivity].
  destruct (safe_name_of target_name) as [safe|e]; [|split; reflexivity].
  unfold emit, ask. simpl.
  destruct (strftime_now (world s2)) as [stamp w]. simpl.
  rewrite Hu, Hf. simpl. rewrite count_snoc. simpl. split; [reflexivity|lia].
Qed.

(** A result stands for a download that returned [True]. *)
Lemma body_downloads (scan id tid : json) (s s' : pstate W)
    (r : ScanResult) :
  generate_scan_report_body cfg scan id tid s = (Ret (Some r), s') ->
  exists u s3,
    download_report (acunetix cfg) u (report_path r) s3 = (Ret true, s').
Proof.
  unfold generate_scan_report_body. intros Hb.
  inv_bind Hb. inv_bind Hb.
  match type of Hb with
  | context [negb (truthy ?v)] => destruct (negb (truthy v))
  end; [discriminate Hb|].
  inv_bind Hb.
  match type of Hb with
  | context [negb (truthy ?v)] => destruct (negb (truthy v))
  end; [discriminate Hb|].
  inv_bind Hb. inv_bind Hb. inv_bind Hb.
  inv_bind Hb. inv_bind Hb. inv_bind Hb.
  match type of Hb with
  | context [negb (truthy ?v)] => destruct (negb (truthy v))
  end; [discriminate Hb|].
  inv_bind Hb. inv_bind Hb. inv_bind Hb.
  match type of Hb with
  | context [negb ?b] => destruct b
  end; [|discriminate Hb].
  simpl in Hb.
  inv_bind Hb. inv_bind Hb. inv_bind Hb.
  unfold ret in Hb. injection Hb as Hr Hs. subst r s'.
  inv_lift Hm11 as E11. inv_lift Hm12 as E12. inv_lift Hm13 as E13.
  simpl. eexists. eexists. exact Hm10.
Qed.

End ScanLoop.

(** C9: when listing the scans fails the run is aborted: [process_scans]
    raises [ScanProcessorError] and [main] exits with status 1 in the state
    of the failure. When the listing returns, [process_scans] is the loop
    over the listed scans. Over discovered scans the loop never raises:
    whatever processing a scan does, return a result, return nothing or
    raise, the loop goes on with the scans after it, from the state it
    left and with the batch as it was but for the result. A scan that
    passes the tests is processed in the [try] block, whose exceptions all
    give no result: that is so when the report request fails, when the
    wait for the report raises or returns no report, and when no locator
    is found, and a result is only given after a download that returned
    [True]. An entry of the listing that is not an object is no scan: the
    handler of the loop cannot read its id, and the loop raises. *)
Theorem failures_contained W (E : Env W) cfg :
  (forall (s s' : pstate W) e,
     fetch_all_scans (acunetix cfg) s = (Raise e, s') ->
     process_scans cfg s = (Raise ScanProcessorError, s')) /\
  (forall (s s1 : pstate W) e,
     process_scans cfg (snd (ScanProcessor_init s)) = (Raise e, s1) ->
     main cfg s = (Ret (SysExit 1), s1)) /\
  (forall (s s1 : pstate W) data,
     fetch_all_scans (acunetix cfg) s = (Ret data, s1) ->
     forallb is_dict (listed data) = true ->
     process_scans cfg s = scan_loop cfg (listed data) [] s1) /\
  (forall scans results (s : pstate W),
     forallb is_dict scans = true ->
     exists more,
       fst (scan_loop cfg scans results s) = Ret (results ++ more)) /\
  (forall scan rest results (s : pstate W),
     is_dict scan = true ->
     scan_loop cfg (scan :: rest) results s
     = scan_loop cfg rest
         (match fst (_generate_scan_report cfg scan s) with
          | Ret (Some r) => results ++ [r]
          | _ => results
          end)
         (snd (_generate_scan_report cfg scan s))) /\
  (forall pre post results (s : pstate W),
     scan_loop cfg (pre ++ post) results s
     = bind (scan_loop cfg pre results)
            (fun results => scan_loop cfg post results) s) /\
  (forall scan id tid (s : pstate W),
     eligible scan (processed_scans s) id tid ->
     _generate_scan_report cfg scan s
     = (match generate_scan_report_body cfg scan id tid s with
        | (Ret result, s1) => (Ret result, s1)
        | (Raise _, s1) => (Ret None, s1)
        end)) /\
  (forall scan id tid (s s1 : pstate W) e,
     eligible scan (processed_scans s) id tid ->
     generate_report (acunetix cfg) tid s = (Raise e, s1) ->
     _generate_scan_report cfg scan s = (Ret None, s1)) /\
  (forall scan id tid (s s1 s2 : pstate W) report_data rid r,
     eligible scan (processed_scans s) id tid ->
     generate_report (acunetix cfg) tid s = (Ret report_data, s1) ->
     get report_data (lit "report_id") = Ret rid ->
     truthy rid = true ->
     _wait_for_report cfg rid s1 = (r, s2) ->
     match r with
     | Ret report => truthy report = false
     | Raise _ => True
     end ->
     _generate_scan_report cfg scan s = (Ret None, s2)) /\
  (forall scan id tid (s s1 s2 : pstate W) report_data rid report u,
     eligible scan (processed_scans s) id tid ->
     generate_report (acunetix cfg) tid s = (Ret report_data, s1) ->
     get report_data (lit "report_id") = Ret rid ->
     truthy rid = true ->
     _wait_for_report cfg rid s1 = (Ret report, s2) ->
     extract_download_url report = Ret u ->
     truthy u = false ->
     fst (_generate_scan_report cfg scan s) = Ret None /\
     count is_download (trace (snd (_generate_scan_report cfg scan s)))
     = count is_download (trace s2)) /\
  (forall scan (s s' : pstate W) r,
     _generate_scan_report cfg scan s = (Ret (Some r), s') ->
     exists u s3,
       download_report (acunetix cfg) u (report_path r) s3
       = (Ret true, s')) /\
  (forall scan rest results (s : pstate W),
     is_dict scan = false ->
     scan_loop cfg (scan :: rest) results s = (Raise AttributeError, s)).
Proof.
  repeat match goal with |- _ /\ _ => split end.
  - intros s s' e Hf. unfold process_scans. unfold_m. rewrite Hf.
    reflexivity.
  - intros s s1 e Hp. unfold main. unfold try_except, bind.
    pose proof (init_returns s) as Hi.
    destruct (ScanProcessor_init s) as [[[]|e0] s0]; simpl in *;
      [|discriminate Hi].
    rewrite Hp. reflexivity.
  - intros s s1 data. apply process_scans_loop.
  - intros scans results s Hall. apply scan_loop_returns, Hall.
  - intros scan rest results s Hd.
    destruct scan as [| | | | |d]; try discriminate Hd.
    apply scan_loop_step.
  - intros pre post results s. apply scan_loop_app.
  - intros scan id tid s Hel. rewrite (eligible_report cfg s Hel).
    unfold try_except.
    destruct (generate_scan_report_body cfg scan id tid s) as [[o|e] s1];
      reflexivity.
  - intros scan id tid s s1 e Hel Hg. rewrite (eligible_report cfg s Hel).
    unfold try_except.
    rewrite (generation_failure cfg scan id tid s Hg). reflexivity.
  - intros scan id tid s s1 s2 report_data rid r Hel Hg Hrid Ht Hw Hr.
    rewrite (eligible_report cfg s Hel).
    apply (polling_failure cfg scan id tid s Hg Hrid Ht Hw Hr).
  - intros scan id tid s s1 s2 report_data rid report u Hel Hg Hrid Ht Hw
      Hu Hf.
    rewrite (eligible_report cfg s Hel).
    apply (locator_failure cfg scan id tid s Hg Hrid Ht Hw Hu Hf).
  - intros scan s s' r Hg.
    destruct (report_produces _ _ _ Hg) as (_ & _ & _ & _ & id & tid & s0 & Hb).
    apply (body_downloads cfg scan id tid s0 Hb).
  - intros scan rest results s Hd.
    destruct scan; try discriminate Hd; reflexivity.
Qed.

(** ** Notification and commit *)

Section Commit.

Context {W : Type} `{Env W}.
Variable cfg : AppConfig.

Lemma mark_as_processed_spec (id : json) (s : pstate W) :
  hashable id = true ->
  fst (mark_as_processed cfg id s) = Ret tt /\
  forall x,
    member x (processed_scans (snd (mark_as_processed cfg id s)))
    = member x (processed_scans s) || key_eq x id.
Proof.
  intros Hh. unfold mark_as_processed, set_contains. unfold_m. rewrite Hh.
  destruct (member id (processed_scans s)) eqn:Hm; simpl.
  - split; [reflexivity|]. intros x.
    destruct (key_eq x id) eqn:Hx.
    + rewrite (member_key_eq _ _ _ Hx Hm). reflexivity.
    + rewrite orb_false_r. reflexivity.
  - match goal with
    | |- fst (_save_processed_scans cfg ?t) = _ /\ _ =>
        pose proof (save_returns cfg t) as Hr;
        pose proof (save_keeps_processed cfg t) as Hk
    end.
    split; [exact Hr|]. intros x. rewrite Hk. simpl.
    apply member_set_add.
Qed.

Lemma mark_all_spec (batch : list ScanResult) :
  Forall (fun r => hashable (scan_id r) = true) batch ->
  forall s : pstate W,
    fst (mark_all cfg batch s) = Ret tt /\
    forall x,
      member x (processed_scans (snd (mark_all cfg batch s)))
      = member x (processed_scans s)
        || existsb (fun r => key_eq x (scan_id r)) batch.
Proof.
  induction 1 as [|r batch Hr Hall IH]; intros s.
  - split; [reflexivity|]. intros x. simpl. rewrite orb_false_r. reflexivity.
  - destruct (mark_as_processed_spec (scan_id r) s Hr) as [Hret Hmem].
    simpl. unfold bind.
    destruct (mark_as_processed cfg (scan_id r) s) as [[[]|e] s1];
      simpl in *; [|discriminate Hret].
    destruct (IH s1) as [Hret1 Hmem1]. split; [exact Hret1|].
    intros x. rewrite Hmem1, Hmem, orb_assoc. reflexivity.
Qed.

(** The results of the loop are fresh with respect to the processed set
    the loop runs with. *)
Lemma scan_loop_fresh (scans : list json) :
  forall (results out : list ScanResult) (s s' : pstate W),
    Forall (fresh_result (processed_scans s)) results ->
    scan_loop cfg scans results s = (Ret out, s') ->
    Forall (fresh_result (processed_scans s)) out.
Proof.
  induction scans as [|scan scans IH]; intros results out s s' Hres Hloop.
  - simpl in Hloop. unfold ret in Hloop. injection Hloop as <- <-.
    exact Hres.
  - simpl in Hloop. apply bind_ret_inv in Hloop.
    destruct Hloop as (results1 & s1 & Hstep & Hloop).
    assert (Hs1 : processed_scans s1 = processed_scans s).
    { assert (Hf : frames (try_except
                (result <- _generate_scan_report cfg scan ;;
                 match result with
                 | Some r => ret (results ++ [r])
                 | None => ret results
                 end)
                (fun _ => lift (get scan (lit "scan_id")) ;;; ret results))).
      { repeat frame_step. apply frames_generate_scan_report. }
      destruct (Hf s) as [Hp _]. rewrite Hstep in Hp. exact Hp. }
    rewrite <- Hs1. eapply IH; [|exact Hloop]. rewrite Hs1.
    unfold try_except, bind in Hstep.
    destruct (_generate_scan_report cfg scan s) as [[[r|]|e] s2] eqn:Hg.
    + unfold ret in Hstep. injection Hstep as <- <-.
      apply Forall_app. split; [exact Hres|].
      constructor; [|constructor].
      destruct (report_produces _ _ _ Hg) as (_ & Hh & Hm & _).
      split; assumption.
    + unfold ret in Hstep. injection Hstep as <- <-. exact Hres.
    + apply bind_ret_inv in Hstep.
      destruct Hstep as (v & s3 & _ & Hret).
      unfold ret in Hret. injection Hret as <- <-. exact Hres.
Qed.

Lemma process_scans_fresh (batch : list ScanResult) (s0 s : pstate W) :
  process_scans cfg s0 = (Ret batch, s) ->
  Forall (fresh_result (processed_scans s0)) batch.
Proof.
  unfold process_scans, try_except. intros Hp.
  match type of Hp with
  | (let (r, s') := ?m s0 in _) = _ =>
      destruct (m s0) as [[out|e] s1] eqn:Hm; [|discriminate Hp]
  end.
  injection Hp as -> ->.
  inv_bind Hm. inv_bind Hm.
  assert (Hs : processed_scans s1 = processed_scans s0).
  { destruct (frames_fetch_all_scans cfg s0) as [Hf _].
    rewrite Hm0 in Hf. exact Hf. }
  inv_lift Hm1 as Escans.
  destruct (negb (truthy a0)).
  - unfold ret in Hm. injection Hm as <- <-. constructor.
  - inv_bind Hm. inv_lift Hm1 as Eit. rewrite <- Hs.
    eapply scan_loop_fresh; [|exact Hm]. constructor.
Qed.

Lemma notify_unsuccessful (batch : list ScanResult) (s : pstate W) :
  notification_succeeds batch s = false ->
  processed_scans (snd (notify_and_commit cfg batch s)) = processed_scans s /\
  store (snd (notify_and_commit cfg batch s)) = store s.
Proof.
  unfold notification_succeeds, notify_and_commit.
  destruct batch as [|r batch]; [split; reflexivity|].
  unfold_m.
  destruct (build_email_html (r :: batch)) as [[]|e]; [|split; reflexivity].
  cbv beta iota. simpl world.
  destruct (send_email _ _ (world s)) as [[[|]|e] w]; simpl;
    try discriminate; split; reflexivity.
Qed.

Lemma notify_successful (batch : list ScanResult) (s : pstate W) :
  Forall (fun r => hashable (scan_id r) = true) batch ->
  notification_succeeds batch s = true ->
  forall x,
    member x (processed_scans (snd (notify_and_commit cfg batch s)))
    = member x (processed_scans s)
      || existsb (fun r => key_eq x (scan_id r)) batch.
Proof.
  unfold notification_succeeds, notify_and_commit. intros Hall.
  destruct batch as [|r batch]; [discriminate|].
  unfold_m.
  destruct (build_email_html (r :: batch)) as [[]|e]; [|discriminate].
  cbv beta iota. simpl world.
  destruct (send_email _ _ (world s)) as [[[|]|e] w]; simpl;
    try discriminate.
  intros _ x.
  match goal with
  | |- member x (processed_scans (snd (?m ?t))) = _ =>
      destruct (mark_all_spec Hall t) as [_ Hmem]
  end.
  simpl in Hmem. apply Hmem.
Qed.

(** Marking an id keeps the record of what was written. *)
Lemma mark_saved (base : pyset) (id : json) (s : pstate W) :
  saved_since base s ->
  saved_since base (snd (mark_as_processed cfg id s)).
Proof.
  intros Hs. unfold mark_as_processed, set_contains, _save_processed_scans.
  unfold_m. destruct (hashable id); [|exact Hs].
  destruct (member id (processed_scans s)) eqn:Hm; simpl; [exact Hs|].
  destruct (write_file _ _ _) as [[| |] w]; simpl; intros x Hx; right;
    exists (set_add id (processed_scans s));
    (split; [apply in_or_app; right; left; reflexivity|exact Hx]).
Qed.

Lemma mark_all_saved (base : pyset) (batch : list ScanResult) :
  forall s : pstate W,
    saved_since base s -> saved_since base (snd (mark_all cfg batch s)).
Proof.
  induction batch as [|r batch IH]; intros s Hs; [exact Hs|].
  simpl. unfold bind.
  pose proof (mark_saved (scan_id r) Hs) as H1.
  destruct (mark_as_processed cfg (scan_id r) s) as [[[]|e] s1];
    simpl in *; [apply IH; exact H1|exact H1].
Qed.

(** On a disk that takes every write, marking an id leaves the file with
    the set, if the id was new or the file held the set before. *)
Lemma mark_durable (P : W -> Prop) (id : json) (s : pstate W) :
  durable P -> P (world s) ->
  let s' := snd (mark_as_processed cfg id s) in
  P (world s') /\
  (member id (processed_scans s) = false
   \/ store s = FileJson (JList (processed_scans s)) ->
   hashable id = true ->
   store s' = FileJson (JList (processed_scans s'))).
Proof.
  intros [Hdisk _] HP.
  unfold mark_as_processed, set_contains, _save_processed_scans.
  unfold_m. destruct (hashable id); [|split; [exact HP|discriminate]].
  destruct (member id (processed_scans s)) eqn:Hm; simpl.
  - split; [exact HP|]. intros [Hf|Hst] _; [discriminate Hf|exact Hst].
  - destruct (Hdisk (processed_file (paths cfg))
                (set_add id (processed_scans s)) (world s) HP) as [Ho HP'].
    destruct (write_file _ _ _) as [o w]. simpl in Ho, HP'. subst o.
    simpl. split; [exact HP'|]. reflexivity.
Qed.

Lemma mark_all_durable (P : W -> Prop) (batch : list ScanResult) :
  durable P ->
  Forall (fun r => hashable (scan_id r) = true) batch ->
  forall s : pstate W,
    P (world s) ->
    store s = FileJson (JList (processed_scans s)) ->
    let s' := snd (mark_all cfg batch s) in
    P (world s') /\ store s' = FileJson (JList (processed_scans s')).
Proof.
  intros Hd. induction 1 as [|r batch Hr Hall IH]; intros s HP Hst.
  - split; assumption.
  - simpl. unfold bind.
    destruct (mark_durable (scan_id r) s Hd HP) as [HP1 Hst1].
    destruct (mark_as_processed_spec (scan_id r) s Hr) as [Hret _].
    destruct (mark_as_processed cfg (scan_id r) s) as [[[]|e] s1];
      simpl in *; [|discriminate Hret].
    apply IH; [exact HP1|]. apply Hst1; [right; exact Hst|exact Hr].
Qed.

(** A notification that succeeds is followed by the writes of the
    commit. *)
Lemma notify_saved (batch : list ScanResult) (s : pstate W) :
  notification_succeeds batch s = true ->
  saved_since (processed_scans s) (snd (notify_and_commit cfg batch s)).
Proof.
  unfold notification_succeeds, notify_and_commit.
  destruct batch as [|r batch]; [discriminate|].
  unfold_m.
  destruct (build_email_html (r :: batch)) as [[]|e]; [|discriminate].
  cbv beta iota. simpl world.
  destruct (send_email _ _ (world s)) as [[[|]|e] w]; simpl;
    try discriminate.
  intros _.
  change (mark_as_processed cfg (scan_id r) ;;; mark_all cfg batch)
    with (mark_all cfg (r :: batch)).
  apply mark_all_saved. intros x Hx. left. exact Hx.
Qed.

Lemma notify_durable (P : W -> Prop) (batch : list ScanResult)
    (s : pstate W) :
  durable P -> P (world s) ->
  Forall (fresh_result (processed_scans s)) batch ->
  notification_succeeds batch s = true ->
  store (snd (notify_and_commit cfg batch s))
  = FileJson (JList (processed_scans (snd (notify_and_commit cfg batch s)))).
Proof.
  unfold notification_succeeds, notify_and_commit. intros Hd HP Hfresh.
  destruct batch as [|r batch]; [discriminate|].
  unfold_m.
  destruct (build_email_html (r :: batch)) as [[]|e]; [|discriminate].
  cbv beta iota. simpl world.
  pose proof (proj2 Hd (List.length (r :: batch))
                (filter (fun p => path_exists p (world s))
                   (List.map report_path (r :: batch))) (world s) HP) as HP1.
  destruct (send_email _ _ (world s)) as [[[|]|e] w]; simpl;
    try discriminate.
  intros _. simpl in HP1.
  inversion Hfresh as [|r0 b0 [Hh Hm] Hrest]; subst.
  match goal with
  | |- context [bind (mark_as_processed cfg (scan_id r)) _ ?t] =>
      set (s0 := t)
  end.
  unfold bind.
  destruct (mark_durable (scan_id r) s0 Hd HP1) as [HP2 Hst2].
  destruct (mark_as_processed_spec (scan_id r) s0 Hh) as [Hret _].
  destruct (mark_as_processed cfg (scan_id r) s0) as [[[]|e] s1];
    simpl in *; [|discriminate Hret].
  apply (mark_all_durable Hd); [|exact HP2|].
  - eapply Forall_impl; [|exact Hrest]. intros r1 [Hh1 _]. exact Hh1.
  - apply Hst2; [left; exact Hm|exact Hh].
Qed.

End Commit.

(** The state [main] ends in, in a run whose discovery gave the batch. *)
Lemma main_after_discovery {W} `{Env W} cfg (s_start s : pstate W)
    (batch : list ScanResult) :
  process_scans cfg (snd (ScanProcessor_init s_start)) = (Ret batch, s) ->
  snd (main cfg s_start) = snd (notify_and_commit cfg batch s).
Proof.
  intros Hp. unfold main, try_except, bind.
  pose proof (init_returns s_start) as Hi.
  destruct (ScanProcessor_init s_start) as [[[]|e0] s0]; simpl in *;
    [|discriminate Hi].
  rewrite Hp.
  destruct (notify_and_commit cfg batch s) as [[[]|e] s2]; reflexivity.
Qed.

(** C1: take a run of [main] whose discovery, after the processed set was
    loaded, gave the batch. The run ends in the state the notification and
    commit of the batch leave. Discovery itself commits nothing, and the
    ids of the batch are not yet in the processed set. When the
    notification of the batch succeeds every id of the batch is in the
    processed set afterwards; when it does not, the processed set and its
    file are unchanged. Afterwards an id is in the processed set if and
    only if it was there before, or the notification succeeded and the id
    is the id of a result of the batch. The commit is written: after a
    notification that succeeded, for every id of the batch a set that
    holds it was handed to the disk, and on a disk that takes every write
    the file holds exactly the processed set of the end of the run. *)
Theorem commit_iff_notified W (E : Env W) cfg (s_start s : pstate W)
    (batch : list ScanResult) :
  process_scans cfg (snd (ScanProcessor_init s_start)) = (Ret batch, s) ->
  snd (main cfg s_start) = snd (notify_and_commit cfg batch s) /\
  (processed_scans s = processed_scans (snd (ScanProcessor_init s_start)) /\
   store s = store (snd (ScanProcessor_init s_start))) /\
  (forall r, In r batch -> member (scan_id r) (processed_scans s) = false) /\
  (notification_succeeds batch s = true ->
   forall r, In r batch ->
     member (scan_id r) (processed_scans (snd (notify_and_commit cfg batch s)))
     = true) /\
  (notification_succeeds batch s = false ->
   processed_scans (snd (notify_and_commit cfg batch s)) = processed_scans s /\
   store (snd (notify_and_commit cfg batch s)) = store s) /\
  (forall x,
     member x (processed_scans (snd (notify_and_commit cfg batch s))) = true
     <-> member x (processed_scans s) = true
         \/ (notification_succeeds batch s = true /\
             exists r, In r batch /\ key_eq x (scan_id r) = true)) /\
  (notification_succeeds batch s = true ->
   forall r, In r batch ->
     exists ids,
       In (EvSave ids) (trace (snd (notify_and_commit cfg batch s))) /\
       member (scan_id r) ids = true) /\
  (forall P : W -> Prop,
     durable P -> P (world s) ->
     notification_succeeds batch s = true ->
     store (snd (notify_and_commit cfg batch s))
     = FileJson
         (JList (processed_scans (snd (notify_and_commit cfg batch s))))).
Proof.
  intros Hp.
  pose proof (process_scans_fresh _ _ Hp) as Hfresh.
  assert (Hhash : Forall (fun r => hashable (scan_id r) = true) batch).
  { eapply Forall_impl; [|exact Hfresh]. intros r [Hh _]. exact Hh. }
  destruct (frames_process_scans cfg (snd (ScanProcessor_init s_start)))
    as [Hsame Hstore].
  rewrite Hp in Hsame, Hstore. simpl in Hsame, Hstore.
  assert (Hfresh' : Forall (fresh_result (processed_scans s)) batch)
    by (rewrite Hsame; exact Hfresh).
  assert (Hmarked : notification_succeeds batch s = true ->
          forall r, In r batch ->
            member (scan_id r)
              (processed_scans (snd (notify_and_commit cfg batch s))) = true).
  { intros Hok r Hin. rewrite (notify_successful cfg s Hhash Hok).
    apply orb_true_iff. right. apply existsb_exists. exists r.
    split; [exact Hin|]. apply key_eq_refl.
    rewrite Forall_forall in Hhash. apply Hhash, Hin. }
  split; [|split; [|split; [|split; [|split; [|split; [|split]]]]]].
  - apply main_after_discovery, Hp.
  - split; assumption.
  - intros r Hin. rewrite Forall_forall in Hfresh.
    destruct (Hfresh r Hin) as [_ Hm]. rewrite Hsame. exact Hm.
  - intros Hok r Hin. rewrite (notify_successful cfg s Hhash Hok).
    apply orb_true_iff. right. apply existsb_exists. exists r.
    split; [exact Hin|]. apply key_eq_refl.
    rewrite Forall_forall in Hhash. apply Hhash, Hin.
  - apply notify_unsuccessful.
  - intros x. destruct (notification_succeeds batch s) eqn:Hok.
    + rewrite (notify_successful cfg s Hhash Hok), orb_true_iff,
        existsb_exists.
      split.
      * intros [Hm|[r [Hin Hk]]]; [left; exact Hm|].
        right. split; [reflexivity|]. exists r. split; assumption.
      * intros [Hm|[_ [r [Hin Hk]]]]; [left; exact Hm|].
        right. exists r. split; assumption.
    + destruct (notify_unsuccessful cfg batch s Hok) as [Hsame' _].
      rewrite Hsame'. split; [intros Hm; left; exact Hm|].
      intros [Hm|[Hf _]]; [exact Hm|discriminate Hf].
  - intros Hok r Hr.
    destruct (notify_saved cfg batch s Hok (scan_id r) (Hmarked Hok r Hr))
      as [Hold|Hsaved]; [|exact Hsaved].
    rewrite Forall_forall in Hfresh'.
    destruct (Hfresh' r Hr) as [_ Hnew]. rewrite Hnew in Hold.
    discriminate Hold.
  - intros P Hd HP Hok.
    apply (@notify_durable W E cfg P batch s Hd HP Hfresh' Hok).
Qed.

(** ** The properties on the sample runs *)

Lemma happy_discovery_run :
  process_scans sample_config (start happy [] FileAbsent)
  = (Ret happy_batch, snd happy_discovery).
Proof. vm_compute. reflexivity. Defined.

Lemma script_durable : durable (fun w : script => disk w = WriteDone).
Proof.
  split.
  - intros path ids w Hw. simpl. auto.
  - intros n attachments w Hw. exact Hw.
Defined.

Lemma commit_iff_notified_witness :
  happy_batch <> [] /\
  (forall r, In r happy_batch ->
     member (scan_id r)
       (processed_scans
          (snd (notify_and_commit sample_config happy_batch
                  (snd happy_discovery)))) = true) /\
  store (snd (notify_and_commit sample_config happy_batch
                (snd happy_discovery)))
  = FileJson
      (JList (processed_scans
                (snd (notify_and_commit sample_config happy_batch
                        (snd happy_discovery))))).
Proof.
  split; [discriminate|]. split.
  - apply (proj1 (proj2 (proj2 (proj2
             (commit_iff_notified script_env sample_config
                (start happy [] FileAbsent) happy_discovery_run))))).
    vm_compute. reflexivity.
  - apply (proj2 (proj2 (proj2 (proj2 (proj2 (proj2 (proj2
             (commit_iff_notified script_env sample_config
                (start happy [] FileAbsent) happy_discovery_run)))))))
             (fun w : script => disk w = WriteDone) script_durable).
    + reflexivity.
    + vm_compute. reflexivity.
Defined.

Lemma ineligible_scan_skipped_witness :
  produced
    (fst (_generate_scan_report sample_config (scan_with "s2" "scheduled")
            (start silent [] FileAbsent))) = false /\
  snd (_generate_scan_report sample_config (scan_with "s1" "completed")
         (start silent [JStr (lit "s1")] FileAbsent))
  = start silent [JStr (lit "s1")] FileAbsent.
Proof.
  split.
  - apply (ineligible_scan_skipped script_env sample_config
             (scan_with "s2" "scheduled") (start silent [] FileAbsent)).
    right. reflexivity.
  - apply (ineligible_scan_skipped script_env sample_config
             (scan_with "s1" "completed")
             (start silent [JStr (lit "s1")] FileAbsent)).
    left. reflexivity.
Defined.

Lemma first_poll_run :
  get_report_status (acunetix sample_config) (JStr (lit "r1"))
    (start (polls [report_with "failed"]) [] FileAbsent)
  = (Ret (report_with "failed"), snd first_poll).
Proof. vm_compute. reflexivity. Defined.

Lemma first_poll_running_run :
  get_report_status (acunetix sample_config) (JStr (lit "r1"))
    (start (polls [report_with "running"]) [] FileAbsent)
  = (Ret (report_with "running"), snd first_poll_running).
Proof. vm_compute. reflexivity. Defined.

Lemma report_wait_polls_witness :
  fst (_wait_for_report sample_config (JStr (lit "r1"))
         (start (polls [ report_with "running"; report_with "running";
                         report_with "completed" ]) [] FileAbsent))
  = Ret (report_with "completed") /\
  fst (_wait_for_report sample_config (JStr (lit "r1"))
         (start (polls (repeat (report_with "running") 10)) [] FileAbsent))
  = Ret JNull /\
  wait_loop sample_config (JStr (lit "r1")) 10
    (start (polls [report_with "failed"]) [] FileAbsent)
  = (Ret JNull, snd first_poll) /\
  wait_loop sample_config (JStr (lit "r1")) 1
    (start (polls [report_with "running"]) [] FileAbsent)
  = wait_loop sample_config (JStr (lit "r1")) 0
      (before_next_poll sample_config (report_with "running")
         (snd first_poll_running)) /\
  fst (wait_loop (with_delays sample_config 3600 (-5)) (JStr (lit "r1")) 10
         (start (polls [report_with "running"]) [] FileAbsent))
  = Raise ValueError.
Proof.
  destruct report_wait_polls as (_ & H3 & H10 & _ & Hfail & Hnext & Hraise).
  split; [|split; [|split; [|split]]].
  - apply (H3 sample_config (JStr (lit "r1"))
             (report_with "running") (report_with "running")
             (report_with "completed") []
             (start (polls [ report_with "running"; report_with "running";
                             report_with "completed" ]) [] FileAbsent));
      try reflexivity.
    simpl. lia.
  - apply (H10 sample_config (JStr (lit "r1"))
             (repeat (report_with "running") 10) []
             (start (polls (repeat (report_with "running") 10)) []
                FileAbsent));
      try reflexivity.
    simpl. lia.
  - apply (Hfail script script_env sample_config (JStr (lit "r1")) 9%nat
             (start (polls [report_with "failed"]) [] FileAbsent)
             (snd first_poll) (report_with "failed") first_poll_run).
    left. reflexivity.
  - apply (Hnext script script_env sample_config (JStr (lit "r1")) 0%nat
             (start (polls [report_with "running"]) [] FileAbsent)
             (snd first_poll_running) (report_with "running")
             eq_refl first_poll_running_run).
    reflexivity.
  - rewrite (Hraise script script_env (with_delays sample_config 3600 (-5))
               (JStr (lit "r1")) 9%nat
               (start (polls [report_with "running"]) [] FileAbsent)
               (snd first_poll_running) (report_with "running") ValueError);
      reflexivity.
Defined.

Lemma one_report_produces :
  exists r s',
    _generate_scan_report sample_config (scan_with "s1" "completed")
      (start one_report [] FileAbsent) = (Ret (Some r), s').
Proof. eexists. eexists. vm_compute. reflexivity. Defined.

Lemma download_locator_extraction_witness :
  extract_download_url (JDict [ (lit "download", JStr (lit "u")) ])
  = Ret (JStr (lit "u")) /\
  extract_download_url
    (JDict [ (lit "download", JList [ JStr (lit "u") ]) ])
  = Ret (JStr (lit "u")) /\
  extract_download_url
    (JDict [ (lit "download", JList [ JDict [ (lit "url", JStr (lit "u")) ] ]) ])
  = Ret (JStr (lit "u")) /\
  extract_download_url
    (JDict [ (lit "download", JList []); (lit "download_url", JStr (lit "u")) ])
  = Ret (JStr (lit "u")) /\
  extract_download_url (JDict [ (lit "report_id", JStr (lit "r1")) ])
  = Ret (JStr (lit "r1")) /\
  extract_download_url (JDict [ (lit "status", JStr (lit "completed")) ])
  = Ret JNull /\
  extract_download_url
    (JDict [ (lit "download", JList [ JInt 5 ]);
             (lit "download_url", JStr (lit "u")) ])
  = Ret JNull /\
  extract_download_url
    (JDict [ (lit "download_url", JNull); (lit "report_id", JStr (lit "r1")) ])
  = Ret JNull /\
  exists rid s1 s2 report u,
    _wait_for_report sample_config rid s1 = (Ret report, s2) /\
    extract_download_url report = Ret u /\
    truthy u = true.
Proof.
  destruct download_locator_extraction
    as (H1 & H2 & H3 & Hother & _ & H4 & H5 & H6 & _ & H7).
  repeat match goal with |- _ /\ _ => split end.
  - apply H1. reflexivity.
  - apply (H2 _ _ []). reflexivity.
  - rewrite (H3 _ [ (lit "url", JStr (lit "u")) ] []); reflexivity.
  - apply H4; reflexivity.
  - apply H5; reflexivity.
  - apply H6; reflexivity.
  - apply (Hother _ (JInt 5) []); reflexivity.
  - apply H4; reflexivity.
  - destruct one_report_produces as (r & s' & Hrun).
    destruct (H7 script script_env sample_config _ _ _ _ Hrun)
      as (rid & s1 & s2 & report & u & Hw & Hx & Ht & _).
    exists rid, s1, s2, report, u. auto.
Defined.

Lemma load_never_fails_witness :
  processed_scans
    (snd (ScanProcessor_init (start silent [JStr (lit "old")] FileCorrupt)))
  = [] /\
  member (JStr (lit "s2"))
    (processed_scans
       (snd (ScanProcessor_init
               (start silent []
                  (FileJson (JList [JStr (lit "s1"); JStr (lit "s2")]))))))
  = true.
Proof.
  split.
  - apply (load_never_fails script_env
             (start silent [JStr (lit "old")] FileCorrupt)).
    right. right. reflexivity.
  - rewrite (proj1 (proj2 (proj2 (proj2
               (load_never_fails script_env
                  (start silent []
                     (FileJson (JList [JStr (lit "s1"); JStr (lit "s2")]))))))))
      with (l := [JStr (lit "s1"); JStr (lit "s2")]); reflexivity.
Defined.

Lemma listing_failure_run :
  fetch_all_scans (acunetix sample_config) (start silent [] FileAbsent)
  = (Raise AcunetixAPIError, snd listing_failure).
Proof. vm_compute. reflexivity. Defined.

Lemma mixed_listed_run :
  fetch_all_scans (acunetix sample_config) (start mixed [] FileAbsent)
  = (Ret mixed_listing, snd mixed_listed).
Proof. vm_compute. reflexivity. Defined.

Lemma mixed_first_eligible :
  eligible (scan_with "s1" "completed") (processed_scans (snd mixed_listed))
    (JStr (lit "s1")) (JStr (lit "t1")).
Proof. repeat split. Defined.

Lemma failures_contained_witness :
  process_scans sample_config (start silent [] FileAbsent)
  = (Raise ScanProcessorError, snd listing_failure) /\
  fst (main sample_config (start silent [] FileAbsent)) = Ret (SysExit 1) /\
  process_scans sample_config (start mixed [] FileAbsent)
  = scan_loop sample_config
      [scan_with "s1" "completed"; scan_with "s2" "completed"] []
      (snd mixed_listed) /\
  fst (_generate_scan_report sample_config (scan_with "s1" "completed")
         (snd mixed_listed)) = Ret None /\
  (exists r,
     fst (process_scans sample_config (start mixed [] FileAbsent)) = Ret [r] /\
     scan_id r = JStr (lit "s2")).
Proof.
  destruct (failures_contained script_env sample_config)
    as (Hlist & Hmain & Htie & _ & _ & _ & _ & Hgen & _).
  assert (Hp : process_scans sample_config (start silent [] FileAbsent)
               = (Raise ScanProcessorError, snd listing_failure)).
  { apply (Hlist _ _ AcunetixAPIError). exact listing_failure_run. }
  assert (Hloop : process_scans sample_config (start mixed [] FileAbsent)
                  = scan_loop sample_config
                      [scan_with "s1" "completed"; scan_with "s2" "completed"]
                      [] (snd mixed_listed)).
  { apply (Htie _ _ mixed_listing mixed_listed_run). reflexivity. }
  split; [exact Hp|]. split; [|split; [|split]].
  - rewrite (Hmain (start silent [] FileAbsent) (snd listing_failure)
               ScanProcessorError); [reflexivity|].
    exact Hp.
  - exact Hloop.
  - rewrite (Hgen (scan_with "s1" "completed") (JStr (lit "s1"))
               (JStr (lit "t1")) (snd mixed_listed)
               (snd (generate_report sample_acunetix (JStr (lit "t1"))
                       (snd mixed_listed)))
               AcunetixAPIError mixed_first_eligible);
      [reflexivity|vm_compute; reflexivity].
  - rewrite Hloop. eexists. split; vm_compute; reflexivity.
Defined.

Lemma mark_as_processed_idempotent_witness :
  mark_as_processed sample_config (JStr (lit "s1"))
    (start silent [JStr (lit "s1")] FileAbsent)
  = (Ret tt, start silent [JStr (lit "s1")] FileAbsent).
Proof.
  apply (mark_as_processed_idempotent script_env sample_config
           (JStr (lit "s1")) (start silent [JStr (lit "s1")] FileAbsent));
    reflexivity.
Defined.

Lemma filename_sanitization_witness :
  exists r safe stamp,
    one_report_result = Some r /\
    safe_name_of (description r) = Ret safe /\
    no_separator safe = true /\
    name (report_path r) = safe ++ lit "_" ++ stamp ++ lit ".html".
Proof.
  destruct one_report_produces as (r & s' & Hrun).
  destruct (proj2 (proj2 (proj2 (filename_sanitization script_env)))
              sample_config _ _ _ _ Hrun)
    as (safe & stamp & Hsafe & Hno & Hname).
  exists r, safe, stamp. split; [|auto].
  unfold one_report_result.
  change one_report_run
    with (_generate_scan_report sample_config (scan_with "s1" "completed")
            (start one_report [] FileAbsent)).
  rewrite Hrun. reflexivity.
Defined.

(** * Further properties *)

(** ** Attempts, retries and back-off of [_make_request] *)

Section Attempts.

Context {W : Type} `{Env W}.
Variable cfg : AcunetixConfig.

(** One iteration of the loop whose attempt is answered. *)
Lemma request_loop_answered_step (method full_url : str)
    (body : option json) (n : nat) (attempt : Z) (s : pstate W)
    (content : option json) (w1 : W) :
  session_request method full_url body (world s) = (Ret content, w1) ->
  request_loop cfg method full_url body (S n) attempt s
  = (Ret (body_of content),
     {| world := w1;
        trace := trace s ++ [EvRequest method full_url body];
        processed_scans := processed_scans s;
        store := store s |}).
Proof.
  intros Hreq. simpl. unfold_m. simpl. rewrite Hreq. reflexivity.
Qed.


(** After [k] rejections and an answer the loop returns the answer. *)
Lemma request_loop_answers (method full_url : str) (body : option json)
    (content : option json) (k : nat) :
  forall (n : nat) (attempt : Z) (s : pstate W) (w' : W),
    (k < n)%nat ->
    attempt + Z.of_nat n = max_retries cfg + 1 ->
    (forall a, attempt <= a < attempt + Z.of_nat k ->
       backoff_sleep cfg a = Ret tt) ->
    answers_after method full_url body k (world s) content w' ->
    let r := request_loop cfg method full_url body n attempt s in
    fst r = Ret (body_of content) /\
    world (snd r) = w' /\
    count is_request (trace (snd r))
    = (count is_request (trace s) + S k)%nat /\
    count is_backoff (trace (snd r))
    = (count is_backoff (trace s) + k)%nat.
Proof.
  induction k as [|k IH]; intros n attempt s w' Hk Hinv Hback Hans.
  - destruct n as [|n]; [lia|]. simpl in Hans.
    rewrite (request_loop_answered_step _ _ _ _ _ _ Hans). simpl.
    rewrite !count_snoc. simpl. repeat split; lia.
  - destruct n as [|n]; [lia|].
    destruct Hans as (b & w1 & Hreq & Hmsg & Hans).
    destruct (request_loop_rejected_step cfg method full_url body n attempt
                s Hreq Hmsg) as (s1 & Hstep & Hw1 & Hq1 & Hb1).
    { intros _. apply Hback. lia. }
    assert (Hlt : (attempt <? max_retries cfg) = true)
      by (apply Z.ltb_lt; lia).
    rewrite Hlt in Hb1. rewrite Hstep. subst w1.
    destruct (IH n (attempt + 1) s1 w') as (Hr & Hw & Hq & Hb);
      [lia|lia|intros a Ha; apply Hback; lia|exact Hans|].
    repeat split; try assumption; lia.
Qed.

End Attempts.


(** X2: when the service rejects the first [k] attempts, [k] at most
    [max_retries], the back-offs after them go through, and the service
    answers the next attempt, [_make_request] returns the decoded answer
    (the empty object for a response without content) after exactly
    [k + 1] calls of [session.request] and [k] back-off sleeps. *)
Theorem make_request_retries W (E : Env W) cfg (method endpoint : str)
    (body content : option json) (k : nat) (s : pstate W) (w' : W) :
  Z.of_nat k <= max_retries cfg ->
  (forall attempt,
     0 <= attempt < Z.of_nat k -> backoff_sleep cfg attempt = Ret tt) ->
  answers_after method (request_url cfg endpoint) body k (world s)
    content w' ->
  let r := _make_request cfg method endpoint body s in
  fst r = Ret (body_of content) /\
  world (snd r) = w' /\
  count is_request (trace (snd r)) = (count is_request (trace s) + S k)%nat /\
  count is_backoff (trace (snd r)) = (count is_backoff (trace s) + k)%nat.
Proof.
  intros Hk Hback Hans. unfold _make_request.
  apply (@request_loop_answers W E cfg method (request_url cfg endpoint)
           body content k (Z.to_nat (max_retries cfg + 1)) 0 s w');
    [lia|lia|intros a Ha; apply Hback; lia|exact Hans].
Qed.

(** X3: [_make_request] does not retry after an exception that is not a
    [RequestException]: it lets the exception through after the one
    request. The same holds for the [AttributeError] of building the log
    message when the error response carries JSON that is not an object.
    With a negative [max_retries] it sends nothing and raises
    [AcunetixAPIError]. *)
Theorem make_request_not_retried W (E : Env W) cfg (method endpoint : str)
    (body : option json) (s : pstate W) :
  (forall e w1,
     0 <= max_retries cfg ->
     session_request method (request_url cfg endpoint) body (world s)
     = (Raise e, w1) ->
     is_request_exception e = false ->
     fst (_make_request cfg method endpoint body s) = Raise e /\
     count is_request (trace (snd (_make_request cfg method endpoint body s)))
     = (count is_request (trace s) + 1)%nat) /\
  (forall j w1,
     0 <= max_retries cfg ->
     session_request method (request_url cfg endpoint) body (world s)
     = (Raise (RequestException (BodyJson j)), w1) ->
     is_dict j = false ->
     fst (_make_request cfg method endpoint body s) = Raise AttributeError /\
     count is_request (trace (snd (_make_request cfg method endpoint body s)))
     = (count is_request (trace s) + 1)%nat) /\
  (max_retries cfg < 0 ->
   _make_request cfg method endpoint body s = (Raise AcunetixAPIError, s)).
Proof.
  unfold _make_request. fold (request_url cfg endpoint).
  split; [|split].
  - intros e w1 Hm Hreq He.
    destruct (Z.to_nat (max_retries cfg + 1)) as [|n] eqn:Hn; [lia|].
    simpl. unfold_m. simpl. rewrite Hreq.
    destruct e; try discriminate He; simpl; rewrite count_snoc; auto.
  - intros j w1 Hm Hreq Hj.
    destruct (Z.to_nat (max_retries cfg + 1)) as [|n] eqn:Hn; [lia|].
    simpl. unfold_m. simpl. rewrite Hreq.
    destruct j; try discriminate Hj; simpl; rewrite count_snoc; auto.
  - intros Hneg.
    replace (Z.to_nat (max_retries cfg + 1)) with 0%nat by lia.
    reflexivity.
Qed.

Lemma flaky_answers (content : json) :
  answers_after (lit "GET") (request_url sample_acunetix (lit "/scans")) None
    1 (flaky content) (Some content) silent.
Proof.
  simpl. exists NoResponse.
  exists (single (Ret (Some content))).
  split; [reflexivity|]. split; reflexivity.
Defined.

Lemma make_request_retries_witness :
  fst (_make_request sample_acunetix (lit "GET") (lit "/scans") None
         (start (flaky (JDict [])) [] FileAbsent)) = Ret (JDict []) /\
  count is_request
    (trace (snd (_make_request sample_acunetix (lit "GET") (lit "/scans") None
                   (start (flaky (JDict [])) [] FileAbsent)))) = 2%nat.
Proof.
  destruct (make_request_retries script_env sample_acunetix (lit "GET")
              (lit "/scans") None (Some (JDict [])) 1
              (start (flaky (JDict [])) [] FileAbsent) silent)
    as (Hr & _ & Hq & _).
  - simpl. lia.
  - intros attempt Ha. apply sample_backoff_ok. simpl in *. lia.
  - exact (flaky_answers (JDict [])).
  - split; [exact Hr|exact Hq].
Defined.

Lemma make_request_not_retried_witness :
  fst (_make_request sample_acunetix (lit "GET") (lit "/scans") None
         (start (single (Raise OSError)) [] FileAbsent)) = Raise OSError /\
  fst (_make_request sample_acunetix (lit "GET") (lit "/scans") None
         (start (single (Raise (RequestException (BodyJson (JList [])))))
            [] FileAbsent)) = Raise AttributeError /\
  fst (_make_request
         {| url := lit "https://host/api/v1"; report_template_id := lit "t";
            timeout := 30; max_retries := -1;
            backoff_factor := 0.5 |}
         (lit "GET") (lit "/scans") None (start silent [] FileAbsent))
  = Raise AcunetixAPIError.
Proof.
  split; [|split].
  - apply (proj1 (make_request_not_retried script_env sample_acunetix
                    (lit "GET") (lit "/scans") None
                    (start (single (Raise OSError)) [] FileAbsent))
             OSError silent); [simpl; lia|reflexivity|reflexivity].
  - apply (proj1 (proj2 (make_request_not_retried script_env sample_acunetix
                    (lit "GET") (lit "/scans") None
                    (start (single (Raise (RequestException
                                             (BodyJson (JList []))))) []
                       FileAbsent)))
             (JList []) silent); [simpl; lia|reflexivity|reflexivity].
  - rewrite (proj2 (proj2 (make_request_not_retried script_env
               {| url := lit "https://host/api/v1";
                  report_template_id := lit "t";
                  timeout := 30; max_retries := -1;
            backoff_factor := 0.5 |}
               (lit "GET") (lit "/scans") None (start silent [] FileAbsent)))).
    + reflexivity.
    + simpl. lia.
Defined.

(** ** Downloads *)

Lemma lstrip_no_lead (c : char) (s : str) :
  startswith (lstrip c s) [c] = false.
Proof.
  induction s as [|x s IH]; [reflexivity|]. simpl.
  destruct (char_eqb x c) eqn:Hx; [exact IH|].
  simpl. rewrite Hx. reflexivity.
Qed.

Lemma lstrip_app_lead (c : char) (s : str) : lstrip c (c :: s) = lstrip c s.
Proof. simpl. unfold char_eqb. rewrite N.eqb_refl. reflexivity. Qed.

Lemma rstrip_snoc (c : char) (s : str) : rstrip c (s ++ [c]) = rstrip c s.
Proof.
  unfold rstrip. rewrite rev_app_distr. simpl.
  unfold char_eqb. rewrite N.eqb_refl. reflexivity.
Qed.

Lemma endswith_app (s p : str) : endswith (s ++ p) p = true.
Proof. unfold endswith. rewrite rev_app_distr. apply startswith_app. Qed.

Lemma slice_to_minus_app (s p : str) :
  slice_to_minus (List.length p) (s ++ p) = s.
Proof.
  unfold slice_to_minus. rewrite length_app.
  replace (List.length s + List.length p - List.length p)%nat
    with (List.length s + 0)%nat by lia.
  rewrite firstn_app_2. simpl. apply app_nil_r.
Qed.

(** The URL of a locator that is not absolute. *)
Lemma download_url_relative cfg (u : str) :
  absolute u = false ->
  download_url_of cfg u
  = download_base cfg ++ lit "/api/v1/"
    ++ lstrip slash
         (let v := if negb (startswith u (lit "/")) then lit "/" ++ u else u in
          if startswith v (lit "/api/v1") then slice_from 7 v else v).
Proof.
  unfold absolute, download_url_of, download_base. intros ->. reflexivity.
Qed.

(** X4: [download_report] never raises. Without a locator, and with one
    that is not a string, it returns [False] and no download is tried; with
    a non-empty string it returns [True] exactly when the streamed download
    from the normalized URL went through. *)
Theorem download_report_outcomes W (E : Env W) cfg (u : json) (p : Path)
    (s : pstate W) :
  (exists ok, fst (download_report cfg u p s) = Ret ok) /\
  (truthy u = false \/ is_str u = false ->
   fst (download_report cfg u p s) = Ret false /\
   world (snd (download_report cfg u p s)) = world s /\
   count is_stream (trace (snd (download_report cfg u p s)))
   = count is_stream (trace s)) /\
  (forall c t,
     u = JStr (c :: t) ->
     (fst (download_report cfg u p s) = Ret true <->
      fst (session_get (download_url_of cfg (c :: t)) p (world s)) = Ret tt)).
Proof.
  unfold download_report. unfold_m. simpl.
  split; [|split].
  - destruct (negb (truthy u)); simpl; [eauto|].
    destruct u; simpl; eauto.
    destruct (session_get _ _ _) as [[[]|e] w]; simpl; eauto.
  - intros Hu.
    destruct (truthy u) eqn:Ht; simpl.
    + destruct Hu as [Hu|Hu]; [discriminate Hu|].
      destruct u; try discriminate Hu; simpl; rewrite count_snoc; auto.
    + rewrite count_snoc. simpl. auto.
  - intros c t ->. simpl.
    destruct (session_get _ _ _) as [[[]|e] w]; simpl;
      split; intros Heq; try reflexivity; discriminate Heq.
Qed.

(** X5: for a locator that is not absolute the download URL is the base,
    "/api/v1/" and a rest that does not start with a slash; a leading slash
    of the locator makes no difference; a leading "/api/v1" of the locator
    is dropped whatever follows it. *)
Theorem download_url_shape cfg (u : str) :
  (absolute u = false ->
   exists rest,
     download_url_of cfg u = download_base cfg ++ lit "/api/v1/" ++ rest /\
     startswith rest (lit "/") = false) /\
  (absolute u = false -> startswith u (lit "/") = false ->
   download_url_of cfg (lit "/" ++ u) = download_url_of cfg u) /\
  download_url_of cfg (lit "/api/v1" ++ u)
  = download_base cfg ++ lit "/api/v1/" ++ lstrip slash u.
Proof.
  split; [|split].
  - intros Ha. rewrite (download_url_relative cfg u Ha).
    eexists. split; [reflexivity|]. apply lstrip_no_lead.
  - intros Ha Hs.
    rewrite (download_url_relative cfg u Ha).
    rewrite (download_url_relative cfg (lit "/" ++ u) eq_refl).
    assert (Hl : startswith (lit "/" ++ u) (lit "/") = true)
      by (destruct u; reflexivity).
    rewrite Hs, Hl. reflexivity.
  - rewrite (download_url_relative cfg (lit "/api/v1" ++ u) eq_refl).
    assert (Hl : startswith (lit "/api/v1" ++ u) (lit "/") = true)
      by (destruct u; reflexivity).
    rewrite Hl. simpl negb. cbv iota zeta.
    rewrite (startswith_app (lit "/api/v1") u). reflexivity.
Qed.

(** X6: whether the configured URL ends in "/api/v1", in "/api/v1/" or in
    neither, the download URLs are the same. *)
Theorem download_url_any_base cfg (b u : str) :
  rstrip slash b = b -> endswith b (lit "/api/v1") = false ->
  download_url_of (with_url cfg (b ++ lit "/api/v1")) u
  = download_url_of (with_url cfg b) u /\
  download_url_of (with_url cfg (b ++ lit "/api/v1/")) u
  = download_url_of (with_url cfg b) u.
Proof.
  intros Hb He.
  assert (H1 : rstrip slash (b ++ lit "/api/v1") = b ++ lit "/api/v1").
  { unfold rstrip. rewrite rev_app_distr.
    assert (Hkeep : lstrip slash (rev (lit "/api/v1") ++ rev b)
                    = rev (lit "/api/v1") ++ rev b) by reflexivity.
    rewrite Hkeep, <- rev_app_distr. apply rev_involutive. }
  assert (H2 : rstrip slash (b ++ lit "/api/v1/") = b ++ lit "/api/v1").
  { change (lit "/api/v1/") with (lit "/api/v1" ++ [slash]).
    rewrite app_assoc, rstrip_snoc. exact H1. }
  unfold download_url_of, with_url. simpl url.
  rewrite H1, H2, Hb, He, endswith_app.
  change 7%nat with (List.length (lit "/api/v1")).
  rewrite slice_to_minus_app. split; reflexivity.
Qed.

Lemma download_report_outcomes_witness :
  fst (download_report sample_acunetix JNull
         {| parent := lit "reports"; name := lit "a.html" |}
         (start silent [] FileAbsent)) = Ret false /\
  fst (download_report sample_acunetix (JInt 7)
         {| parent := lit "reports"; name := lit "a.html" |}
         (start silent [] FileAbsent)) = Ret false /\
  fst (download_report sample_acunetix (JStr (lit "r1"))
         {| parent := lit "reports"; name := lit "a.html" |}
         (start silent [] FileAbsent)) = Ret true.
Proof.
  split; [|split].
  - apply (download_report_outcomes script_env sample_acunetix JNull
             {| parent := lit "reports"; name := lit "a.html" |}
             (start silent [] FileAbsent)).
    left. reflexivity.
  - apply (download_report_outcomes script_env sample_acunetix (JInt 7)
             {| parent := lit "reports"; name := lit "a.html" |}
             (start silent [] FileAbsent)).
    right. reflexivity.
  - apply (proj2 (proj2 (download_report_outcomes script_env sample_acunetix
                           (JStr (lit "r1"))
                           {| parent := lit "reports"; name := lit "a.html" |}
                           (start silent [] FileAbsent)))
             114%N (lit "1") eq_refl).
    reflexivity.
Defined.

Lemma download_url_shape_witness :
  download_url_of sample_acunetix (lit "/reports/abc")
  = download_url_of sample_acunetix (lit "reports/abc").
Proof.
  apply (proj1 (proj2 (download_url_shape sample_acunetix
                         (lit "reports/abc")))); reflexivity.
Defined.

Lemma download_url_any_base_witness :
  download_url_of (with_url sample_acunetix (lit "https://host/api/v1/"))
    (lit "reports/abc")
  = download_url_of (with_url sample_acunetix (lit "https://host"))
      (lit "reports/abc").
Proof.
  apply (@download_url_any_base sample_acunetix (lit "https://host")
           (lit "reports/abc")); reflexivity.
Defined.

(** ** Deleting reports and fetching a scan *)

Section RestOfTheClientFacts.

Context {W : Type} `{Env W}.
Variable cfg : AcunetixConfig.

Lemma make_request_rejected (P : W -> Prop) (method endpoint : str)
    (body : option json) (s : pstate W) :
  rejecting P -> P (world s) -> backoff_ok cfg ->
  fst (_make_request cfg method endpoint body s) = Raise AcunetixAPIError /\
  count is_request (trace (snd (_make_request cfg method endpoint body s)))
  = (count is_request (trace s) + Z.to_nat (max_retries cfg + 1))%nat.
Proof.
  intros Hrej HP Hok. unfold _make_request.
  match goal with
  | |- context [request_loop cfg ?m ?u ?b ?n ?a s] =>
      destruct (@request_loop_rejected W _ cfg P m u b Hrej Hok n a s)
        as [Hr [Hc _]]; [lia|exact HP|]
  end.
  split; assumption.
Qed.

(** The exception of a back-off is one of the two [time.sleep] and the
    conversion to [float] raise. *)
Lemma backoff_sleep_raises (attempt : Z) (e : exn) :
  backoff_sleep cfg attempt = Raise e ->
  e = ValueError \/ e = OverflowError.
Proof.
  unfold backoff_sleep, float_of_pow2, time_sleep.
  destruct (attempt <? 1024); [|intros [= <-]; auto].
  repeat match goal with
         | |- context [if ?c then _ else _] => destruct c
         end; intros [= <-]; auto.
Qed.

(** When the first attempt is rejected and the back-off after it does not
    go through, the exception of the back-off comes out of
    [_make_request]. *)
Lemma make_request_backoff_raises (P : W -> Prop) (method endpoint : str)
    (body : option json) (s : pstate W) (e : exn) :
  rejecting P -> P (world s) ->
  0 < max_retries cfg -> backoff_sleep cfg 0 = Raise e ->
  fst (_make_request cfg method endpoint body s) = Raise e /\
  count is_request (trace (snd (_make_request cfg method endpoint body s)))
  = (count is_request (trace s) + 1)%nat.
Proof.
  intros Hrej HP Hm Hback. unfold _make_request.
  destruct (Z.to_nat (max_retries cfg + 1)) as [|n] eqn:Hn; [lia|].
  match goal with
  | |- context [request_loop cfg ?m ?u ?b (S n) ?a s] =>
      destruct (Hrej m u b (world s) HP) as (eb & w' & Hreq & Hmsg & _);
      destruct (@request_loop_backoff_raises W _ cfg m u b n a s eb w' e
                  Hreq Hmsg) as (Hr & _ & Hc);
        [apply Z.ltb_lt; lia|exact Hback|]
  end.
  split; assumption.
Qed.

End RestOfTheClientFacts.

(** X7: [delete_reports] requests nothing for an empty list and returns
    [False]. As long as the back-offs between the attempts go through, it
    returns [True] when the service answers, also after rejected attempts,
    and [False] when the service rejects every attempt. It never raises
    [AcunetixAPIError]; the exception of a back-off that does not go
    through, a [ValueError] or an [OverflowError], is not caught and comes
    out of it. *)
Theorem delete_reports_outcomes W (E : Env W) cfg (s : pstate W) :
  delete_reports cfg [] s = (Ret false, s) /\
  (forall r l k content w',
     Z.of_nat k <= max_retries cfg ->
     (forall attempt,
        0 <= attempt < Z.of_nat k -> backoff_sleep cfg attempt = Ret tt) ->
     answers_after (lit "POST") (request_url cfg (lit "/reports/delete"))
       (Some (JDict [ (lit "report_id_list", JList (r :: l)) ])) k (world s)
       content w' ->
     fst (delete_reports cfg (r :: l) s) = Ret true /\
     count is_request (trace (snd (delete_reports cfg (r :: l) s)))
     = (count is_request (trace s) + S k)%nat) /\
  (forall (P : W -> Prop) r l,
     rejecting P -> P (world s) -> backoff_ok cfg ->
     fst (delete_reports cfg (r :: l) s) = Ret false /\
     count is_request (trace (snd (delete_reports cfg (r :: l) s)))
     = (count is_request (trace s) + Z.to_nat (max_retries cfg + 1))%nat) /\
  (forall ids, fst (delete_reports cfg ids s) <> Raise AcunetixAPIError) /\
  (forall (P : W -> Prop) r l e,
     rejecting P -> P (world s) ->
     0 < max_retries cfg -> backoff_sleep cfg 0 = Raise e ->
     (e = ValueError \/ e = OverflowError) /\
     fst (delete_reports cfg (r :: l) s) = Raise e /\
     count is_request (trace (snd (delete_reports cfg (r :: l) s)))
     = (count is_request (trace s) + 1)%nat).
Proof.
  split; [reflexivity|]. split; [|split; [|split]].
  - intros r l k content w' Hk Hback Hans.
    destruct (@request_loop_answers W E cfg (lit "POST")
                (request_url cfg (lit "/reports/delete"))
                (Some (JDict [ (lit "report_id_list", JList (r :: l)) ]))
                content k (Z.to_nat (max_retries cfg + 1)) 0 s w')
      as (Hr & _ & Hq & _);
      [lia|lia|intros a Ha; apply Hback; lia|exact Hans|].
    unfold delete_reports, _make_request. fold (request_url cfg
      (lit "/reports/delete")). unfold_m.
    destruct (request_loop cfg _ _ _ _ _ s) as [[v|e] s1]; simpl in *;
      [|discriminate Hr].
    split; [reflexivity|exact Hq].
  - intros P r l Hrej HP Hok.
    destruct (@make_request_rejected W E cfg P (lit "POST")
                (lit "/reports/delete")
                (Some (JDict [ (lit "report_id_list", JList (r :: l)) ]))
                s Hrej HP Hok) as [Hr Hq].
    unfold delete_reports. unfold_m.
    destruct (_make_request cfg _ _ _ s) as [[v|e] s1]; simpl in *;
      [discriminate Hr|].
    injection Hr as ->. simpl. split; [reflexivity|exact Hq].
  - intros [|r l]; [discriminate|].
    unfold delete_reports. unfold_m.
    destruct (_make_request cfg _ _ _ s) as [[v|e] s1]; simpl;
      [discriminate|].
    destruct e; simpl; discriminate.
  - intros P r l e Hrej HP Hm Hback.
    pose proof (backoff_sleep_raises _ _ Hback) as He. split; [exact He|].
    destruct (@make_request_backoff_raises W E cfg P (lit "POST")
                (lit "/reports/delete")
                (Some (JDict [ (lit "report_id_list", JList (r :: l)) ]))
                s e Hrej HP Hm Hback) as [Hr Hq].
    unfold delete_reports. unfold_m.
    destruct (_make_request cfg _ _ _ s) as [[v|e0] s1]; simpl in *;
      [discriminate Hr|].
    injection Hr as ->.
    destruct He as [-> | ->]; simpl; split; [reflexivity|exact Hq| |];
      [reflexivity|exact Hq].
Qed.

Lemma delete_reports_outcomes_witness :
  fst (delete_reports sample_acunetix [JStr (lit "r1")]
         (start (flaky (JDict [])) [] FileAbsent)) = Ret true /\
  fst (delete_reports sample_acunetix [JStr (lit "r1")]
         (start silent [] FileAbsent)) = Ret false /\
  fst (delete_reports (with_factor sample_acunetix (-0.5)) [JStr (lit "r1")]
         (start silent [] FileAbsent)) = Raise ValueError.
Proof.
  split; [|split].
  - apply (proj1 (proj2 (delete_reports_outcomes script_env sample_acunetix
                           (start (flaky (JDict [])) [] FileAbsent)))
             (JStr (lit "r1")) [] 1%nat (Some (JDict [])) silent).
    + simpl. lia.
    + intros attempt Ha. apply sample_backoff_ok. simpl in *. lia.
    + simpl. exists NoResponse. exists (single (Ret (Some (JDict [])))).
      split; [reflexivity|]. split; reflexivity.
  - apply (proj1 (proj2 (proj2 (delete_reports_outcomes script_env
                                  sample_acunetix
                                  (start silent [] FileAbsent))))
             (fun w : script => responses w = []) (JStr (lit "r1")) []
             silent_rejecting eq_refl sample_backoff_ok).
  - apply (proj2 (proj2 (proj2 (proj2 (delete_reports_outcomes script_env
                                  (with_factor sample_acunetix (-0.5))
                                  (start silent [] FileAbsent)))))
             (fun w : script => responses w = []) (JStr (lit "r1")) []
             ValueError silent_rejecting eq_refl).
    + simpl. lia.
    + vm_compute. reflexivity.
Defined.

(** ** More on the two waits *)

Section WaitFacts.

Context {W : Type} `{Env W}.
Variable cfg : AppConfig.

Lemma wait_loop_result (rid : json) (n : nat) :
  forall (s : pstate W) (v : json),
    fst (wait_loop cfg rid n s) = Ret v ->
    v = JNull \/ has_status v "completed" = true.
Proof.
  induction n as [|n IH]; intros s v.
  - simpl. unfold ret. simpl. intros Hv. injection Hv as <-. left. reflexivity.
  - simpl. unfold_m.
    destruct (get_report_status (acunetix cfg) rid s) as [[report|e] s1].
    + destruct (truthy report) eqn:Ht; simpl; [|apply IH].
      destruct (get report (lit "status")) as [st|e] eqn:Hst; simpl.
      * destruct (eq_str st (lit "completed")) eqn:Hc; simpl.
        -- intros Hv. injection Hv as <-. right.
           unfold has_status. rewrite Ht, Hst. exact Hc.
        -- destruct (eq_str st (lit "failed")
                     || eq_str st (lit "cancelled")); simpl.
           ++ intros Hv. injection Hv as <-. left. reflexivity.
           ++ destruct (time_sleep _) as [[]|e]; simpl;
                [apply IH|discriminate].
      * destruct e; simpl; try discriminate.
        intros Hv. injection Hv as <-. left. reflexivity.
    + destruct e; simpl; try discriminate.
      intros Hv. injection Hv as <-. left. reflexivity.
Qed.

Lemma poll_rejected (P : W -> Prop) (rid : json) (s : pstate W) :
  rejecting P -> P (world s) -> truthy rid = true ->
  backoff_ok (acunetix cfg) ->
  fst (get_report_status (acunetix cfg) rid s) = Raise AcunetixAPIError /\
  count is_request (trace (snd (get_report_status (acunetix cfg) rid s)))
  = (count is_request (trace s)
     + Z.to_nat (max_retries (acunetix cfg) + 1))%nat.
Proof.
  intros Hrej HP Hrid Hok. unfold get_report_status.
  unfold_m. rewrite Hrid. change (negb true) with false. cbv iota.
  match goal with
  | |- context [_make_request ?c ?m ?e ?b ?t] =>
      destruct (@make_request_rejected W _ c P m e b t Hrej HP Hok)
        as [Hr Hq]
  end.
  split; [exact Hr|]. rewrite Hq. simpl. rewrite count_snoc. simpl. lia.
Qed.

Lemma poll_backoff_raises (P : W -> Prop) (rid : json) (s : pstate W)
    (e : exn) :
  rejecting P -> P (world s) -> truthy rid = true ->
  0 < max_retries (acunetix cfg) ->
  backoff_sleep (acunetix cfg) 0 = Raise e ->
  fst (get_report_status (acunetix cfg) rid s) = Raise e /\
  count is_request (trace (snd (get_report_status (acunetix cfg) rid s)))
  = (count is_request (trace s) + 1)%nat.
Proof.
  intros Hrej HP Hrid Hm Hback. unfold get_report_status.
  unfold_m. rewrite Hrid. change (negb true) with false. cbv iota.
  match goal with
  | |- context [_make_request ?c ?m ?u ?b ?t] =>
      destruct (@make_request_backoff_raises W _ c P m u b t e Hrej HP Hm
                  Hback) as [Hr Hq]
  end.
  split; [exact Hr|]. rewrite Hq. simpl. rewrite count_snoc. simpl. lia.
Qed.

End WaitFacts.

(** X8: whatever the service does, the wait for a report returns either
    no report or a non-empty report whose status is 'completed'. *)
Theorem report_wait_result W (E : Env W) cfg (rid : json) (s : pstate W)
    (v : json) :
  fst (_wait_for_report cfg rid s) = Ret v ->
  v = JNull \/ has_status v "completed" = true.
Proof. apply wait_loop_result. Qed.

(** X9: when the service rejects every attempt of the first poll and the
    back-offs of the client go through, the poll fails with
    [AcunetixAPIError] after [max_retries + 1] calls of [session.request],
    and the wait ends at once with no report: there is one poll. When the
    back-off after the first rejected attempt does not go through, its
    exception is not caught by the wait and comes out of it. An empty
    report id is not caught by the wait either: the [ValueError] of the
    client comes out of it, and [session.request] is not called. With no
    attempt allowed the wait returns no report and does nothing. *)
Theorem report_wait_failures W (E : Env W) cfg (rid : json)
    (s : pstate W) :
  (forall P : W -> Prop,
     rejecting P -> P (world s) -> truthy rid = true ->
     backoff_ok (acunetix cfg) ->
     fst (_wait_for_report cfg rid s) = Ret JNull /\
     count is_poll (trace (snd (_wait_for_report cfg rid s)))
     = (count is_poll (trace s) + 1)%nat /\
     count is_request (trace (snd (_wait_for_report cfg rid s)))
     = (count is_request (trace s)
        + Z.to_nat (max_retries (acunetix cfg) + 1))%nat) /\
  (truthy rid = false ->
   fst (_wait_for_report cfg rid s) = Raise ValueError /\
   count is_request (trace (snd (_wait_for_report cfg rid s)))
   = count is_request (trace s)) /\
  (forall max_attempts,
     max_attempts <= 0 ->
     _wait_for_report_n cfg rid max_attempts s = (Ret JNull, s)) /\
  (forall (P : W -> Prop) e,
     rejecting P -> P (world s) -> truthy rid = true ->
     0 < max_retries (acunetix cfg) ->
     backoff_sleep (acunetix cfg) 0 = Raise e ->
     fst (_wait_for_report cfg rid s) = Raise e /\
     count is_poll (trace (snd (_wait_for_report cfg rid s)))
     = (count is_poll (trace s) + 1)%nat).
Proof.
  split; [|split; [|split]].
  - intros P Hrej HP Hrid Hok.
    destruct (@poll_rejected W E cfg P rid s Hrej HP Hrid Hok) as [Hr Hq].
    pose proof (get_report_status_polls cfg rid s) as Hp.
    unfold _wait_for_report, _wait_for_report_n.
    change (Z.to_nat 10) with 10%nat. simpl. unfold_m.
    destruct (get_report_status (acunetix cfg) rid s) as [[v|e] s1];
      simpl in *; [discriminate Hr|].
    injection Hr as ->. simpl. auto.
  - intros Hrid. unfold _wait_for_report, _wait_for_report_n.
    change (Z.to_nat 10) with 10%nat. simpl.
    unfold get_report_status. unfold_m. rewrite Hrid. simpl.
    rewrite count_snoc. simpl. split; [reflexivity|lia].
  - intros m Hm. unfold _wait_for_report_n.
    replace (Z.to_nat m) with 0%nat by lia. reflexivity.
  - intros P e Hrej HP Hrid Hm Hback.
    destruct (@poll_backoff_raises W E cfg P rid s e Hrej HP Hrid Hm Hback)
      as [Hr _].
    pose proof (get_report_status_polls cfg rid s) as Hp.
    pose proof (@backoff_sleep_raises (acunetix cfg) 0 e Hback) as He.
    unfold _wait_for_report, _wait_for_report_n.
    change (Z.to_nat 10) with 10%nat. simpl. unfold_m.
    destruct (get_report_status (acunetix cfg) rid s) as [[v|e0] s1];
      simpl in *; [discriminate Hr|].
    injection Hr as ->. destruct He as [-> | ->]; simpl; auto.
Qed.

Section ScanWaitFacts.

Context {W : Type} `{Env W}.
Variable cfg : AppConfig.

Lemma scan_wait_delays (id : json) (n : nat) :
  forall s : pstate W,
    (count is_delay (trace (snd (scan_wait_loop cfg id n s)))
     <= count is_delay (trace s) + n)%nat.
Proof.
  assert (Hreq : forall m u b k a (t : pstate W),
            count is_delay
              (trace (snd (request_loop (acunetix cfg) m u b k a t)))
            = count is_delay (trace t)).
  { intros m u b k. induction k as [|k IHk]; intros a t; [reflexivity|].
    simpl. unfold_m. simpl.
    destruct (session_request m u b (world t)) as [[c|e] w].
    - simpl. rewrite count_snoc. simpl. lia.
    - destruct e; simpl; try (rewrite count_snoc; simpl; lia).
      destruct (request_error_message b0) as [[]|e]; simpl;
        [|rewrite count_snoc; simpl; lia].
      destruct (a <? max_retries (acunetix cfg)); simpl;
        [destruct (float_of_pow2 a) as [power|e]; simpl;
         [destruct (time_sleep _) as [[]|e]; simpl|]|];
        rewrite ?IHk; simpl; rewrite ?count_snoc; simpl; lia. }
  assert (Hfetch : forall t : pstate W,
            count is_delay (trace (snd (fetch_scan (acunetix cfg) id t)))
            = count is_delay (trace t)).
  { intros t. unfold fetch_scan, _make_request. unfold_m.
    destruct (negb (truthy id)); [reflexivity|]. apply Hreq. }
  induction n as [|n IH]; intros s; [simpl; lia|].
  simpl. unfold_m.
  pose proof (Hfetch s) as Hf.
  destruct (fetch_scan (acunetix cfg) id s) as [[data|e] s1]; simpl in Hf.
  - destruct (get_default data (lit "current_session") (JDict []))
      as [session|e]; simpl; [|destruct e; simpl; lia].
    destruct (get session (lit "status")) as [st|e]; simpl;
      [|destruct e; simpl; lia].
    destruct (eq_str st (lit "completed")); simpl; [lia|].
    destruct (eq_str st (lit "failed")); simpl; [lia|].
    destruct (time_sleep _) as [[]|e]; simpl;
      [|rewrite count_snoc; simpl; lia].
    match goal with
    | |- (count is_delay (trace (snd (scan_wait_loop cfg id n ?t))) <= _)%nat =>
        specialize (IH t); simpl in IH; rewrite count_snoc in IH;
        simpl in IH
    end.
    lia.
  - destruct e; simpl; lia.
Qed.

Lemma scan_wait_true (id : json) (n : nat) :
  forall s s' : pstate W,
    scan_wait_loop cfg id n s = (Ret true, s') ->
    exists s1 data,
      fetch_scan (acunetix cfg) id s1 = (Ret data, s') /\
      status_completed data = true.
Proof.
  induction n as [|n IH]; intros s s'.
  - simpl. unfold ret. intros Hr. discriminate Hr.
  - simpl. unfold_m.
    destruct (fetch_scan (acunetix cfg) id s) as [[data|e] s1] eqn:Hf.
    + unfold status_completed, scan_status_of.
      destruct (get_default data (lit "current_session") (JDict []))
        as [session|e] eqn:Hs; simpl; [|destruct e; simpl; discriminate].
      destruct (get session (lit "status")) as [st|e] eqn:Hst; simpl;
        [|destruct e; simpl; discriminate].
      destruct (eq_str st (lit "completed")) eqn:Hc; simpl.
      * intros Hr. injection Hr as <-. exists s, data.
        split; [exact Hf|].
        unfold status_completed, scan_status_of. rewrite Hs, Hst. exact Hc.
      * destruct (eq_str st (lit "failed")); simpl; [discriminate|].
        destruct (time_sleep _) as [[]|e]; simpl; [apply IH|discriminate].
    + destruct e; simpl; discriminate.
Qed.

Lemma scan_wait_inconclusive (id : json) (k : nat) (s s1 : pstate W)
    (data st : json) :
  sleepable (scan_check_delay (settings cfg)) = true ->
  fetch_scan (acunetix cfg) id s = (Ret data, s1) ->
  scan_status_of data = Ret st ->
  eq_str st (lit "completed") = false ->
  eq_str st (lit "failed") = false ->
  scan_wait_loop cfg id (S k) s
  = scan_wait_loop cfg id k
      (snd (sleep (Delay (scan_check_delay (settings cfg))) s1)).
Proof.
  unfold scan_status_of. intros Hs Hf Hex Hc Hfl.
  simpl. unfold_m. rewrite Hf.
  destruct (get_default data (lit "current_session") (JDict []))
    as [session|e]; [|discriminate Hex].
  simpl. rewrite Hex. simpl. rewrite Hc, Hfl. simpl.
  rewrite (sleepable_sleeps _ Hs). reflexivity.
Qed.

Lemma scan_wait_sleep_raises (id : json) (k : nat) (s s1 : pstate W)
    (data st : json) (e : exn) :
  time_sleep (Delay (scan_check_delay (settings cfg))) = Raise e ->
  fetch_scan (acunetix cfg) id s = (Ret data, s1) ->
  scan_status_of data = Ret st ->
  eq_str st (lit "completed") = false ->
  eq_str st (lit "failed") = false ->
  scan_wait_loop cfg id (S k) s
  = (Raise e, snd (sleep (Delay (scan_check_delay (settings cfg))) s1)).
Proof.
  unfold scan_status_of. intros Hs Hf Hex Hc Hfl.
  simpl. unfold_m. rewrite Hf.
  destruct (get_default data (lit "current_session") (JDict []))
    as [session|e0]; [|discriminate Hex].
  simpl. rewrite Hex. simpl. rewrite Hc, Hfl. simpl.
  rewrite Hs. reflexivity.
Qed.

End ScanWaitFacts.

(** X10: the wait for a scan calls [time.sleep] with the check delay at
    most [max_checks] times. It returns [True] only from a check in which
    the fetched scan had the status 'completed'. A check whose status is
    neither 'completed' nor 'failed' is followed by a sleep even when it
    was the last one: with a delay [time.sleep] accepts [False] is
    returned after the sleep, and with a delay it refuses the exception of
    the sleep comes out of the wait, whatever the number of checks. With
    no check allowed it returns [False] and does nothing; with an empty
    scan id the [ValueError] of the client comes out of it. *)
Theorem scan_wait_behaviour W (E : Env W) cfg (id : json) (s : pstate W) :
  (forall max_checks,
     (count is_delay
        (trace (snd (_wait_for_scan_completion cfg id max_checks s)))
      <= count is_delay (trace s) + Z.to_nat max_checks)%nat) /\
  (forall max_checks s',
     _wait_for_scan_completion cfg id max_checks s = (Ret true, s') ->
     exists s1 data,
       fetch_scan (acunetix cfg) id s1 = (Ret data, s') /\
       status_completed data = true) /\
  (forall s1 data st,
     sleepable (scan_check_delay (settings cfg)) = true ->
     fetch_scan (acunetix cfg) id s = (Ret data, s1) ->
     scan_status_of data = Ret st ->
     eq_str st (lit "completed") = false ->
     eq_str st (lit "failed") = false ->
     _wait_for_scan_completion cfg id 1 s
     = (Ret false,
        snd (sleep (Delay (scan_check_delay (settings cfg))) s1))) /\
  (forall max_checks s1 data st e,
     0 < max_checks ->
     time_sleep (Delay (scan_check_delay (settings cfg))) = Raise e ->
     fetch_scan (acunetix cfg) id s = (Ret data, s1) ->
     scan_status_of data = Ret st ->
     eq_str st (lit "completed") = false ->
     eq_str st (lit "failed") = false ->
     _wait_for_scan_completion cfg id max_checks s
     = (Raise e,
        snd (sleep (Delay (scan_check_delay (settings cfg))) s1))) /\
  (forall max_checks,
     max_checks <= 0 ->
     _wait_for_scan_completion cfg id max_checks s = (Ret false, s)) /\
  (forall max_checks,
     0 < max_checks -> truthy id = false ->
     _wait_for_scan_completion cfg id max_checks s = (Raise ValueError, s)).
Proof.
  unfold _wait_for_scan_completion.
  split; [|split; [|split; [|split; [|split]]]].
  - intros m. apply scan_wait_delays.
  - intros m s'. apply scan_wait_true.
  - intros s1 data st Hs Hf Hex Hc Hfl.
    change (Z.to_nat 1) with 1%nat.
    rewrite (scan_wait_inconclusive cfg id 0 s Hs Hf Hex Hc Hfl).
    reflexivity.
  - intros m s1 data st e Hm Hs Hf Hex Hc Hfl.
    destruct (Z.to_nat m) as [|n] eqn:Hn; [lia|].
    apply (scan_wait_sleep_raises cfg id n s Hs Hf Hex Hc Hfl).
  - intros m Hm. replace (Z.to_nat m) with 0%nat by lia. reflexivity.
  - intros m Hm Hid.
    destruct (Z.to_nat m) as [|n] eqn:Hn; [lia|].
    simpl. unfold fetch_scan. unfold_m. rewrite Hid. reflexivity.
Qed.

Lemma report_wait_result_witness :
  report_with "completed" = JNull
  \/ has_status (report_with "completed") "completed" = true.
Proof.
  apply (report_wait_result script_env sample_config (JStr (lit "r1"))
           (start (polls [report_with "running"; report_with "completed"])
              [] FileAbsent)).
  reflexivity.
Defined.

Lemma report_wait_failures_witness :
  fst (_wait_for_report sample_config (JStr (lit "r1"))
         (start silent [] FileAbsent)) = Ret JNull /\
  fst (_wait_for_report sample_config (JStr [])
         (start silent [] FileAbsent)) = Raise ValueError /\
  _wait_for_report_n sample_config (JStr (lit "r1")) 0
    (start silent [] FileAbsent)
  = (Ret JNull, start silent [] FileAbsent) /\
  fst (_wait_for_report
         (with_acunetix sample_config (with_factor sample_acunetix (-0.5)))
         (JStr (lit "r1")) (start silent [] FileAbsent))
  = Raise ValueError.
Proof.
  destruct (report_wait_failures script_env sample_config (JStr (lit "r1"))
              (start silent [] FileAbsent)) as (Hrej & _ & Hzero & _).
  destruct (report_wait_failures script_env sample_config (JStr [])
              (start silent [] FileAbsent)) as (_ & Hempty & _).
  destruct (report_wait_failures script_env
              (with_acunetix sample_config
                 (with_factor sample_acunetix (-0.5)))
              (JStr (lit "r1")) (start silent [] FileAbsent))
    as (_ & _ & _ & Hback).
  split; [|split; [|split]].
  - apply (Hrej (fun w : script => responses w = []) silent_rejecting);
      [reflexivity|reflexivity|exact sample_backoff_ok].
  - apply Hempty. reflexivity.
  - apply Hzero. lia.
  - apply (Hback (fun w : script => responses w = []) ValueError
             silent_rejecting); [reflexivity|reflexivity|simpl; lia|].
    vm_compute. reflexivity.
Defined.

Lemma running_check_run :
  fetch_scan (acunetix sample_config) (JStr (lit "s1"))
    (start (scan_reply "running") [] FileAbsent)
  = (Ret (scan_with "s1" "running"), snd running_check).
Proof. vm_compute. reflexivity. Defined.

Lemma scan_wait_behaviour_witness :
  _wait_for_scan_completion sample_config (JStr (lit "s1")) 1
    (start (scan_reply "running") [] FileAbsent)
  = (Ret false, snd (sleep (Delay 3600) (snd running_check))) /\
  _wait_for_scan_completion sample_config (JStr (lit "s1")) 0
    (start (scan_reply "running") [] FileAbsent)
  = (Ret false, start (scan_reply "running") [] FileAbsent) /\
  _wait_for_scan_completion sample_config (JStr []) 10
    (start silent [] FileAbsent)
  = (Raise ValueError, start silent [] FileAbsent) /\
  (exists s1 data,
     fetch_scan (acunetix sample_config) (JStr (lit "s1")) s1
     = (Ret data,
        snd (_wait_for_scan_completion sample_config (JStr (lit "s1")) 10
               (start (scan_reply "completed") [] FileAbsent))) /\
     status_completed data = true) /\
  fst (_wait_for_scan_completion (with_delays sample_config (-1) 10)
         (JStr (lit "s1")) 10 (start (scan_reply "running") [] FileAbsent))
  = Raise ValueError.
Proof.
  destruct (scan_wait_behaviour script_env sample_config (JStr (lit "s1"))
              (start (scan_reply "running") [] FileAbsent))
    as (_ & _ & Hlast & _ & Hzero & _).
  destruct (scan_wait_behaviour script_env sample_config (JStr [])
              (start silent [] FileAbsent)) as (_ & _ & _ & _ & _ & Hempty).
  destruct (scan_wait_behaviour script_env sample_config (JStr (lit "s1"))
              (start (scan_reply "completed") [] FileAbsent))
    as (_ & Htrue & _).
  destruct (scan_wait_behaviour script_env
              (with_delays sample_config (-1) 10) (JStr (lit "s1"))
              (start (scan_reply "running") [] FileAbsent))
    as (_ & _ & _ & Hraise & _).
  split; [|split; [|split; [|split]]].
  - apply (Hlast (snd running_check) (scan_with "s1" "running")
             (JStr (lit "running")) eq_refl running_check_run);
      reflexivity.
  - apply Hzero. lia.
  - apply Hempty; [lia|reflexivity].
  - apply (Htrue 10
             (snd (_wait_for_scan_completion sample_config (JStr (lit "s1"))
                     10 (start (scan_reply "completed") [] FileAbsent)))).
    vm_compute. reflexivity.
  - rewrite (Hraise 10 (snd running_check) (scan_with "s1" "running")
               (JStr (lit "running")) ValueError); reflexivity.
Defined.

(** ** More on processing one scan *)

Section ScanReportFacts.

Context {W : Type} `{Env W}.
Variable cfg : AppConfig.

(** The fields of the result the [try] block builds. *)
Lemma body_fields (scan id tid : json) (s s' : pstate W) (r : ScanResult) :
  generate_scan_report_body cfg scan id tid s = (Ret (Some r), s') ->
  scan_id r = id /\
  target_id r = tid /\
  description_of scan = Ret (description r) /\
  get_default scan (lit "current_session") (JDict [])
  = Ret (current_session r) /\
  get_default (current_session r) (lit "start_date") (JStr [])
  = Ret (start_date r) /\
  get_default (current_session r) (lit "severity_counts") (JDict [])
  = Ret (severity_counts r) /\
  parent (report_path r) = reports_dir (paths cfg).
Proof.
  unfold generate_scan_report_body, description_of. intros Hb.
  inv_bind Hb. inv_bind Hb.
  match type of Hb with
  | context [negb (truthy ?v)] => destruct (negb (truthy v))
  end; [discriminate Hb|].
  inv_bind Hb.
  match type of Hb with
  | context [negb (truthy ?v)] => destruct (negb (truthy v))
  end; [discriminate Hb|].
  inv_bind Hb. inv_bind Hb. inv_bind Hb.
  inv_bind Hb. inv_bind Hb. inv_bind Hb.
  match type of Hb with
  | context [negb (truthy ?v)] => destruct (negb (truthy v))
  end; [discriminate Hb|].
  inv_bind Hb. inv_bind Hb. inv_bind Hb.
  match type of Hb with
  | context [negb ?b] => destruct (negb b)
  end; [discriminate Hb|].
  inv_bind Hb. inv_bind Hb. inv_bind Hb.
  unfold ret in Hb. injection Hb as Hr Hs. subst r s'.
  inv_lift Hm11 as E11. inv_lift Hm12 as E12. inv_lift Hm13 as E13.
  inv_lift Hm2 as E2. inv_lift Hm3 as E3.
  simpl. rewrite E2. repeat split; assumption.
Qed.

Lemma try_none_returns {A} (m : M W (option A)) (s : pstate W) :
  exists o, fst (try_except m (fun _ => ret None) s) = Ret o.
Proof.
  unfold try_except, ret. destruct (m s) as [[o|e] s1]; simpl; eauto.
Qed.

End ScanReportFacts.

(** X11: the ScanResult of a scan carries the scan's own ids, both true as
    conditions, the description of its target (or "report"), its session
    with the start date and the severity counts of the session (with their
    defaults), and a file in the reports directory. Its [is_completed] is
    true and its [is_scheduled] is false. *)
Theorem scan_result_fields W (E : Env W) cfg (scan : json)
    (s s' : pstate W) (r : ScanResult) :
  _generate_scan_report cfg scan s = (Ret (Some r), s') ->
  (get scan (lit "scan_id") = Ret (scan_id r) /\ truthy (scan_id r) = true) /\
  (get scan (lit "target_id") = Ret (target_id r) /\
   truthy (target_id r) = true) /\
  description_of scan = Ret (description r) /\
  get_default scan (lit "current_session") (JDict [])
  = Ret (current_session r) /\
  get_default (current_session r) (lit "start_date") (JStr [])
  = Ret (start_date r) /\
  get_default (current_session r) (lit "severity_counts") (JDict [])
  = Ret (severity_counts r) /\
  parent (report_path r) = reports_dir (paths cfg) /\
  is_completed r = Ret true /\
  is_scheduled r = Ret false.
Proof.
  intros Hg. unfold _generate_scan_report in Hg.
  inv_bind Hg. inv_bind Hg. inv_bind Hg. inv_bind Hg.
  inv_lift Hm as Eid. inv_lift Hm0 as Etid. inv_lift Hm1 as Esess.
  inv_lift Hm2 as Est.
  destruct (truthy a) eqn:Hta; simpl in Hg; [|discriminate Hg].
  destruct (truthy a0) eqn:Htt; simpl in Hg; [|discriminate Hg].
  inv_bind Hg. inv_bind Hg. unfold get_processed in Hm.
  injection Hm as <- <-. inv_lift Hm0 as Eseen.
  destruct a4; [discriminate Hg|].
  destruct (eq_str a2 (lit "scheduled")) eqn:Hsch; [discriminate Hg|].
  destruct (eq_str a2 (lit "completed")) eqn:Hcomp; simpl in Hg;
    [|discriminate Hg].
  unfold try_except in Hg.
  destruct (generate_scan_report_body cfg scan a a0 s)
    as [[[r'|]|e] s1] eqn:Hb; try discriminate Hg.
  injection Hg as <- <-.
  destruct (body_fields _ _ _ _ _ Hb)
    as (Hid & Htid & Hdesc & Hsession & Hstart & Hcounts & Hdir).
  subst a a0.
  assert (Hcur : current_session r' = a1) by congruence.
  repeat split; try assumption.
  - unfold is_completed. rewrite Hcur, Est, Hcomp. reflexivity.
  - unfold is_scheduled. rewrite Hcur, Est, Hsch. reflexivity.
Qed.

(** X12: when [_generate_scan_report] raises, nothing has happened yet:
    the state is as before, and the exception is the [AttributeError] of a
    scan or session that is not an object or the [TypeError] of an id that
    cannot be hashed. A scan whose [scan_id] or [target_id] is missing or
    empty gives no result and leaves the state as it is. *)
Theorem scan_report_raises_early W (E : Env W) cfg (scan : json)
    (s : pstate W) :
  (forall e,
     fst (_generate_scan_report cfg scan s) = Raise e ->
     snd (_generate_scan_report cfg scan s) = s /\
     (e = AttributeError \/ e = TypeError)) /\
  (forall id tid st,
     get scan (lit "scan_id") = Ret id ->
     get scan (lit "target_id") = Ret tid ->
     scan_status_of scan = Ret st ->
     truthy id = false \/ truthy tid = false ->
     _generate_scan_report cfg scan s = (Ret None, s)).
Proof.
  split.
  - unfold _generate_scan_report, set_contains. unfold_m. intros e.
    destruct scan as [| | | | |d]; simpl;
      try (intros He; injection He as <-; auto).
    unfold get, get_default.
    destruct (dict_lookup (lit "scan_id") d) as [id|];
      destruct (dict_lookup (lit "target_id") d) as [tid|];
      destruct (dict_lookup (lit "current_session") d) as [[| | | | |session]|];
      simpl; try (intros He; injection He as <-; auto);
      repeat match goal with
      | |- context [match dict_lookup ?k ?l with _ => _ end] =>
          destruct (dict_lookup k l)
      end; simpl;
      repeat match goal with
      | |- context [if ?c then _ else _] =>
          lazymatch c with
          | context [if _ then _ else _] => fail
          | _ => destruct c
          end; simpl
      end;
      try discriminate; try (intros He; injection He as <-; auto);
      match goal with
      | |- fst (let (r, s') := ?m in _) = _ -> _ =>
          destruct m as [[o|e'] s1]; simpl; discriminate
      end.
  - unfold scan_status_of. intros id tid st Hid Htid Hst Hempty.
    unfold _generate_scan_report. unfold_m. rewrite Hid, Htid.
    destruct (get_default scan (lit "current_session") (JDict []))
      as [session|e]; [|discriminate Hst].
    rewrite Hst.
    destruct Hempty as [-> | ->]; simpl; rewrite ?orb_true_r; reflexivity.
Qed.

Lemma scan_result_fields_witness :
  exists r,
    one_report_result = Some r /\
    scan_id r = JStr (lit "s1") /\
    is_completed r = Ret true /\
    is_scheduled r = Ret false.
Proof.
  destruct one_report_produces as (r & s' & Hrun).
  destruct (scan_result_fields script_env sample_config _ _ Hrun)
    as ((Hid & _) & _ & _ & _ & _ & _ & _ & Hc & Hs).
  exists r. split; [|split; [|split]]; try assumption.
  - unfold one_report_result.
    change one_report_run
      with (_generate_scan_report sample_config (scan_with "s1" "completed")
              (start one_report [] FileAbsent)).
    rewrite Hrun. reflexivity.
  - simpl in Hid. injection Hid as <-. reflexivity.
Defined.

Lemma scan_report_raises_early_witness :
  snd (_generate_scan_report sample_config (JStr (lit "not a scan"))
         (start happy [] FileAbsent)) = start happy [] FileAbsent /\
  _generate_scan_report sample_config
    (JDict [ (lit "scan_id", JStr (lit "s1")) ]) (start happy [] FileAbsent)
  = (Ret None, start happy [] FileAbsent).
Proof.
  split.
  - apply (proj1 (scan_report_raises_early script_env sample_config
                    (JStr (lit "not a scan")) (start happy [] FileAbsent))
             AttributeError).
    reflexivity.
  - apply (proj2 (scan_report_raises_early script_env sample_config
                    (JDict [ (lit "scan_id", JStr (lit "s1")) ])
                    (start happy [] FileAbsent))
             (JStr (lit "s1")) JNull JNull);
      try reflexivity.
    right. reflexivity.
Defined.

(** ** More on the loop over the scans *)

Section BatchFacts.

Context {W : Type} `{Env W}.
Variable cfg : AppConfig.

(** Where the results of the loop come from. *)
Lemma scan_loop_origin (scans : list json) :
  forall (results out : list ScanResult) (s s' : pstate W),
    scan_loop cfg scans results s = (Ret out, s') ->
    exists more,
      out = results ++ more /\
      (List.length more <= List.length scans)%nat /\
      forall r, In r more ->
        exists scan,
          In scan scans /\
          get scan (lit "scan_id") = Ret (scan_id r) /\
          status_completed scan = true.
Proof.
  induction scans as [|scan scans IH]; intros results out s s' Hloop.
  - simpl in Hloop. unfold ret in Hloop. injection Hloop as <- <-.
    exists []. rewrite app_nil_r. simpl. repeat split; [lia|].
    intros r [].
  - simpl in Hloop. apply bind_ret_inv in Hloop.
    destruct Hloop as (results1 & s1 & Hstep & Hloop).
    destruct (IH _ _ _ _ Hloop) as (more & -> & Hlen & Horigin).
    unfold try_except, bind in Hstep.
    destruct (_generate_scan_report cfg scan s) as [[[r|]|e] s2] eqn:Hg.
    + unfold ret in Hstep. injection Hstep as <- <-.
      exists (r :: more). rewrite <- app_assoc. simpl.
      split; [reflexivity|]. split; [lia|].
      intros r0 [<-|Hin].
      * destruct (report_produces _ _ _ Hg) as (Hid & _ & _ & Hc & _).
        exists scan. auto.
      * destruct (Horigin r0 Hin) as (scan0 & Hin0 & Hrest).
        exists scan0. auto.
    + unfold ret in Hstep. injection Hstep as <- <-.
      exists more. split; [reflexivity|]. split; [simpl; lia|].
      intros r0 Hin. destruct (Horigin r0 Hin) as (scan0 & Hin0 & Hrest).
      exists scan0. simpl. auto.
    + apply bind_ret_inv in Hstep.
      destruct Hstep as (v & s3 & _ & Hret).
      unfold ret in Hret. injection Hret as <- <-.
      exists more. split; [reflexivity|]. split; [simpl; lia|].
      intros r0 Hin. destruct (Horigin r0 Hin) as (scan0 & Hin0 & Hrest).
      exists scan0. simpl. auto.
Qed.

End BatchFacts.

(** X13: the batch [process_scans] returns has at most one result per
    listed scan, and every result carries the id of a listed scan whose
    status is 'completed'. *)
Theorem batch_origin W (E : Env W) cfg (s s' : pstate W)
    (batch : list ScanResult) :
  process_scans cfg s = (Ret batch, s') ->
  exists data s1,
    fetch_all_scans (acunetix cfg) s = (Ret data, s1) /\
    (List.length batch <= List.length (listed data))%nat /\
    forall r, In r batch ->
      exists scan,
        In scan (listed data) /\
        get scan (lit "scan_id") = Ret (scan_id r) /\
        status_completed scan = true.
Proof.
  unfold process_scans, try_except. intros Hp.
  match type of Hp with
  | (let (r, s') := ?m s in _) = _ =>
      destruct (m s) as [[out|e] s1] eqn:Hm; [|discriminate Hp]
  end.
  injection Hp as -> ->.
  inv_bind Hm. inv_bind Hm. inv_lift Hm1 as Escans.
  exists a, s0. split; [exact Hm0|].
  unfold listed. rewrite Escans.
  destruct (truthy a0); simpl in Hm.
  - inv_bind Hm. inv_lift Hm1 as Eit. rewrite Eit.
    destruct (scan_loop_origin _ _ _ _ Hm) as (more & Hout & Hlen & Horigin).
    simpl in Hout. subst batch. split; assumption.
  - unfold ret in Hm. injection Hm as <- <-. simpl.
    split; [lia|]. intros r [].
Qed.

(** X14: [process_scans] raises nothing but [ScanProcessorError]. When the
    listing response is an object without a 'scans' entry, or with one
    that is an empty list, string or object, the batch is empty and
    nothing but the listing was done. When the 'scans' entry is a value
    without a length, such as [null], a number or a boolean, or when the
    response is not an object, the run is aborted with
    [ScanProcessorError]. *)
Theorem process_scans_outcomes W (E : Env W) cfg (s : pstate W) :
  (forall e, fst (process_scans cfg s) = Raise e -> e = ScanProcessorError) /\
  (forall data s1 scans,
     listing_response cfg s = (Ret data, s1) ->
     get_default data (lit "scans") (JList []) = Ret scans ->
     has_len scans = Ret tt ->
     truthy scans = false ->
     process_scans cfg s = (Ret [], s1)) /\
  (forall data s1 scans e,
     listing_response cfg s = (Ret data, s1) ->
     get_default data (lit "scans") (JList []) = Ret scans ->
     has_len scans = Raise e ->
     process_scans cfg s = (Raise ScanProcessorError, s1)) /\
  (forall data s1 e,
     listing_response cfg s = (Ret data, s1) ->
     get_default data (lit "scans") (JList []) = Raise e ->
     process_scans cfg s = (Raise ScanProcessorError, s1)).
Proof.
  unfold listing_response.
  split; [|split; [|split]].
  - intros e. unfold process_scans, try_except, raise.
    match goal with
    | |- fst (let (r, s') := ?m in _) = _ -> _ =>
        destruct m as [[out|e'] s1]; simpl
    end.
    + discriminate.
    + intros He. injection He as <-. reflexivity.
  - intros data s1 scans Hr Hs Hl Ht.
    unfold process_scans, fetch_all_scans. unfold_m. unfold emit in Hr.
    simpl in Hr. rewrite Hr. rewrite Hs, Hl. simpl. rewrite Hs. simpl.
    rewrite Ht. reflexivity.
  - intros data s1 scans e Hr Hs Hl.
    unfold process_scans, fetch_all_scans. unfold_m. unfold emit in Hr.
    simpl in Hr. rewrite Hr. rewrite Hs, Hl. reflexivity.
  - intros data s1 e Hr Hs.
    unfold process_scans, fetch_all_scans. unfold_m. unfold emit in Hr.
    simpl in Hr. rewrite Hr. rewrite Hs. reflexivity.
Qed.

Lemma batch_origin_witness :
  exists data s1,
    fetch_all_scans (acunetix sample_config) (start happy [] FileAbsent)
    = (Ret data, s1) /\
    (List.length happy_batch <= List.length (listed data))%nat.
Proof.
  destruct (batch_origin script_env sample_config
              (start happy [] FileAbsent) happy_discovery_run)
    as (data & s1 & Hf & Hlen & _).
  exists data, s1. split; assumption.
Defined.

Lemma process_scans_outcomes_witness :
  process_scans sample_config (start empty_listing [] FileAbsent)
  = (Ret [], snd empty_listing_run) /\
  fst (process_scans sample_config (start null_listing [] FileAbsent))
  = Raise ScanProcessorError.
Proof.
  split.
  - apply (proj1 (proj2 (process_scans_outcomes script_env sample_config
                           (start empty_listing [] FileAbsent)))
             (JDict [ (lit "scans", JList []) ]) (snd empty_listing_run)
             (JList [])); reflexivity.
  - rewrite (proj1 (proj2 (proj2 (process_scans_outcomes script_env
                                    sample_config
                                    (start null_listing [] FileAbsent))))
               (JDict [ (lit "scans", JNull) ])
               (snd (listing_response sample_config
                       (start null_listing [] FileAbsent)))
               JNull TypeError); reflexivity.
Defined.

(** ** The processed set as a set *)

Lemma member_false_app (x : json) (s t : pyset) :
  member x (s ++ t) = false <-> member x s = false /\ member x t = false.
Proof. rewrite member_app. apply orb_false_iff. Qed.

Lemma no_repeat_snoc (s : pyset) (x : json) :
  no_repeat s = true -> member x s = false -> no_repeat (s ++ [x]) = true.
Proof.
  induction s as [|y s IH]; intros Hs Hx; [reflexivity|].
  simpl in *. apply andb_true_iff in Hs. destruct Hs as [Hy Hs].
  apply orb_false_iff in Hx. destruct Hx as [Hxy Hx].
  rewrite (IH Hs Hx), andb_true_r.
  apply negb_true_iff. apply negb_true_iff in Hy.
  rewrite member_app, Hy. simpl.
  rewrite key_eq_sym, Hxy. reflexivity.
Qed.

Lemma set_add_well_formed (x : json) (s : pyset) :
  hashable x = true -> well_formed s = true ->
  well_formed (set_add x s) = true.
Proof.
  unfold well_formed, set_add. intros Hx Hs.
  destruct (member x s) eqn:Hm; [exact Hs|].
  apply andb_true_iff in Hs. destruct Hs as [Hh Hn].
  rewrite forallb_app, Hh. simpl. rewrite Hx. simpl.
  apply no_repeat_snoc; assumption.
Qed.

Lemma fold_add_well_formed (l : list json) :
  forallb hashable l = true ->
  forall s : pyset,
    well_formed s = true ->
    well_formed (fold_left (fun s x => set_add x s) l s) = true.
Proof.
  induction l as [|x l IH]; intros Hl s Hs; [exact Hs|].
  simpl in *. apply andb_true_iff in Hl. destruct Hl as [Hx Hl].
  apply IH; [exact Hl|]. apply set_add_well_formed; assumption.
Qed.

Lemma set_of_well_formed (v : json) (ids : pyset) :
  set_of v = Ret ids -> well_formed ids = true.
Proof.
  unfold set_of. destruct (iterate v) as [l|e]; [|discriminate].
  destruct (forallb hashable l) eqn:Hl; [|discriminate].
  intros Hr. injection Hr as <-. apply fold_add_well_formed; [exact Hl|].
  reflexivity.
Qed.

(** Adding the members of a set without repetition, in their order, to
    the members already there gives them back in that order. *)
Lemma fold_add_distinct (l : list json) :
  forall acc : pyset,
    no_repeat (acc ++ l) = true ->
    fold_left (fun s x => set_add x s) l acc = acc ++ l.
Proof.
  induction l as [|x l IH]; intros acc Hn; [symmetry; apply app_nil_r|].
  simpl. unfold set_add at 2.
  assert (Hx : member x acc = false).
  { clear IH. induction acc as [|y acc IHacc]; [reflexivity|].
    simpl in Hn. apply andb_true_iff in Hn. destruct Hn as [Hy Hn].
    simpl. rewrite (IHacc Hn), orb_false_r.
    apply negb_true_iff in Hy. apply member_false_app in Hy.
    destruct Hy as [_ Hy]. simpl in Hy. apply orb_false_iff in Hy.
    rewrite key_eq_sym. tauto. }
  rewrite Hx. rewrite IH.
  - rewrite <- app_assoc. reflexivity.
  - rewrite <- app_assoc. exact Hn.
Qed.

Lemma set_of_round_trip (ids : pyset) :
  well_formed ids = true -> set_of (JList ids) = Ret ids.
Proof.
  unfold well_formed, set_of. intros Hw.
  apply andb_true_iff in Hw. destruct Hw as [Hh Hn].
  simpl. rewrite Hh. rewrite (fold_add_distinct ids []); [reflexivity|].
  exact Hn.
Qed.

Section SetFacts.

Context {W : Type} `{Env W}.
Variable cfg : AppConfig.

(** What [mark_as_processed] does to the set, in every case. *)
Lemma mark_as_processed_set (id : json) (s : pstate W) :
  processed_scans (snd (mark_as_processed cfg id s))
  = if hashable id then set_add id (processed_scans s) else processed_scans s.
Proof.
  unfold mark_as_processed, set_contains. unfold_m.
  destruct (hashable id); [|reflexivity].
  destruct (member id (processed_scans s)) eqn:Hm; simpl.
  - unfold set_add. rewrite Hm. reflexivity.
  - rewrite save_keeps_processed. reflexivity.
Qed.

Lemma init_well_formed (s : pstate W) :
  well_formed (processed_scans (snd (ScanProcessor_init s))) = true.
Proof.
  unfold ScanProcessor_init, _load_processed_scans. unfold_m. simpl.
  destruct (store s) as [| | |v]; try reflexivity.
  destruct (set_of v) as [ids|e] eqn:Hv; simpl; [|reflexivity].
  eapply set_of_well_formed, Hv.
Qed.

Lemma mark_well_formed (id : json) (s : pstate W) :
  well_formed (processed_scans s) = true ->
  well_formed (processed_scans (snd (mark_as_processed cfg id s))) = true.
Proof.
  intros Hw. rewrite mark_as_processed_set.
  destruct (hashable id) eqn:Hh; [|exact Hw].
  apply set_add_well_formed; assumption.
Qed.

Lemma mark_grows (id x : json) (s : pstate W) :
  member x (processed_scans s) = true ->
  member x (processed_scans (snd (mark_as_processed cfg id s))) = true.
Proof.
  intros Hx. rewrite mark_as_processed_set.
  destruct (hashable id); [|exact Hx].
  rewrite member_set_add, Hx. reflexivity.
Qed.

(** A property of the processed set that every [mark_as_processed] keeps
    is kept by the commit of a batch, by its notification, and by a run
    of [main] from the point where the set is loaded. *)
Lemma mark_all_keeps (Q : pyset -> Prop) (batch : list ScanResult) :
  (forall id (s : pstate W),
     Q (processed_scans s) ->
     Q (processed_scans (snd (mark_as_processed cfg id s)))) ->
  forall s : pstate W,
    Q (processed_scans s) ->
    Q (processed_scans (snd (mark_all cfg batch s))).
Proof.
  intros Hmark. induction batch as [|r batch IH]; intros s HQ; [exact HQ|].
  simpl. unfold bind.
  pose proof (Hmark (scan_id r) s HQ) as H1.
  destruct (mark_as_processed cfg (scan_id r) s) as [[[]|e] s1]; simpl in *.
  - apply IH, H1.
  - exact H1.
Qed.

Lemma notify_keeps (Q : pyset -> Prop) (batch : list ScanResult) :
  (forall id (s : pstate W),
     Q (processed_scans s) ->
     Q (processed_scans (snd (mark_as_processed cfg id s)))) ->
  forall s : pstate W,
    Q (processed_scans s) ->
    Q (processed_scans (snd (notify_and_commit cfg batch s))).
Proof.
  intros Hmark s HQ. unfold notify_and_commit.
  destruct batch as [|r batch]; [exact HQ|].
  cbv iota. set (b := r :: batch). clearbody b.
  unfold_m.
  destruct (build_email_html b) as [[]|e]; [|exact HQ].
  cbv beta iota. simpl world.
  destruct (send_email _ _ (world s)) as [[[|]|e] w]; simpl;
    try exact HQ.
  apply mark_all_keeps; [exact Hmark|exact HQ].
Qed.

Lemma main_keeps (Q : pyset -> Prop) (s : pstate W) :
  (forall id (t : pstate W),
     Q (processed_scans t) ->
     Q (processed_scans (snd (mark_as_processed cfg id t)))) ->
  Q (processed_scans (snd (ScanProcessor_init s))) ->
  Q (processed_scans (snd (main cfg s))).
Proof.
  intros Hmark HQ. unfold main, try_except, bind.
  destruct (ScanProcessor_init s) as [[[]|e0] s0]; simpl in *; [|exact HQ].
  destruct (frames_process_scans cfg s0) as [Hsame _].
  destruct (process_scans cfg s0) as [[batch|e1] s1]; simpl in *;
    rewrite <- Hsame in HQ; [|exact HQ].
  pose proof (notify_keeps Q batch Hmark s1 HQ) as Hn.
  destruct (notify_and_commit cfg batch s1) as [[[]|e2] s2]; exact Hn.
Qed.

End SetFacts.

(** X15: the processed set is a set at every point of a run. It is one
    when loaded, whatever the file holds; [mark_as_processed] keeps it
    one; it is one when [main] ends. *)
Theorem processed_set_well_formed W (E : Env W) cfg (s : pstate W) :
  well_formed (processed_scans (snd (ScanProcessor_init s))) = true /\
  (forall id,
     well_formed (processed_scans s) = true ->
     well_formed (processed_scans (snd (mark_as_processed cfg id s))) = true) /\
  well_formed (processed_scans (snd (main cfg s))) = true.
Proof.
  split; [apply init_well_formed|]. split.
  - intros id. apply mark_well_formed.
  - apply (main_keeps cfg (fun ids => well_formed ids = true)).
    + intros id t. apply mark_well_formed.
    + apply init_well_formed.
Qed.

(** X16: the processed set never shrinks: a member stays a member through
    [mark_as_processed], through the notification and commit of a batch,
    and from the loading of the set to the end of [main]. *)
Theorem processed_set_grows W (E : Env W) cfg (s : pstate W) (x : json) :
  (forall id,
     member x (processed_scans s) = true ->
     member x (processed_scans (snd (mark_as_processed cfg id s))) = true) /\
  (forall batch,
     member x (processed_scans s) = true ->
     member x (processed_scans (snd (notify_and_commit cfg batch s))) = true) /\
  (member x (processed_scans (snd (ScanProcessor_init s))) = true ->
   member x (processed_scans (snd (main cfg s))) = true).
Proof.
  split; [|split].
  - intros id. apply mark_grows.
  - intros batch.
    apply (notify_keeps cfg (fun ids => member x ids = true)).
    intros id t. apply mark_grows.
  - apply (main_keeps cfg (fun ids => member x ids = true)).
    intros id t. apply mark_grows.
Qed.

(** X17: marking a new id adds it at once to the set in memory and writes
    the whole set. When the write goes through, the file holds the set, and
    loading it again gives the same set. When the write is refused the
    file stays as it was; when it fails after the file was truncated, the
    file is corrupt and the next load gives the empty set. In all three
    cases [mark_as_processed] returns normally. *)
Theorem commit_persists W (E : Env W) cfg (id : json) (s : pstate W) :
  hashable id = true ->
  member id (processed_scans s) = false ->
  well_formed (processed_scans s) = true ->
  let ids := processed_scans s ++ [id] in
  let s' := snd (mark_as_processed cfg id s) in
  fst (mark_as_processed cfg id s) = Ret tt /\
  processed_scans s' = ids /\
  (forall w,
     write_file (processed_file (paths cfg)) ids (world s) = (WriteDone, w) ->
     store s' = FileJson (JList ids) /\
     processed_scans (snd (ScanProcessor_init s')) = ids) /\
  (forall w,
     write_file (processed_file (paths cfg)) ids (world s)
     = (WriteRefused, w) ->
     store s' = store s) /\
  (forall w,
     write_file (processed_file (paths cfg)) ids (world s)
     = (WriteTruncated, w) ->
     store s' = FileCorrupt /\
     processed_scans (snd (ScanProcessor_init s')) = []).
Proof.
  intros Hh Hm Hw.
  assert (Hids : well_formed (processed_scans s ++ [id]) = true).
  { pose proof (set_add_well_formed id (processed_scans s) Hh Hw) as Ha.
    unfold set_add in Ha. rewrite Hm in Ha. exact Ha. }
  unfold mark_as_processed, set_contains, _save_processed_scans, set_add.
  unfold_m. rewrite Hh, Hm. simpl.
  destruct (write_file (processed_file (paths cfg))
              (processed_scans s ++ [id]) (world s)) as [[| |] w0] eqn:Hwr;
    simpl.
  - split; [reflexivity|]. split; [reflexivity|].
    split; [|split]; intros w Heq; try discriminate Heq.
    split; [reflexivity|].
    unfold ScanProcessor_init, _load_processed_scans. unfold_m. simpl.
    rewrite (set_of_round_trip _ Hids). reflexivity.
  - split; [reflexivity|]. split; [reflexivity|].
    split; [|split]; intros w Heq; try discriminate Heq. reflexivity.
  - split; [reflexivity|]. split; [reflexivity|].
    split; [|split]; intros w Heq; try discriminate Heq.
    split; reflexivity.
Qed.

Lemma processed_set_well_formed_witness :
  well_formed
    (processed_scans
       (snd (mark_as_processed sample_config (JStr (lit "s2"))
               (start silent [JStr (lit "s1")] FileAbsent)))) = true.
Proof.
  apply (proj1 (proj2 (processed_set_well_formed script_env sample_config
                         (start silent [JStr (lit "s1")] FileAbsent)))
           (JStr (lit "s2"))).
  reflexivity.
Defined.

Lemma processed_set_grows_witness :
  member (JStr (lit "s1"))
    (processed_scans
       (snd (mark_as_processed sample_config (JStr (lit "s2"))
               (start silent [JStr (lit "s1")] FileAbsent)))) = true /\
  member (JStr (lit "old"))
    (processed_scans
       (snd (main sample_config
               (start happy [] (FileJson (JList [JStr (lit "old")]))))))
  = true.
Proof.
  split.
  - apply (processed_set_grows script_env sample_config
             (start silent [JStr (lit "s1")] FileAbsent) (JStr (lit "s1"))).
    reflexivity.
  - apply (processed_set_grows script_env sample_config
             (start happy [] (FileJson (JList [JStr (lit "old")])))
             (JStr (lit "old"))).
    reflexivity.
Defined.

Lemma commit_persists_witness :
  processed_scans
    (snd (ScanProcessor_init
            (snd (mark_as_processed sample_config (JStr (lit "s2"))
                    (start (with_disk WriteDone) [JStr (lit "s1")]
                       FileAbsent)))))
  = [JStr (lit "s1"); JStr (lit "s2")] /\
  store (snd (mark_as_processed sample_config (JStr (lit "s2"))
                (start (with_disk WriteRefused) [JStr (lit "s1")]
                   FileAbsent))) = FileAbsent /\
  processed_scans
    (snd (ScanProcessor_init
            (snd (mark_as_processed sample_config (JStr (lit "s2"))
                    (start (with_disk WriteTruncated) [JStr (lit "s1")]
                       (FileJson (JList [JStr (lit "s1")]))))))) = [].
Proof.
  split; [|split].
  - apply (commit_persists script_env sample_config (JStr (lit "s2"))
             (start (with_disk WriteDone) [JStr (lit "s1")] FileAbsent)
             eq_refl eq_refl eq_refl)
      with (w := with_disk WriteDone).
    reflexivity.
  - apply (proj1 (proj2 (proj2 (proj2
             (commit_persists script_env sample_config (JStr (lit "s2"))
                (start (with_disk WriteRefused) [JStr (lit "s1")] FileAbsent)
                eq_refl eq_refl eq_refl))))
             (with_disk WriteRefused)).
    reflexivity.
  - apply (proj2 (proj2 (proj2 (proj2
             (commit_persists script_env sample_config (JStr (lit "s2"))
                (start (with_disk WriteTruncated) [JStr (lit "s1")]
                   (FileJson (JList [JStr (lit "s1")])))
                eq_refl eq_refl eq_refl))))
             (with_disk WriteTruncated)).
    reflexivity.
Defined.

(** ** More on the notification *)

Section NotifyFacts.

Context {W : Type} `{Env W}.
Variable cfg : AppConfig.

Lemma build_email_html_unsendable (batch : list ScanResult) :
  build_email_html batch
  = if unsendable batch then Raise AttributeError else Ret tt.
Proof.
  unfold unsendable. induction batch as [|r batch IH]; [reflexivity|].
  simpl. destruct (severity_counts r); simpl; try reflexivity. exact IH.
Qed.

Lemma mark_all_returns (batch : list ScanResult) :
  Forall (fun r => hashable (scan_id r) = true) batch ->
  forall s : pstate W, fst (mark_all cfg batch s) = Ret tt.
Proof. intros Hall s. apply (mark_all_spec cfg Hall s). Qed.

End NotifyFacts.

(** X18: the HTML of a batch can be built exactly when the severity counts
    of every result are an object. A batch for which it cannot is not
    notified and not committed: the notification raises with the state
    untouched, and the run that discovered it exits with status 1. *)
Theorem unsendable_batch W (E : Env W) cfg (batch : list ScanResult)
    (s : pstate W) :
  build_email_html batch
  = (if unsendable batch then Raise AttributeError else Ret tt) /\
  (unsendable batch = true ->
   notify_and_commit cfg batch s = (Raise AttributeError, s)) /\
  (forall s_start,
     unsendable batch = true ->
     process_scans cfg (snd (ScanProcessor_init s_start)) = (Ret batch, s) ->
     main cfg s_start = (Ret (SysExit 1), s)).
Proof.
  split; [apply build_email_html_unsendable|].
  assert (Hn : unsendable batch = true ->
               notify_and_commit cfg batch s = (Raise AttributeError, s)).
  { intros Hu. unfold notify_and_commit.
    destruct batch as [|r batch]; [discriminate Hu|].
    cbv iota. set (b := r :: batch) in *. clearbody b.
    unfold_m. rewrite build_email_html_unsendable, Hu. reflexivity. }
  split; [exact Hn|].
  intros s_start Hu Hp. unfold main, try_except, bind.
  pose proof (init_returns s_start) as Hi.
  destruct (ScanProcessor_init s_start) as [[[]|e0] s0]; simpl in *;
    [|discriminate Hi].
  rewrite Hp, (Hn Hu). reflexivity.
Qed.

(** X19: in a run whose discovery gave the batch, an empty batch sends no
    email and [main] completes in the state discovery left. For a batch
    that can be sent [main] completes whenever [send_email] returns, with
    [True] or with [False]; when [send_email] returns [False] the
    processed set and its file are as discovery left them. When
    [send_email] raises, [main] exits with status 1 and nothing is
    committed. The email is sent at most once. *)
Theorem main_outcomes W (E : Env W) cfg (s_start s : pstate W)
    (batch : list ScanResult) :
  process_scans cfg (snd (ScanProcessor_init s_start)) = (Ret batch, s) ->
  (batch = [] -> main cfg s_start = (Ret Completed, s)) /\
  (forall sent w,
     batch <> [] -> unsendable batch = false ->
     send_email (List.length batch)
       (filter (fun p => path_exists p (world s))
               (List.map report_path batch)) (world s) = (Ret sent, w) ->
     fst (main cfg s_start) = Ret Completed /\
     (sent = false ->
      processed_scans (snd (main cfg s_start)) = processed_scans s /\
      store (snd (main cfg s_start)) = store s)) /\
  (forall e w,
     batch <> [] -> unsendable batch = false ->
     send_email (List.length batch)
       (filter (fun p => path_exists p (world s))
               (List.map report_path batch)) (world s) = (Raise e, w) ->
     fst (main cfg s_start) = Ret (SysExit 1) /\
     processed_scans (snd (main cfg s_start)) = processed_scans s /\
     store (snd (main cfg s_start)) = store s) /\
  (count is_send (trace (snd (main cfg s_start)))
   <= count is_send (trace s) + 1)%nat.
Proof.
  intros Hp.
  pose proof (process_scans_fresh _ _ Hp) as Hfresh.
  assert (Hhash : Forall (fun r => hashable (scan_id r) = true) batch).
  { eapply Forall_impl; [|exact Hfresh]. intros r [Hh _]. exact Hh. }
  assert (Hmain : main cfg s_start
                  = match notify_and_commit cfg batch s with
                    | (Ret _, s2) => (Ret Completed, s2)
                    | (Raise _, s2) => (Ret (SysExit 1), s2)
                    end).
  { unfold main, try_except, bind.
    pose proof (init_returns s_start) as Hi.
    destruct (ScanProcessor_init s_start) as [[[]|e0] s0]; simpl in *;
      [|discriminate Hi].
    rewrite Hp.
    destruct (notify_and_commit cfg batch s) as [[[]|e] s2]; reflexivity. }
  rewrite Hmain. clear Hmain.
  split; [|split; [|split]].
  - intros ->. reflexivity.
  - intros sent w Hne Hu Hsend.
    unfold notify_and_commit.
    destruct batch as [|r batch]; [congruence|].
    cbv iota. set (b := r :: batch) in *. clearbody b.
    unfold_m. rewrite build_email_html_unsendable, Hu.
    cbv beta iota. simpl world. rewrite Hsend. cbv beta iota.
    destruct sent.
    + match goal with
      | |- context [mark_all cfg b ?t] =>
          pose proof (mark_all_returns cfg Hhash t) as Hr;
          destruct (mark_all cfg b t) as [[[]|e] s2]; simpl in *;
            [|discriminate Hr]
      end.
      split; [reflexivity|]. intros Hf. discriminate Hf.
    + simpl. split; [reflexivity|]. intros _. split; reflexivity.
  - intros e w Hne Hu Hsend.
    unfold notify_and_commit.
    destruct batch as [|r batch]; [congruence|].
    cbv iota. set (b := r :: batch) in *. clearbody b.
    unfold_m. rewrite build_email_html_unsendable, Hu.
    cbv beta iota. simpl world. rewrite Hsend. simpl.
    repeat split; reflexivity.
  - assert (Hmark : forall l (t : pstate W),
              count is_send (trace (snd (mark_all cfg l t)))
              = count is_send (trace t)).
    { induction l as [|r l IH]; intros t; [reflexivity|].
      simpl. unfold bind.
      assert (H1 : count is_send
                     (trace (snd (mark_as_processed cfg (scan_id r) t)))
                   = count is_send (trace t)).
      { unfold mark_as_processed, set_contains, _save_processed_scans.
        unfold_m. destruct (hashable (scan_id r)); [|reflexivity].
        destruct (member (scan_id r) (processed_scans t)); simpl;
          [reflexivity|].
        destruct (write_file _ _ _) as [[| |] w]; simpl;
          rewrite count_snoc; simpl; lia. }
      destruct (mark_as_processed cfg (scan_id r) t) as [[[]|e] t1];
        simpl in *; [rewrite IH|]; exact H1. }
    unfold notify_and_commit.
    destruct batch as [|r batch]; [simpl; lia|].
    cbv iota. set (b := r :: batch) in *. clearbody b.
    unfold_m.
    destruct (build_email_html b) as [[]|e]; [|simpl; lia].
    cbv beta iota. simpl world.
    destruct (send_email _ _ (world s)) as [[[|]|e] w]; simpl;
      try (rewrite count_snoc; simpl; lia).
    match goal with
    | |- context [mark_all cfg b ?t] =>
        pose proof (Hmark b t) as Hc;
        destruct (mark_all cfg b t) as [[[]|e] s2]; simpl in *;
          rewrite Hc, count_snoc; simpl; lia
    end.
Qed.

Lemma poisoned_discovery_run :
  process_scans sample_config
    (snd (ScanProcessor_init (start poisoned [] FileAbsent)))
  = (Ret poisoned_batch, snd poisoned_discovery).
Proof. vm_compute. reflexivity. Defined.

Lemma unsendable_batch_witness :
  notify_and_commit sample_config [result_with JNull]
    (start silent [] FileAbsent)
  = (Raise AttributeError, start silent [] FileAbsent) /\
  main sample_config (start poisoned [] FileAbsent)
  = (Ret (SysExit 1), snd poisoned_discovery).
Proof.
  split.
  - apply (proj1 (proj2 (unsendable_batch script_env sample_config
                           [result_with JNull] (start silent [] FileAbsent)))).
    reflexivity.
  - apply (proj2 (proj2 (unsendable_batch script_env sample_config
                           poisoned_batch (snd poisoned_discovery)))
             (start poisoned [] FileAbsent)).
    + reflexivity.
    + exact poisoned_discovery_run.
Defined.

Lemma quiet_discovery_run :
  process_scans sample_config
    (snd (ScanProcessor_init
            (start (happy_with_mail (Ret false)) [] FileAbsent)))
  = (Ret quiet_batch, snd quiet_discovery).
Proof. vm_compute. reflexivity. Defined.

Lemma main_outcomes_witness :
  fst (main sample_config (start (happy_with_mail (Ret false)) [] FileAbsent))
  = Ret Completed /\
  processed_scans
    (snd (main sample_config
            (start (happy_with_mail (Ret false)) [] FileAbsent)))
  = processed_scans (snd quiet_discovery).
Proof.
  destruct (main_outcomes script_env sample_config
              (start (happy_with_mail (Ret false)) [] FileAbsent)
              quiet_discovery_run) as (_ & Hsent & _).
  destruct (Hsent false (world (snd quiet_discovery))) as [Hc Hsame].
  - discriminate.
  - reflexivity.
  - reflexivity.
  - split; [exact Hc|]. apply Hsame. reflexivity.
Defined.

(** ** Sending the email *)

Section EmailSenderFacts.

Context {W : Type} `{Mailer W}.

Lemma attach_files_subset (attachments : list Path) :
  forall w : W,
    (List.length (fst (attach_files attachments w))
     <= List.length attachments)%nat /\
    forall p, In p (fst (attach_files attachments w)) -> In p attachments.
Proof.
  induction attachments as [|a rest IH]; intros w; simpl.
  - split; [lia|tauto].
  - destruct (is_file a w).
    + destruct (read_file a w) as [[[]|e] w1].
      * destruct (IH w1) as [Hlen Hin].
        destruct (attach_files rest w1) as [parts w2]. simpl in *.
        split; [lia|]. intros p [->|Hp]; auto.
      * destruct (IH w1) as [Hlen Hin]. split; [lia|]. auto.
    + destruct (IH w) as [Hlen Hin]. split; [lia|]. auto.
Qed.

Lemma attach_files_read (attachments : list Path) :
  forall (w : W) (p : Path),
    In p (fst (attach_files attachments w)) ->
    exists w0 w1, is_file p w0 = true /\ read_file p w0 = (Ret tt, w1).
Proof.
  induction attachments as [|a rest IH]; intros w p; simpl; [tauto|].
  destruct (is_file a w) eqn:Hf.
  - destruct (read_file a w) as [[[]|e] w1] eqn:Hr.
    + specialize (IH w1 p).
      destruct (attach_files rest w1) as [parts w2]. simpl in *.
      intros [<-|Hp]; [exists w, w1; split; assumption|auto].
    + apply IH.
  - apply IH.
Qed.

Lemma attach_files_all (attachments : list Path) :
  (forall p w, In p attachments ->
     is_file p w = true /\ exists w1, read_file p w = (Ret tt, w1)) ->
  forall w : W, fst (attach_files attachments w) = attachments.
Proof.
  induction attachments as [|a rest IH]; intros Hall w; [reflexivity|].
  simpl. destruct (Hall a w (or_introl eq_refl)) as [Hf [w1 Hr]].
  rewrite Hf, Hr.
  assert (Hrest : forall p w0, In p rest ->
            is_file p w0 = true /\ exists w2, read_file p w0 = (Ret tt, w2)).
  { intros p w0 Hp. apply Hall. right. exact Hp. }
  specialize (IH Hrest w1).
  destruct (attach_files rest w1) as [parts w2]. simpl in *.
  rewrite IH. reflexivity.
Qed.

End EmailSenderFacts.

(** Case analysis on every step of the dialogue. *)
Ltac mail_steps :=
  repeat (match goal with
          | |- context [smtp_starttls ?w] =>
              destruct (smtp_starttls w) as [[[]|?] ?]
          | |- context [smtp_login ?a ?b ?w] =>
              destruct (smtp_login a b w) as [[[]|?] ?]
          | |- context [smtp_send_message ?m ?w] =>
              destruct (smtp_send_message m w) as [[[]|?] ?]
          | |- context [smtp_quit ?w] =>
              destruct (smtp_quit w) as [[[]|?] ?]
          end; simpl).

Ltac mail_facts :=
  intros; simpl in *;
  repeat match goal with
         | Hin : _ \/ _ |- _ => destruct Hin as [Hin|Hin]
         | Hin : False |- _ => destruct Hin
         | Heq : _ = _ |- _ => first [discriminate Heq | injection Heq as Heq]
         end;
  subst;
  repeat split; intros; simpl;
  first [ reflexivity | discriminate | congruence | tauto | eauto 8 ].

(** X20: [send_email] returns [True] exactly when the whole dialogue with
    the mail server went through: connect, STARTTLS when [use_tls] is set,
    login when user name and password are both set, send, quit. It logs in
    only with both credentials and, with [use_tls], only after STARTTLS
    succeeded; it sends only the message it built, never before a
    successful STARTTLS when [use_tls] is set and never before a successful
    login when there are credentials. Once connected, the session is
    quit. *)
Theorem send_email_dialogue W (M0 : Mailer W) (config : EmailConfig)
    (subject html_content : str) (attachments : list Path)
    (to_recipients : option (list str)) (s : mail_state W) :
  let msg :=
    message_of config subject html_content attachments to_recipients
      (mail_world s) in
  let out :=
    send_email_impl config subject html_content attachments to_recipients s in
  exists new,
    mail_log (snd out) = mail_log s ++ new /\
    (fst out = true <-> new = smtp_plan config msg) /\
    (forall m ok,
       In (MSend m ok) new ->
       m = msg /\
       (use_tls config = true -> In (MStartTls true) new) /\
       (username config <> [] -> password config <> [] ->
        In (MLogin (username config) (password config) true) new)) /\
    (forall u p ok,
       In (MLogin u p ok) new ->
       u = username config /\ p = password config /\
       u <> [] /\ p <> [] /\
       (use_tls config = true -> In (MStartTls true) new)) /\
    (In (MConnect (smtp_server config) (smtp_port config) true) new ->
     exists ok, last new (MQuit false) = MQuit ok).
Proof.
  unfold send_email_impl, message_of, smtp_plan, smtp_body, dialogue.
  destruct (attach_files attachments (mail_world s)) as [parts w0].
  simpl fst. simpl mail_world. simpl mail_log.
  destruct (smtp_connect (smtp_server config) (smtp_port config) w0)
    as [[[]|e] w1];
    destruct (use_tls config) eqn:Htls;
    destruct (username config) as [|c1 u] eqn:Hu;
    destruct (password config) as [|c2 p] eqn:Hp;
    simpl; mail_steps;
    rewrite <- ?app_assoc; simpl;
    (eexists; split; [reflexivity|]);
    (split; [split; intros Heq; first [reflexivity | discriminate Heq]|]);
    (split; [mail_facts|]);
    (split; [mail_facts|]);
    mail_facts.
Qed.

(** X21: the message carries only files from the given attachments, at
    most as many, and all of them, in their order, when every one is a
    file that can be read. Every file it carries was there and was read:
    a file that is missing, and a file whose reading raises, is left out,
    and the message is built without it. Without recipients, or with an
    empty list of them, the message goes to the configured recipient. *)
Theorem message_attachments W (M0 : Mailer W) (config : EmailConfig)
    (subject html_content : str) (attachments : list Path)
    (to_recipients : option (list str)) (w : W) :
  let msg :=
    message_of config subject html_content attachments to_recipients w in
  (forall p, In p (msg_parts msg) -> In p attachments) /\
  (List.length (msg_parts msg) <= List.length attachments)%nat /\
  ((forall p w0, In p attachments ->
      is_file p w0 = true /\ exists w1, read_file p w0 = (Ret tt, w1)) ->
   msg_parts msg = attachments) /\
  (to_recipients = None \/ to_recipients = Some [] ->
   msg_to msg = recipient config) /\
  (forall p, In p (msg_parts msg) ->
     exists w0 w1, is_file p w0 = true /\ read_file p w0 = (Ret tt, w1)) /\
  (forall p, (forall w0, is_file p w0 = false) -> ~ In p (msg_parts msg)) /\
  (forall p,
     (forall w0, exists e w1, read_file p w0 = (Raise e, w1)) ->
     ~ In p (msg_parts msg)).
Proof.
  simpl. destruct (attach_files_subset attachments w) as [Hlen Hin].
  split; [exact Hin|]. split; [exact Hlen|].
  split; [|split; [|split; [|split]]].
  - intros Hall. apply attach_files_all, Hall.
  - intros [-> | ->]; reflexivity.
  - intros p. apply attach_files_read.
  - intros p Hgone Hp.
    destruct (attach_files_read attachments w p Hp) as (w0 & w1 & Hf & _).
    rewrite Hgone in Hf. discriminate Hf.
  - intros p Hbad Hp.
    destruct (attach_files_read attachments w p Hp) as (w0 & w1 & _ & Hr).
    destruct (Hbad w0) as (e & w2 & Hr'). rewrite Hr' in Hr.
    discriminate Hr.
Qed.

Lemma send_email_dialogue_witness :
  fst (send_email_impl (H := server_refusing (fun _ => false)) sample_email
         (lit "Acunetix Scan Report - 1 scans processed") (lit "<html/>")
         [ {| parent := lit "reports"; name := lit "a.html" |} ] None
         fresh_mail) = true.
Proof.
  destruct (send_email_dialogue (server_refusing (fun _ => false))
              sample_email (lit "Acunetix Scan Report - 1 scans processed")
              (lit "<html/>")
              [ {| parent := lit "reports"; name := lit "a.html" |} ] None
              fresh_mail) as (new & Hlog & Hiff & _).
  apply Hiff. simpl in Hlog. rewrite <- Hlog. reflexivity.
Defined.

Lemma message_attachments_witness :
  msg_parts
    (message_of (H := server_refusing (fun _ => false)) sample_email
       (lit "subject") (lit "<html/>")
       [ {| parent := lit "reports"; name := lit "a.html" |} ] None tt)
  = [ {| parent := lit "reports"; name := lit "a.html" |} ] /\
  msg_to
    (message_of (H := server_refusing (fun _ => false)) sample_email
       (lit "subject") (lit "<html/>") [] (Some []) tt)
  = lit "team@example.com" /\
  ~ In {| parent := lit "reports"; name := lit "gone.html" |}
      (msg_parts
         (message_of (H := machine_without (lit "gone.html")) sample_email
            (lit "subject") (lit "<html/>")
            [ {| parent := lit "reports"; name := lit "a.html" |};
              {| parent := lit "reports"; name := lit "gone.html" |} ]
            None tt)).
Proof.
  split; [|split].
  - apply (message_attachments (server_refusing (fun _ => false))
             sample_email (lit "subject") (lit "<html/>")
             [ {| parent := lit "reports"; name := lit "a.html" |} ] None tt).
    intros p w0 _. split; [reflexivity|]. exists w0. reflexivity.
  - apply (message_attachments (server_refusing (fun _ => false))
             sample_email (lit "subject") (lit "<html/>") [] (Some []) tt).
    right. reflexivity.
  - apply (proj1 (proj2 (proj2 (proj2 (proj2 (proj2
             (message_attachments (machine_without (lit "gone.html"))
                sample_email (lit "subject") (lit "<html/>")
                [ {| parent := lit "reports"; name := lit "a.html" |};
                  {| parent := lit "reports"; name := lit "gone.html" |} ]
                None tt))))))).
    intros w0. reflexivity.
Defined.

(** ** The effort of a run *)

Section AtMost.

Context {W : Type} `{Env W}.
Variable k : kind.

Lemma at_most_ret {A} (a : A) (n : nat) : at_most (W := W) k n (ret a).
Proof. intros s. simpl. lia. Qed.

Lemma at_most_raise {A} (e : exn) (n : nat) :
  at_most (W := W) (A := A) k n (raise e).
Proof. intros s. simpl. lia. Qed.

Lemma at_most_lift {A} (r : res A) (n : nat) : at_most (W := W) k n (lift r).
Proof. intros s. simpl. lia. Qed.

Lemma at_most_get_processed (n : nat) : at_most (W := W) k n get_processed.
Proof. intros s. simpl. lia. Qed.

Lemma at_most_ask {A} (f : W -> A * W) (n : nat) : at_most k n (ask f).
Proof. intros s. unfold ask. destruct (f (world s)). simpl. lia. Qed.

Lemma at_most_ask_res {A} (f : W -> res A * W) (n : nat) :
  at_most k n (ask_res f).
Proof.
  intros s. unfold ask_res, bind, ask, lift.
  destruct (f (world s)) as [[a|e] w]; simpl; lia.
Qed.

Lemma at_most_emit (e : event) (n : nat) :
  ((if of_kind k e then 1 else 0) <= n)%nat -> at_most (W := W) k n (emit e).
Proof.
  intros Hn s. unfold emit. simpl. rewrite count_snoc.
  destruct (of_kind k e); lia.
Qed.

Lemma at_most_bind {A B} (n1 n : nat) (m : M W A) (f : A -> M W B) :
  at_most k n1 m -> (n1 <= n)%nat ->
  (forall a, at_most k (n - n1) (f a)) ->
  at_most k n (bind m f).
Proof.
  intros Hm Hle Hf s. unfold bind. specialize (Hm s).
  destruct (m s) as [[a|e] s1]; simpl in *.
  - specialize (Hf a s1). lia.
  - lia.
Qed.

Lemma at_most_try {A} (n1 n : nat) (m : M W A) (h : exn -> M W A) :
  at_most k n1 m -> (n1 <= n)%nat ->
  (forall e, at_most k (n - n1) (h e)) ->
  at_most k n (try_except m h).
Proof.
  intros Hm Hle Hh s. unfold try_except. specialize (Hm s).
  destruct (m s) as [[a|e] s1]; simpl in *.
  - lia.
  - specialize (Hh e s1). lia.
Qed.

Lemma at_most_sleep (d : sleep_kind) (n : nat) : at_most (W := W) k n (sleep d).
Proof.
  intros s. unfold sleep, bind, emit, lift. simpl.
  destruct (time_sleep d); simpl; rewrite count_snoc; simpl; lia.
Qed.

End AtMost.

(** A computation without calls and requests. *)
Ltac am_leaf :=
  first [ apply at_most_ret | apply at_most_raise | apply at_most_lift
        | apply at_most_get_processed | apply at_most_ask
        | apply at_most_ask_res | apply at_most_sleep
        | apply at_most_emit; simpl; lia
        | apply (at_most_bind (n1 := 0));
          [am_leaf | lia | intros ?; rewrite Nat.sub_0_r; am_leaf] ].

(** Splits off the head of a sequence when the head is such a
    computation. *)
Ltac am_free :=
  match goal with
  | |- at_most _ _ (bind (if ?c then _ else _) _) => destruct c
  | |- at_most ?k ?n (bind _ _) =>
      apply (at_most_bind (k := k) (n1 := 0) (n := n));
      [ solve [am_leaf] | lia | intros ?; rewrite Nat.sub_0_r ]
  | |- at_most _ _ (if ?c then _ else _) => destruct c
  | |- at_most _ _ (match ?x with _ => _ end) => destruct x
  | |- at_most _ _ _ => solve [am_leaf]
  end.

Section Effort.

Context {W : Type} `{Env W}.
Variable cfg : AppConfig.
Variable k : kind.

Lemma am_request_loop (method full_url : str) (body : option json)
    (n : nat) :
  forall (attempt : Z) (N : nat),
    (n * hit k KRequest <= N)%nat ->
    at_most k N (request_loop (acunetix cfg) method full_url body n attempt).
Proof.
  induction n as [|n IH]; intros attempt N HN; simpl; [am_leaf|].
  apply (at_most_try (k := k) (n1 := hit k KRequest) (n := N)).
  - apply (at_most_bind (k := k) (n1 := hit k KRequest) (n := hit k KRequest)).
    + apply at_most_emit. unfold of_kind, hit. simpl. lia.
    + lia.
    + intros _. repeat am_free.
  - simpl in HN. lia.
  - intros e. destruct e; try am_leaf.
    repeat am_free; apply IH; simpl in HN; lia.
Qed.

Lemma am_make_request (method endpoint : str) (body : option json)
    (N : nat) :
  (attempts cfg * hit k KRequest <= N)%nat ->
  at_most k N (_make_request (acunetix cfg) method endpoint body).
Proof. intros HN. unfold _make_request. apply am_request_loop. exact HN. Qed.

Lemma am_generate_report (target : json) (N : nat) :
  (hit k KGenerate + attempts cfg * hit k KRequest <= N)%nat ->
  at_most k N (generate_report (acunetix cfg) target).
Proof.
  intros HN. unfold generate_report.
  apply (at_most_bind (k := k) (n1 := hit k KGenerate) (n := N)).
  - apply at_most_emit. unfold of_kind, hit. simpl. lia.
  - lia.
  - intros _. destruct (negb (truthy target)); [am_leaf|].
    apply am_make_request. lia.
Qed.

Lemma am_get_report_status (rid : json) (N : nat) :
  (hit k KPoll + attempts cfg * hit k KRequest <= N)%nat ->
  at_most k N (get_report_status (acunetix cfg) rid).
Proof.
  intros HN. unfold get_report_status.
  apply (at_most_bind (k := k) (n1 := hit k KPoll) (n := N)).
  - apply at_most_emit. unfold of_kind, hit. simpl. lia.
  - lia.
  - intros _. destruct (negb (truthy rid)); [am_leaf|].
    apply am_make_request. lia.
Qed.

Lemma am_fetch_all_scans (N : nat) :
  (hit k KFetch + attempts cfg * hit k KRequest <= N)%nat ->
  at_most k N (fetch_all_scans (acunetix cfg)).
Proof.
  intros HN. unfold fetch_all_scans.
  apply (at_most_bind (k := k) (n1 := hit k KFetch) (n := N)).
  - apply at_most_emit. unfold of_kind, hit. simpl. lia.
  - lia.
  - intros _.
    apply (at_most_bind (k := k) (n1 := attempts cfg * hit k KRequest)
             (n := N - hit k KFetch)).
    + apply am_make_request. lia.
    + lia.
    + intros result. repeat am_free.
Qed.

Lemma am_download_report (u : json) (p : Path) (N : nat) :
  (hit k KDownload + hit k KStream <= N)%nat ->
  at_most k N (download_report (acunetix cfg) u p).
Proof.
  intros HN. unfold download_report.
  apply (at_most_bind (k := k) (n1 := hit k KDownload) (n := N)).
  - apply at_most_emit. unfold of_kind, hit. simpl. lia.
  - lia.
  - intros _. destruct (negb (truthy u)); [am_leaf|].
    apply (at_most_try (k := k) (n1 := hit k KStream)
             (n := N - hit k KDownload)).
    + destruct u; try am_leaf.
      apply (at_most_bind (k := k) (n1 := hit k KStream)).
      * apply at_most_emit. unfold of_kind, hit. simpl. lia.
      * lia.
      * intros _. am_leaf.
    + lia.
    + intros e. am_leaf.
Qed.

Lemma am_wait_loop (rid : json) (n : nat) :
  forall N : nat,
    (n * (hit k KPoll + attempts cfg * hit k KRequest) <= N)%nat ->
    at_most k N (wait_loop cfg rid n).
Proof.
  induction n as [|n IH]; intros N HN; simpl; [am_leaf|].
  simpl in HN.
  apply (at_most_bind (k := k)
           (n1 := hit k KPoll + attempts cfg * hit k KRequest) (n := N)).
  - apply (at_most_try (k := k)
             (n1 := hit k KPoll + attempts cfg * hit k KRequest)).
    + apply (at_most_bind (k := k)
               (n1 := hit k KPoll + attempts cfg * hit k KRequest)).
      * apply am_get_report_status. lia.
      * lia.
      * intros report. repeat am_free.
    + lia.
    + intros e. destruct e; am_leaf.
  - lia.
  - intros step. destruct step; try am_leaf.
    + apply IH. lia.
    + apply (at_most_bind (k := k) (n1 := 0)); [am_leaf|lia|].
      intros _. apply IH. lia.
Qed.

Lemma am_body (scan id tid : json) (N : nat) :
  (per_scan cfg k <= N)%nat ->
  at_most k N (generate_scan_report_body cfg scan id tid).
Proof.
  unfold per_scan. intros HN. unfold generate_scan_report_body.
  apply (at_most_bind (k := k)
           (n1 := hit k KGenerate + attempts cfg * hit k KRequest) (n := N));
    [apply am_generate_report; lia|lia|intros report_data].
  am_free. am_free; [am_leaf|].
  apply (at_most_bind (k := k)
           (n1 := 10 * (hit k KPoll + attempts cfg * hit k KRequest)));
    [apply am_wait_loop; change (Z.to_nat 10) with 10%nat; lia|lia|
     intros report].
  am_free; [am_leaf|].
  am_free. am_free. am_free. am_free. am_free. am_free.
  am_free; [am_leaf|].
  am_free. am_free.
  apply (at_most_bind (k := k) (n1 := hit k KDownload + hit k KStream));
    [apply am_download_report; lia|lia|intros ok].
  repeat am_free.
Qed.

Lemma am_generate_scan_report (scan : json) (N : nat) :
  (per_scan cfg k <= N)%nat ->
  at_most k N (_generate_scan_report cfg scan).
Proof.
  intros HN. unfold _generate_scan_report.
  am_free. am_free. am_free. am_free.
  am_free; [am_leaf|]. am_free. am_free.
  am_free; [am_leaf|]. am_free; [am_leaf|]. am_free; [am_leaf|].
  apply (at_most_try (k := k) (n1 := per_scan cfg k)).
  - apply am_body. lia.
  - lia.
  - intros e. am_leaf.
Qed.

Lemma am_scan_loop (scans : list json) :
  forall (results : list ScanResult) (N : nat),
    (List.length scans * per_scan cfg k <= N)%nat ->
    at_most k N (scan_loop cfg scans results).
Proof.
  induction scans as [|scan scans IH]; intros results N HN; simpl;
    [am_leaf|].
  simpl in HN.
  apply (at_most_bind (k := k) (n1 := per_scan cfg k)).
  - apply (at_most_try (k := k) (n1 := per_scan cfg k)).
    + apply (at_most_bind (k := k) (n1 := per_scan cfg k)).
      * apply am_generate_scan_report. lia.
      * lia.
      * intros result. repeat am_free.
    + lia.
    + intros e. repeat am_free.
  - lia.
  - intros results1. apply IH. lia.
Qed.

End Effort.

Lemma count_ext (p q : event -> bool) (t : list event) :
  (forall e, p e = q e) -> count p t = count q t.
Proof.
  intros Hpq. unfold count. induction t as [|e t IH]; simpl; [reflexivity|].
  rewrite Hpq. destruct (q e); simpl; rewrite IH; reflexivity.
Qed.

Lemma is_generate_kind (t : list event) :
  count is_generate t = count (of_kind KGenerate) t.
Proof.
  apply count_ext. intros e. destruct e as [c| | | | | | |];
    try destruct c; reflexivity.
Qed.

Lemma is_poll_kind (t : list event) :
  count is_poll t = count (of_kind KPoll) t.
Proof.
  apply count_ext. intros e. destruct e as [c| | | | | | |];
    try destruct c; reflexivity.
Qed.

Lemma is_download_kind (t : list event) :
  count is_download t = count (of_kind KDownload) t.
Proof.
  apply count_ext. intros e. destruct e as [c| | | | | | |];
    try destruct c; reflexivity.
Qed.

Lemma is_request_kind (t : list event) :
  count is_request t = count (of_kind KRequest) t.
Proof.
  apply count_ext. intros e. destruct e as [c| | | | | | |];
    try destruct c; reflexivity.
Qed.

Lemma am_process_scans W (E : Env W) cfg (k : kind) (s s1 : pstate W)
    (data : json) :
  fetch_all_scans (acunetix cfg) s = (Ret data, s1) ->
  (count (of_kind k) (trace (snd (process_scans cfg s)))
   <= count (of_kind k) (trace s)
      + (hit k KFetch + attempts cfg * hit k KRequest)
      + List.length (listed data) * per_scan cfg k)%nat.
Proof.
  intros Hf.
  pose proof (@am_fetch_all_scans W E cfg k _ (le_n _) s) as Hfetch.
  rewrite Hf in Hfetch. simpl in Hfetch.
  unfold process_scans, try_except, bind. rewrite Hf.
  unfold listed, lift.
  destruct (get_default data (lit "scans") (JList [])) as [scans|e];
    simpl; [|lia].
  destruct (truthy scans); simpl; [|lia].
  destruct (iterate scans) as [items|e]; simpl; [|lia].
  pose proof (@am_scan_loop W E cfg k items [] _ (le_n _) s1) as Hloop.
  destruct (scan_loop cfg items [] s1) as [[results|e] s2];
    simpl in *; lia.
Qed.

Lemma is_stream_kind (t : list event) :
  count is_stream t = count (of_kind KStream) t.
Proof.
  apply count_ext. intros e. destruct e as [c| | | | | | |];
    try destruct c; reflexivity.
Qed.

(** X22: what a run asks of the session, counted in calls of the client
    and of the session. Processing one scan calls [generate_report] at
    most once, [get_report_status] at most ten times and [download_report]
    at most once; it calls [session.request] at most eleven times
    [attempts], where [attempts] is [max_retries + 1], or 0 when that is
    negative, and the streamed [session.get] of the download at most
    once. A whole run of [process_scans] calls the listing at most once;
    when the listing gives [n] scans to the loop, the run calls
    [generate_report] at most [n] times, [get_report_status] at most
    [10 * n] times, [download_report] and [session.get] at most [n]
    times each, and [session.request] at most [(1 + 11 * n) * attempts]
    times. What the retry adapter of the session sends again inside one
    call is not counted. *)
Theorem effort_bounds W (E : Env W) cfg (s : pstate W) :
  (forall scan,
     let t0 := trace s in
     let t1 := trace (snd (_generate_scan_report cfg scan s)) in
     (count is_generate t1 <= count is_generate t0 + 1)%nat /\
     (count is_poll t1 <= count is_poll t0 + 10)%nat /\
     (count is_download t1 <= count is_download t0 + 1)%nat /\
     (count is_request t1 <= count is_request t0 + 11 * attempts cfg)%nat /\
     (count is_stream t1 <= count is_stream t0 + 1)%nat) /\
  (count (of_kind KFetch) (trace (snd (process_scans cfg s)))
   <= count (of_kind KFetch) (trace s) + 1)%nat /\
  (forall data s1,
     fetch_all_scans (acunetix cfg) s = (Ret data, s1) ->
     let n := List.length (listed data) in
     let t0 := trace s in
     let t1 := trace (snd (process_scans cfg s)) in
     (count is_generate t1 <= count is_generate t0 + n)%nat /\
     (count is_poll t1 <= count is_poll t0 + 10 * n)%nat /\
     (count is_download t1 <= count is_download t0 + n)%nat /\
     (count is_request t1
      <= count is_request t0 + (1 + 11 * n) * attempts cfg)%nat /\
     (count is_stream t1 <= count is_stream t0 + n)%nat).
Proof.
  split; [|split].
  - intros scan t0 t1. subst t0 t1.
    rewrite !is_generate_kind, !is_poll_kind, !is_download_kind,
      !is_request_kind, !is_stream_kind.
    repeat split.
    + pose proof (@am_generate_scan_report W E cfg KGenerate scan _
                    (le_n _) s) as Hb.
      unfold per_scan, hit in Hb. simpl in Hb. lia.
    + pose proof (@am_generate_scan_report W E cfg KPoll scan _
                    (le_n _) s) as Hb.
      unfold per_scan, hit in Hb. simpl in Hb. lia.
    + pose proof (@am_generate_scan_report W E cfg KDownload scan _
                    (le_n _) s) as Hb.
      unfold per_scan, hit in Hb. simpl in Hb. lia.
    + pose proof (@am_generate_scan_report W E cfg KRequest scan _
                    (le_n _) s) as Hb.
      unfold per_scan, hit in Hb. simpl in Hb. lia.
    + pose proof (@am_generate_scan_report W E cfg KStream scan _
                    (le_n _) s) as Hb.
      unfold per_scan, hit in Hb. simpl in Hb. lia.
  - destruct (fetch_all_scans (acunetix cfg) s) as [[data|e] s1] eqn:Hf.
    + pose proof (am_process_scans E cfg KFetch s Hf) as Hb.
      unfold per_scan, hit in Hb. simpl in Hb. lia.
    + pose proof (@am_fetch_all_scans W E cfg KFetch _ (le_n _) s) as Hb.
      rewrite Hf in Hb. unfold hit in Hb. simpl in Hb.
      unfold process_scans, try_except, bind. rewrite Hf. simpl. lia.
  - intros data s1 Hf n t0 t1. subst n t0 t1.
    rewrite !is_generate_kind, !is_poll_kind, !is_download_kind,
      !is_request_kind, !is_stream_kind.
    repeat split.
    + pose proof (am_process_scans E cfg KGenerate s Hf) as Hb.
      unfold per_scan, hit in Hb. simpl in Hb. lia.
    + pose proof (am_process_scans E cfg KPoll s Hf) as Hb.
      unfold per_scan, hit in Hb. simpl in Hb. lia.
    + pose proof (am_process_scans E cfg KDownload s Hf) as Hb.
      unfold per_scan, hit in Hb. simpl in Hb. lia.
    + pose proof (am_process_scans E cfg KRequest s Hf) as Hb.
      unfold per_scan, hit in Hb. simpl in Hb. lia.
    + pose proof (am_process_scans E cfg KStream s Hf) as Hb.
      unfold per_scan, hit in Hb. simpl in Hb. lia.
Qed.

Lemma effort_bounds_witness :
  exists data s1,
    fetch_all_scans (acunetix sample_config) (start happy [] FileAbsent)
    = (Ret data, s1) /\
    (count is_poll
       (trace (snd (process_scans sample_config (start happy [] FileAbsent))))
     <= count is_poll (trace (start happy [] FileAbsent))
        + 10 * List.length (listed data))%nat.
Proof.
  eexists. eexists. split.
  - vm_compute. reflexivity.
  - refine (proj1 (proj2 (proj2 (proj2 (effort_bounds script_env
                                          sample_config
                                          (start happy [] FileAbsent)))
                           _ _ _))).
    vm_compute. reflexivity.
Defined.
